(** * Safalya backend: the contract lifecycle of [contractController.js]

    A shallow embedding of the Express handlers of
    [backend/src/controllers/contractController.js] over a model of the
    Prisma client they call, and the properties of the contract lifecycle
    (request, accept, reject, complete, cancel) proved about them.

    The handlers are [async] functions that thread one shared store through
    a sequence of awaited Prisma calls, any of which may throw.  They are
    modelled in a state-and-exception monad [M] over a [World] that holds
    the store together with the sources of the handlers' non-determinism:
    which storage call fails, what [new Date()] reads, and which identifier
    the database mints for a new row.

    The five lifecycle handlers are embedded.  The user table and its joins
    ([include: { farmer, buyer }]) are left out, and so are the columns that
    only the schema fills in ([createdAt], [updatedAt]). *)

From Stdlib Require Import ZArith Floats.
From stdpp Require Import gmap strings list pretty.

(** ** JavaScript values used by the handlers *)

(** Fields of [req.body] that the handlers read are either absent
    ([undefined]) or strings. *)
Definition truthy (v : option string) : bool :=
  match v with
  | Some s => negb (bool_decide (s = ""))
  | None => false
  end.

(** [a || b] where both sides may be absent. *)
Definition js_or (a b : option string) : option string :=
  if truthy a then a else b.

(** [a || b] where [b] is a string. *)
Definition or_else (a : option string) (b : string) : string :=
  match a with
  | Some s => if bool_decide (s = "") then b else s
  | None => b
  end.

(** The line feed of the template literals. *)
Definition LF : string := String (Ascii.ascii_of_nat 10) EmptyString.

(** ** Data model *)

(** Modelled from the spec: [prisma/schema.prisma] is not among the sources;
    the status of a listing ranges over the three values the handlers write
    ('active', 'contracted', 'completed'). *)
Inductive ListingStatus := active | contracted | listing_completed.

(** Modelled from the spec: the five contract statuses, which are also the
    values [getContracts] accepts as a filter. *)
Inductive ContractStatus := requested | accepted | in_progress | completed | cancelled.

Inductive TransactionType := income | expense.

#[global] Instance ListingStatus_eq_dec : EqDecision ListingStatus.
Proof. solve_decision. Defined.
#[global] Instance ContractStatus_eq_dec : EqDecision ContractStatus.
Proof. solve_decision. Defined.
#[global] Instance TransactionType_eq_dec : EqDecision TransactionType.
Proof. solve_decision. Defined.

(** The text a status takes inside a template literal. *)
Definition ListingStatus_to_string (s : ListingStatus) : string :=
  match s with
  | active => "active"
  | contracted => "contracted"
  | listing_completed => "completed"
  end.

(** Quantities, prices and amounts are JavaScript numbers: IEEE 754 binary64. *)
Module Listing.
Record t := mk {
  id : string;
  farmerId : string;
  cropType : string;
  quantity : float;
  unit : string;
  expectedPrice : float;
  description : option string;
  harvestDate : option Z;
  images : option (list string);
  locationId : option string;
  status : ListingStatus
}.

Definition with_status (s : ListingStatus) (l : t) : t :=
  mk (id l) (farmerId l) (cropType l) (quantity l) (unit l) (expectedPrice l)
     (description l) (harvestDate l) (images l) (locationId l) s.
End Listing.

Module Contract.
Record t := mk {
  id : string;
  listingId : string;
  farmerId : string;
  buyerId : string;
  cropType : string;
  quantity : float;
  agreedPrice : float;
  totalAmount : float;
  status : ContractStatus;
  terms : option string;
  completedAt : option Z
}.

Definition with_status (s : ContractStatus) (c : t) : t :=
  mk (id c) (listingId c) (farmerId c) (buyerId c) (cropType c) (quantity c)
     (agreedPrice c) (totalAmount c) s (terms c) (completedAt c).

Definition with_terms (x : option string) (c : t) : t :=
  mk (id c) (listingId c) (farmerId c) (buyerId c) (cropType c) (quantity c)
     (agreedPrice c) (totalAmount c) (status c) x (completedAt c).

Definition with_completedAt (d : option Z) (c : t) : t :=
  mk (id c) (listingId c) (farmerId c) (buyerId c) (cropType c) (quantity c)
     (agreedPrice c) (totalAmount c) (status c) (terms c) d.
End Contract.

Module Transaction.
Record t := mk {
  id : string;
  userId : string;
  type : TransactionType;
  category : string;
  amount : float;
  description : option string;
  referenceId : option string;
  referenceType : option string;
  transactionDate : Z
}.
End Transaction.

(** The relational store: the listing and contract tables are keyed by their
    primary key, the ledger is kept in insertion order. *)
Record Db := mkDb {
  listings : gmap string Listing.t;
  contracts : gmap string Contract.t;
  transactions : list Transaction.t
}.

Definition set_listings (f : gmap string Listing.t → gmap string Listing.t) (d : Db) : Db :=
  mkDb (f (listings d)) (contracts d) (transactions d).
Definition set_contracts (f : gmap string Contract.t → gmap string Contract.t) (d : Db) : Db :=
  mkDb (listings d) (f (contracts d)) (transactions d).
Definition set_transactions (f : list Transaction.t → list Transaction.t) (d : Db) : Db :=
  mkDb (listings d) (contracts d) (f (transactions d)).

(** ** The world a handler runs in *)

Inductive Error :=
  | StorageFault        (* the storage call itself failed *)
  | RecordNotFound      (* update of a row that does not exist *)
  | UniqueViolation.    (* insert under a primary key already present *)

(** [fault n] tells whether the [n]-th storage call throws, [clock n] is what
    the [n]-th [new Date()] reads (milliseconds), [uuid n] is the [n]-th
    primary key the database mints. *)
Record World := mkWorld {
  db : Db;
  fault : nat → bool;
  calls : nat;
  clock : nat → Z;
  ticks : nat;
  uuid : nat → string;
  minted : nat
}.

Definition no_fault : nat → bool := λ _, false.

Inductive Outcome (A : Type) :=
  | Returned (a : A)
  | Threw (e : Error).
Arguments Returned {A} a.
Arguments Threw {A} e.

Definition M (A : Type) : Type := World → Outcome A * World.

Definition ret {A} (a : A) : M A := λ w, (Returned a, w).
Definition bind {A B} (m : M A) (k : A → M B) : M B :=
  λ w, match m w with
       | (Returned a, w') => k a w'
       | (Threw e, w') => (Threw e, w')
       end.

#[global] Instance M_ret : MRet M := @ret.
#[global] Instance M_bind : MBind M := λ A B k m, bind m k.

(** [new Date()] *)
Definition new_Date : M Z :=
  λ w, (Returned (clock w (ticks w)),
        mkWorld (db w) (fault w) (calls w) (clock w) (S (ticks w)) (uuid w) (minted w)).

(** The default of a primary-key column. *)
Definition mint : M string :=
  λ w, (Returned (uuid w (minted w)),
        mkWorld (db w) (fault w) (calls w) (clock w) (ticks w) (uuid w) (S (minted w))).

(** One awaited Prisma call: it throws when the storage fails, and otherwise
    runs [op] on the store. *)
Definition storage {A} (op : Db → Outcome A * Db) : M A :=
  λ w,
    let w1 := mkWorld (db w) (fault w) (S (calls w)) (clock w) (ticks w) (uuid w) (minted w) in
    if fault w (calls w) then (Threw StorageFault, w1)
    else let '(o, d) := op (db w) in
         (o, mkWorld d (fault w) (S (calls w)) (clock w) (ticks w) (uuid w) (minted w)).

(** ** The Prisma client *)

Module prisma.

Module contractListing.
Definition findUnique (id : string) : M (option Listing.t) :=
      storage (λ d, (Returned (listings d !! id), d)).

Definition update (id : string) (data : Listing.t → Listing.t) : M Listing.t :=
      storage (λ d,
        match listings d !! id with
        | Some l => (Returned (data l), set_listings (alter data id) d)
        | None => (Threw RecordNotFound, d)
        end).
End contractListing.

Module contract.
    (** [findFirst({ where: { id, ...rest } })]: the row under the primary
        key, when it also meets the rest of the filter. *)
Definition findFirst (id : string) (rest : Contract.t → bool) : M (option Contract.t) :=
      storage (λ d,
        (Returned (match contracts d !! id with
                   | Some c => if rest c then Some c else None
                   | None => None
                   end), d)).

Definition update (id : string) (data : Contract.t → Contract.t) : M Contract.t :=
      storage (λ d,
        match contracts d !! id with
        | Some c => (Returned (data c), set_contracts (alter data id) d)
        | None => (Threw RecordNotFound, d)
        end).

    (** [update] with [include: { listing: true }]. *)
Definition update_include (id : string) (data : Contract.t → Contract.t)
      : M (Contract.t * option Listing.t) :=
      storage (λ d,
        match contracts d !! id with
        | Some c => (Returned (data c, listings d !! Contract.listingId (data c)),
                     set_contracts (alter data id) d)
        | None => (Threw RecordNotFound, d)
        end).

    (** [create] with [include: { listing: true }]. *)
Definition create_include (data : string → Contract.t)
      : M (Contract.t * option Listing.t) :=
      id ← mint;
      storage (λ d,
        match contracts d !! id with
        | Some _ => (Threw UniqueViolation, d)
        | None => (Returned (data id, listings d !! Contract.listingId (data id)),
                   set_contracts (insert id (data id)) d)
        end).
End contract.

Module transaction.
Definition create (data : string → Transaction.t) : M Transaction.t :=
      id ← mint;
      storage (λ d,
        if existsb (λ t, bool_decide (Transaction.id t = id)) (transactions d)
        then (Threw UniqueViolation, d)
        else (Returned (data id), set_transactions (λ ts, (ts ++ [data id])%list) d)).
End transaction.

End prisma.

(** ** Requests and responses *)

(** [req.user], as the authentication middleware leaves it. *)
Record User := mkUser {
  user_id : string;
  role : string
}.

(** The fields of [req.body] the lifecycle handlers destructure. *)
Module Body.
Record t := mk {
  message : option string;
  terms : option string;
  requestId : option string;
  reason : option string;
  deliveryProof : option string
}.
Definition empty : t := mk None None None None None.
End Body.

Record Request := mkRequest {
  user : User;
  params_id : string;
  body : Body.t
}.

(** The response envelope.  [data] is the contract with its included
    listing; the included [farmer] and [buyer] rows belong to the user table,
    which is outside this model.  [error] is the pair of [code] and
    [details]. *)
Module Response.
Record t := mk {
  status : nat;
  success : bool;
  message : string;
  data : option (Contract.t * option Listing.t);
  error : option (string * string);
  timestamp : Z
}.
End Response.

(** [res.status(status).json({ ..., timestamp: new Date().toISOString() })] *)
Definition json (status : nat) (success : bool) (message : string)
    (data : option (Contract.t * option Listing.t))
    (error : option (string * string)) : M Response.t :=
  now ← new_Date;
  mret (Response.mk status success message data error now).

(** The ternary shared by reject, complete and cancel:
    [note ? `${contract.terms || ''}\n<label>: ${note}` : contract.terms] *)
Definition note_terms (label : string) (note : option string)
    (contract_terms : option string) : option string :=
  match note with
  | Some n =>
      if truthy note
      then Some (or_else contract_terms "" +:+ LF +:+ label +:+ ": " +:+ n)
      else contract_terms
  | None => contract_terms
  end.

(** ** The handlers

    A handler that returns [Threw e] has reached its [catch] clause and
    called [next(error)]. *)

Definition requestContract (req : Request) : M Response.t :=
  if negb (bool_decide (role (user req) = "buyer")) then
    json 403 false "Only buyers can request contracts." None
         (Some ("FORBIDDEN", "This action is restricted to buyers"))
  else
    let id := params_id req in
    listing ← prisma.contractListing.findUnique id;
    match listing with
    | None =>
        json 404 false "Listing not found." None
             (Some ("NOT_FOUND", "Listing does not exist"))
    | Some listing =>
        if negb (bool_decide (Listing.status listing = active)) then
          json 400 false "Listing is not available." None
               (Some ("LISTING_UNAVAILABLE",
                      "Listing status is " +:+ ListingStatus_to_string (Listing.status listing)))
        else if bool_decide (Listing.farmerId listing = user_id (user req)) then
          json 400 false "Cannot request your own listing." None
               (Some ("INVALID_REQUEST",
                      "You cannot request a contract for your own listing"))
        else
          contract ← prisma.contract.create_include (λ id,
            Contract.mk id
              (Listing.id listing)
              (Listing.farmerId listing)
              (user_id (user req))
              (Listing.cropType listing)
              (Listing.quantity listing)
              (Listing.expectedPrice listing)
              (PrimFloat.mul (Listing.quantity listing) (Listing.expectedPrice listing))
              requested
              (js_or (Body.terms (body req)) (Body.message (body req)))
              None);
          json 201 true "Contract request created successfully." (Some contract) None
    end.

Definition acceptContract (req : Request) : M Response.t :=
  let id := params_id req in
  let requestId := Body.requestId (body req) in
  contract ← prisma.contract.findFirst (or_else requestId id) (λ c,
    bool_decide (Contract.farmerId c = user_id (user req))
    && bool_decide (Contract.status c = requested));
  match contract with
  | None =>
      json 404 false "Contract request not found." None
           (Some ("NOT_FOUND", "Contract does not exist or is not in requested status"))
  | Some contract =>
      updatedContract ← prisma.contract.update_include (Contract.id contract)
        (Contract.with_status accepted);
      _ ← prisma.contractListing.update (Contract.listingId contract)
        (Listing.with_status contracted);
      json 200 true "Contract accepted successfully." (Some updatedContract) None
  end.

Definition rejectContract (req : Request) : M Response.t :=
  let id := params_id req in
  let reason := Body.reason (body req) in
  contract ← prisma.contract.findFirst id (λ c,
    (bool_decide (Contract.farmerId c = user_id (user req))
     || bool_decide (Contract.buyerId c = user_id (user req)))
    && bool_decide (Contract.status c ∈ [requested; accepted]));
  match contract with
  | None =>
      json 404 false "Contract not found." None
           (Some ("NOT_FOUND", "Contract does not exist or cannot be rejected"))
  | Some contract =>
      _ ← prisma.contract.update (Contract.id contract) (λ row,
        Contract.with_terms (note_terms "Rejection reason" reason (Contract.terms contract))
          (Contract.with_status cancelled row));
      _ ← (if bool_decide (Contract.status contract = accepted) then
             _ ← prisma.contractListing.update (Contract.listingId contract)
               (Listing.with_status active);
             mret ()
           else mret ());
      json 200 true "Contract rejected successfully." None None
  end.

Definition completeContract (req : Request) : M Response.t :=
  let id := params_id req in
  let deliveryProof := Body.deliveryProof (body req) in
  contract ← prisma.contract.findFirst id (λ c,
    (bool_decide (Contract.farmerId c = user_id (user req))
     || bool_decide (Contract.buyerId c = user_id (user req)))
    && bool_decide (Contract.status c ∈ [accepted; in_progress]));
  match contract with
  | None =>
      json 404 false "Contract not found." None
           (Some ("NOT_FOUND", "Contract does not exist or cannot be completed"))
  | Some contract =>
      completedAt ← new_Date;
      updatedContract ← prisma.contract.update_include (Contract.id contract) (λ row,
        Contract.with_terms (note_terms "Delivery proof" deliveryProof (Contract.terms contract))
          (Contract.with_completedAt (Some completedAt)
            (Contract.with_status completed row)));
      _ ← prisma.contractListing.update (Contract.listingId contract)
        (Listing.with_status listing_completed);
      saleDate ← new_Date;
      _ ← prisma.transaction.create (λ tid,
        Transaction.mk tid
          (Contract.farmerId contract)
          income
          "sale"
          (Contract.totalAmount contract)
          (Some ("Sale of " +:+ Contract.cropType contract +:+ " - Contract " +:+ Contract.id contract))
          (Some (Contract.id contract))
          (Some "contract")
          saleDate);
      purchaseDate ← new_Date;
      _ ← prisma.transaction.create (λ tid,
        Transaction.mk tid
          (Contract.buyerId contract)
          expense
          "purchase"
          (Contract.totalAmount contract)
          (Some ("Purchase of " +:+ Contract.cropType contract +:+ " - Contract " +:+ Contract.id contract))
          (Some (Contract.id contract))
          (Some "contract")
          purchaseDate);
      json 200 true "Contract completed successfully." (Some updatedContract) None
  end.

Definition cancelContract (req : Request) : M Response.t :=
  let id := params_id req in
  let reason := Body.reason (body req) in
  contract ← prisma.contract.findFirst id (λ c,
    (bool_decide (Contract.farmerId c = user_id (user req))
     || bool_decide (Contract.buyerId c = user_id (user req)))
    && negb (bool_decide (Contract.status c = completed)));
  match contract with
  | None =>
      json 404 false "Contract not found." None
           (Some ("NOT_FOUND", "Contract does not exist or cannot be cancelled"))
  | Some contract =>
      _ ← prisma.contract.update (Contract.id contract) (λ row,
        Contract.with_terms (note_terms "Cancellation reason" reason (Contract.terms contract))
          (Contract.with_status cancelled row));
      listing ← prisma.contractListing.findUnique (Contract.listingId contract);
      _ ← (match listing with
           | Some l =>
               if bool_decide (Listing.status l = contracted) then
                 _ ← prisma.contractListing.update (Contract.listingId contract)
                   (Listing.with_status active);
                 mret ()
               else mret ()
           | None => mret ()
           end);
      json 200 true "Contract cancelled successfully." None None
  end.

(** [contractRoutes.js]: the lifecycle routes, and a server that answers a
    sequence of requests one after the other. *)
Inductive Route :=
  | POST_request    (* POST /:id/request *)
  | PUT_accept      (* PUT /:id/accept *)
  | PUT_reject      (* PUT /:id/reject *)
  | PUT_complete    (* PUT /:id/complete *)
  | PUT_cancel.     (* PUT /:id/cancel *)

Definition router (r : Route) : Request → M Response.t :=
  match r with
  | POST_request => requestContract
  | PUT_accept => acceptContract
  | PUT_reject => rejectContract
  | PUT_complete => completeContract
  | PUT_cancel => cancelContract
  end.

Definition serve (w : World) (call : Route * Request) : World :=
  (router call.1 call.2 w).2.

Definition serve_all (calls : list (Route * Request)) (w : World) : World :=
  foldl serve w calls.

(** ** What the handlers are specified against *)

(** The caller is one of the two parties of the contract. *)
Definition party (u : User) (c : Contract.t) : Prop :=
  Contract.farmerId c = user_id u ∨ Contract.buyerId c = user_id u.

(** A handler succeeds when it answers (it does not throw) with
    [success: true]. *)
Definition succeeds (res : Outcome Response.t * World) (r : Response.t) (w' : World) : Prop :=
  res = (Returned r, w') ∧ Response.success r = true.

(** The code of the error object of a response. *)
Definition error_code (r : Response.t) : option string :=
  fst <$> Response.error r.

(** Writes applied one after the other. *)
Definition apply_writes (ws : list (Db → Db)) (d : Db) : Db :=
  foldl (λ d f, f d) d ws.

(** The text of the [terms] column inside a template literal:
    [contract.terms || ''] *)
Definition terms_text (c : Contract.t) : string := or_else (Contract.terms c) "".

(** The row an accepted or in-progress contract is turned into by
    [completeContract], and the two ledger entries written with it. *)
Definition completed_row (completedAt : Z) (deliveryProof : option string)
    (c row : Contract.t) : Contract.t :=
  Contract.with_terms (note_terms "Delivery proof" deliveryProof (Contract.terms c))
    (Contract.with_completedAt (Some completedAt) (Contract.with_status completed row)).

Definition sale_entry (tid : string) (date : Z) (c : Contract.t) : Transaction.t :=
  Transaction.mk tid (Contract.farmerId c) income "sale" (Contract.totalAmount c)
    (Some ("Sale of " +:+ Contract.cropType c +:+ " - Contract " +:+ Contract.id c))
    (Some (Contract.id c)) (Some "contract") date.

Definition purchase_entry (tid : string) (date : Z) (c : Contract.t) : Transaction.t :=
  Transaction.mk tid (Contract.buyerId c) expense "purchase" (Contract.totalAmount c)
    (Some ("Purchase of " +:+ Contract.cropType c +:+ " - Contract " +:+ Contract.id c))
    (Some (Contract.id c)) (Some "contract") date.

(** The row a contract is turned into by [rejectContract] and
    [cancelContract]. *)
Definition cancelled_row (label : string) (reason : option string)
    (c row : Contract.t) : Contract.t :=
  Contract.with_terms (note_terms label reason (Contract.terms c))
    (Contract.with_status cancelled row).

(** The writes of each state-changing handler, in the order the handler
    issues them, once it has found its contract [c]. *)
Definition accept_writes (c : Contract.t) : list (Db → Db) :=
  [ set_contracts (alter (Contract.with_status accepted) (Contract.id c));
    set_listings (alter (Listing.with_status contracted) (Contract.listingId c)) ].

Definition reject_writes (c : Contract.t) (reason : option string) : list (Db → Db) :=
  set_contracts (alter (cancelled_row "Rejection reason" reason c) (Contract.id c))
  :: (if bool_decide (Contract.status c = accepted)
      then [ set_listings (alter (Listing.with_status active) (Contract.listingId c)) ]
      else []).

Definition complete_writes (c : Contract.t) (deliveryProof : option string)
    (completedAt : Z) (sale purchase : Transaction.t) : list (Db → Db) :=
  [ set_contracts (alter (completed_row completedAt deliveryProof c) (Contract.id c));
    set_listings (alter (Listing.with_status listing_completed) (Contract.listingId c));
    set_transactions (λ ts, (ts ++ [sale])%list);
    set_transactions (λ ts, (ts ++ [purchase])%list) ].

Definition cancel_writes (c : Contract.t) (reason : option string) (d : Db)
    : list (Db → Db) :=
  set_contracts (alter (cancelled_row "Cancellation reason" reason c) (Contract.id c))
  :: match listings d !! Contract.listingId c with
     | Some l =>
         if bool_decide (Listing.status l = contracted)
         then [ set_listings (alter (Listing.with_status active) (Contract.listingId c)) ]
         else []
     | None => []
     end.

(** The store a handler leaves is the store it found with the first [n] of
    its writes applied, and all of them when it answers. *)
Definition prefix_applied (ws : list (Db → Db)) (d : Db)
    (res : Outcome Response.t * World) : Prop :=
  ∃ n : nat,
    n ≤ length ws
    ∧ db res.2 = apply_writes (take n ws) d
    ∧ ∀ r, res.1 = Returned r → n = length ws ∧ Response.success r = true.

(** Every contract row is stored under its own [id]. *)
Definition keyed (d : Db) : Prop :=
  map_Forall (λ k c, Contract.id c = k) (contracts d).

(** The ledger entries that refer to a contract. *)
Definition ledger_of (id : string) (d : Db) : list Transaction.t :=
  filter (λ t, Transaction.referenceId t = Some id) (transactions d).

(** What may happen to a world after a request has been answered: further
    lifecycle requests are served, and listing rows are edited in any way
    (the controller itself only ever rewrites their [status]).  A request is
    served whole, from its first line to its answer, before the next one
    starts: worlds that are reached only when two handlers overlap at an
    [await] are not among the later ones. *)
Definition edit_listings (f : gmap string Listing.t → gmap string Listing.t)
    (w : World) : World :=
  mkWorld (set_listings f (db w)) (fault w) (calls w) (clock w) (ticks w)
          (uuid w) (minted w).

Inductive later : World → World → Prop :=
  | later_now w : later w w
  | later_served w call w' : later (serve w call) w' → later w w'
  | later_edited w f w' : later (edit_listings f w) w' → later w w'.

(** The fields of a contract that are copied from its listing. *)
Definition snapshot (c : Contract.t) : string * float * float * float :=
  (Contract.cropType c, Contract.quantity c, Contract.agreedPrice c,
   Contract.totalAmount c).

(** [body] variants used to state what a handler reads from the body. *)
Definition with_requestId (x : option string) (req : Request) : Request :=
  mkRequest (user req) (params_id req)
    (Body.mk (Body.message (body req)) (Body.terms (body req)) x
             (Body.reason (body req)) (Body.deliveryProof (body req))).

Definition with_params_id (id : string) (req : Request) : Request :=
  mkRequest (user req) id (body req).

(** The optional note that reject, complete and cancel read from the body,
    and the label under which they file it in the terms. *)
Definition note_of (route : Route) (b : Body.t) : option string :=
  match route with
  | PUT_reject | PUT_cancel => Body.reason b
  | PUT_complete => Body.deliveryProof b
  | POST_request | PUT_accept => None
  end.

Definition note_label (route : Route) : string :=
  match route with
  | PUT_reject => "Rejection reason"
  | PUT_complete => "Delivery proof"
  | PUT_cancel => "Cancellation reason"
  | POST_request | PUT_accept => ""
  end.

(** A handler has answered with [success: true]. *)
Definition ok (res : Outcome Response.t * World) : bool :=
  match res.1 with
  | Returned r => Response.success r
  | Threw _ => false
  end.

(** The store a handler leaves behind. *)
Definition store_after (res : Outcome Response.t * World) : Db := db res.2.

(** ** Invariants *)

(** A write keeps a property of the store. *)
Definition preserves (P : Db → Prop) (f : Db → Db) : Prop :=
  ∀ d, P d → P (f d).


(** A completed contract [c] stored under [k], with the ledger entries [L]
    that refer to it, in a store whose rows are stored under their ids. *)
Definition settled (k : string) (c : Contract.t) (L : list Transaction.t) (d : Db) : Prop :=
  keyed d ∧ contracts d !! k = Some c ∧ ledger_of k d = L.

(** The row stored under [k] carries the snapshot [s]. *)
Definition holds_deal (k : string) (s : string * float * float * float) (d : Db) : Prop :=
  ∃ c, contracts d !! k = Some c ∧ snapshot c = s.


(** ** A marketplace to run the handlers on

    One farmer with one active listing of 100 kg of wheat at 20 per kg, and
    two buyers. *)
Module Scenario.

Definition farmer : User := mkUser "farmer-1" "farmer".
Definition buyer1 : User := mkUser "buyer-1" "buyer".
Definition buyer2 : User := mkUser "buyer-2" "buyer".

Definition wheat : Listing.t :=
  Listing.mk "listing-1" "farmer-1" "wheat" 100%float "kg" 20%float
             None None None None active.

Definition genesis : World :=
  mkWorld (mkDb {[ "listing-1" := wheat ]} ∅ []) no_fault 0
          (λ n, 1700000000000 + Z.of_nat n)%Z 0
          (λ n, "row-" +:+ pretty n) 0.

Definition call (u : User) (id : string) : Request := mkRequest u id Body.empty.

(** The storage call number [k] from now on fails. *)
Definition failing (k : nat) (w : World) : World :=
  mkWorld (db w) (λ n, bool_decide (n = calls w + k)) (calls w) (clock w)
          (ticks w) (uuid w) (minted w).

(** The contract of the first buyer, as it is stored in a given status. *)
Definition first_contract (s : ContractStatus) : Contract.t :=
  Contract.mk "row-0" "listing-1" "farmer-1" "buyer-1" "wheat" 100%float 20%float
              2000%float s None None.

(** The farmer accepts under the path of the first contract while the body
    names the second one. *)
Definition accept_by_alias : Request :=
  mkRequest farmer "row-0" (Body.mk None None (Some "row-1") None None).

(** A rejection that gives its reason. *)
Definition reject_with_reason : Request :=
  mkRequest buyer1 "row-0" (Body.mk None None None (Some "price too low") None).

(** Both buyers have requested the listing: contracts [row-0] and [row-1]. *)
Definition requested_twice : World :=
  serve_all [ (POST_request, call buyer1 "listing-1");
              (POST_request, call buyer2 "listing-1") ] genesis.

(** The farmer has accepted the first request. *)
Definition accepted_once : World :=
  serve requested_twice (PUT_accept, call farmer "row-0").

(** The farmer has then accepted the second request as well. *)
Definition accepted_twice : World :=
  serve accepted_once (PUT_accept, call farmer "row-1").

(** The first contract has been completed. *)
Definition completed_once : World :=
  serve accepted_once (PUT_complete, call buyer1 "row-0").

End Scenario.


(** ** The lifecycle as a transition table *)

(** The contract a route acts on. *)
Definition acted_on (route : Route) (req : Request) : string :=
  match route with
  | PUT_accept => or_else (Body.requestId (body req)) (params_id req)
  | _ => params_id req
  end.

(** The status a route moves a contract of status [s] to, read off the
    status filter of its [findFirst] and the [status] of its [update]. *)
Definition lifecycle (route : Route) (s : ContractStatus) : option ContractStatus :=
  match route, s with
  | PUT_accept, requested => Some accepted
  | PUT_reject, (requested | accepted) => Some cancelled
  | PUT_complete, (accepted | in_progress) => Some completed
  | PUT_cancel, (requested | accepted | in_progress | cancelled) => Some cancelled
  | _, _ => None
  end.

(** The columns of a contract that name the deal and its parties. *)
Definition same_deal (c c' : Contract.t) : Prop :=
  Contract.id c' = Contract.id c
  ∧ Contract.listingId c' = Contract.listingId c
  ∧ Contract.farmerId c' = Contract.farmerId c
  ∧ Contract.buyerId c' = Contract.buyerId c
  ∧ snapshot c' = snapshot c.

(** No storage call fails. *)
Definition fault_free (w : World) : Prop := ∀ n, fault w n = false.

(** The ids of the ledger entries. *)
Definition ledger_ids (d : Db) : list string := Transaction.id <$> transactions d.

(** The ledger entries of a completed contract [c]: its income entry for the
    farmer, followed or not yet followed by its expense entry for the buyer. *)
Definition ledger_pair (c : Contract.t) (L : list Transaction.t) : Prop :=
  ∃ sale rest,
    L = sale :: rest
    ∧ Transaction.type sale = income
    ∧ Transaction.userId sale = Contract.farmerId c
    ∧ Transaction.amount sale = Contract.totalAmount c
    ∧ (rest = []
       ∨ ∃ purchase,
           rest = [purchase]
           ∧ Transaction.type purchase = expense
           ∧ Transaction.userId purchase = Contract.buyerId c
           ∧ Transaction.amount purchase = Contract.totalAmount c).

(** Every ledger entry that refers to a contract refers to a completed one,
    and a contract has at most one income and one expense entry. *)
Definition ledger_sound (d : Db) : Prop :=
  ∀ k, ledger_of k d = []
       ∨ ∃ c, contracts d !! k = Some c
              ∧ Contract.status c = completed
              ∧ ledger_pair c (ledger_of k d).

(** No contract has the same user as farmer and as buyer. *)
Definition no_self_dealing (d : Db) : Prop :=
  map_Forall (λ _ c, Contract.farmerId c ≠ Contract.buyerId c) (contracts d).

(** The row under [k] is the row [c], or it is the row under [key] moved to
    the status [s]; either way it is the same deal. *)
Definition at_most_moved (k key : string) (s : ContractStatus) (c : Contract.t)
    (d : Db) : Prop :=
  ∃ c', contracts d !! k = Some c'
        ∧ same_deal c c'
        ∧ (c' = c ∨ (k = key ∧ Contract.status c' = s)).

(** The listing under [k] is the listing [l] up to its status. *)
Definition only_status_changed (k : string) (l : Listing.t) (d : Db) : Prop :=
  ∃ s, listings d !! k = Some (Listing.with_status s l).

(** ** Reading a contract *)

(** [findFirst] with [include: { listing: ... }]; the rows joined from the
    user and location tables are outside this model. *)
Definition contract_findFirst_include (id : string) (rest : Contract.t → bool)
    : M (option (Contract.t * option Listing.t)) :=
  storage (λ d,
    (Returned (match contracts d !! id with
               | Some c => if rest c then Some (c, listings d !! Contract.listingId c)
                           else None
               | None => None
               end), d)).

Definition getContractById (req : Request) : M Response.t :=
  let id := params_id req in
  let userId := user_id (user req) in
  contract ← contract_findFirst_include id (λ c,
    bool_decide (Contract.farmerId c = userId)
    || bool_decide (Contract.buyerId c = userId));
  match contract with
  | None =>
      json 404 false "Contract not found." None
           (Some ("NOT_FOUND", "Contract does not exist or you do not have access"))
  | Some contract =>
      json 200 true "Contract retrieved successfully." (Some contract) None
  end.

(** ** Reading the ledger: [getTransactionById] of the transaction controller *)

(** The response envelope around a ledger entry. *)
Module TransactionResponse.
Record t := mk {
  status : nat;
  success : bool;
  message : string;
  data : option Transaction.t;
  error : option (string * string);
  timestamp : Z
}.
End TransactionResponse.

(** [prisma.transaction.findFirst({ where: { id, userId } })] *)
Definition transaction_findFirst (id userId : string) : M (option Transaction.t) :=
  storage (λ d,
    (Returned (List.find (λ t, bool_decide (Transaction.id t = id)
                               && bool_decide (Transaction.userId t = userId))
                         (transactions d)), d)).

Definition getTransactionById (req : Request) : M TransactionResponse.t :=
  let id := params_id req in
  let userId := user_id (user req) in
  transaction ← transaction_findFirst id userId;
  match transaction with
  | None =>
      now ← new_Date;
      mret (TransactionResponse.mk 404 false "Transaction not found." None
              (Some ("NOT_FOUND", "Transaction does not exist or you do not have access"))
              now)
  | Some transaction =>
      now ← new_Date;
      mret (TransactionResponse.mk 200 true "Transaction retrieved successfully."
              (Some transaction) None now)
  end.

(** ** The authentication middleware in front of the routes *)

(** The columns of a user row that [authenticate] selects. *)
Module Account.
Record t := mk {
  id : string;
  fullName : string;
  email : option string;
  phone : option string;
  role : string;
  profilePictureUrl : option string;
  isVerified : bool;
  isActive : bool
}.
End Account.

(** What a verified token carries: the payload signed by
    [generateAccessToken({ userId, role })]. *)
Record TokenPayload := mkTokenPayload {
  token_userId : string;
  token_role : string
}.

(** What the middleware does with a request: it answers it, or hands it on
    with [req.user] set. *)
Inductive Gate :=
  | Answered (r : Response.t)
  | Next (user : Account.t).

(** [authHeader.substring(7)] *)
Definition substring_from_7 (s : string) : string :=
  String.substring 7 (String.length s - 7) s.

(** [authenticate].  The verification of the token ([jsonwebtoken] under the
    server's secret) is a parameter, and so are the user table, which no
    handler of this model writes, and the message of a thrown error. *)
Definition authenticate (verifyToken : string → option TokenPayload)
    (users : gmap string Account.t) (message_of : Error → string)
    (authorization : option string) : M Gate :=
  λ w,
    let attempt : M Gate :=
      match authorization with
      | Some authHeader =>
          if String.prefix "Bearer " authHeader then
            let token := substring_from_7 authHeader in
            match verifyToken token with
            | None =>
                r ← json 401 false "Invalid or expired token." None
                       (Some ("UNAUTHORIZED", "Token verification failed"));
                mret (Answered r)
            | Some decoded =>
                user ← storage (λ d, (Returned (users !! token_userId decoded), d));
                match user with
                | None =>
                    r ← json 401 false "User not found." None
                           (Some ("UNAUTHORIZED",
                                  "User associated with token does not exist"));
                    mret (Answered r)
                | Some user =>
                    if negb (Account.isActive user) then
                      r ← json 403 false "Account is deactivated." None
                             (Some ("FORBIDDEN", "User account is inactive"));
                      mret (Answered r)
                    else mret (Next user)
                end
            end
          else
            r ← json 401 false "Authentication required. Please provide a valid token."
                   None (Some ("UNAUTHORIZED", "No token provided"));
            mret (Answered r)
      | None =>
          r ← json 401 false "Authentication required. Please provide a valid token."
                 None (Some ("UNAUTHORIZED", "No token provided"));
          mret (Answered r)
      end in
    match attempt w with
    | (Returned g, w') => (Returned g, w')
    | (Threw error, w') =>
        (r ← json 500 false "Authentication error." None
               (Some ("INTERNAL_ERROR", message_of error));
         mret (Answered r)) w'
    end.

(** [router.use(authenticate)] followed by a route of [contractRoutes.js]:
    the handler runs on the request with [req.user] set by the middleware. *)
Definition protected (verifyToken : string → option TokenPayload)
    (users : gmap string Account.t) (message_of : Error → string)
    (handler : Request → M Response.t)
    (authorization : option string) (id : string) (b : Body.t) : M Response.t :=
  gate ← authenticate verifyToken users message_of authorization;
  match gate with
  | Answered r => mret r
  | Next account =>
      handler (mkRequest (mkUser (Account.id account) (Account.role account)) id b)
  end.

(** ** Who owns a listing *)

(** Every account that owns a listing holds the farmer role.  A listing is
    stored by [createListing] only, which answers 403 to every role but
    farmer before it stores anything and writes [req.user.id] as [farmerId];
    [req.user] is the stored account, and the role of an account is written
    when the account is created and by no later request. *)
Definition owners_are_farmers (users : gmap string Account.t) (d : Db) : Prop :=
  map_Forall (λ _ l,
    map_Forall (λ _ account,
      Account.id account = Listing.farmerId l → Account.role account = "farmer")
      users)
    (listings d).

(** ** Two requests that overlap

    A handler is an [async] function: it runs up to its first [await], and
    goes on from there when the awaited call has answered.  In between the
    server may start the handler of another request. *)

(** [completeContract] up to its first [await]. *)
Definition completeContract_lookup (req : Request) : M (option Contract.t) :=
  let id := params_id req in
  prisma.contract.findFirst id (λ c,
    (bool_decide (Contract.farmerId c = user_id (user req))
     || bool_decide (Contract.buyerId c = user_id (user req)))
    && bool_decide (Contract.status c ∈ [accepted; in_progress])).

(** [completeContract] from the answer of its [findFirst] on. *)
Definition completeContract_resume (req : Request) (contract : option Contract.t)
    : M Response.t :=
  let deliveryProof := Body.deliveryProof (body req) in
  match contract with
  | None =>
      json 404 false "Contract not found." None
           (Some ("NOT_FOUND", "Contract does not exist or cannot be completed"))
  | Some contract =>
      completedAt ← new_Date;
      updatedContract ← prisma.contract.update_include (Contract.id contract) (λ row,
        Contract.with_terms (note_terms "Delivery proof" deliveryProof (Contract.terms contract))
          (Contract.with_completedAt (Some completedAt)
            (Contract.with_status completed row)));
      _ ← prisma.contractListing.update (Contract.listingId contract)
        (Listing.with_status listing_completed);
      saleDate ← new_Date;
      _ ← prisma.transaction.create (λ tid,
        Transaction.mk tid
          (Contract.farmerId contract)
          income
          "sale"
          (Contract.totalAmount contract)
          (Some ("Sale of " +:+ Contract.cropType contract +:+ " - Contract " +:+ Contract.id contract))
          (Some (Contract.id contract))
          (Some "contract")
          saleDate);
      purchaseDate ← new_Date;
      _ ← prisma.transaction.create (λ tid,
        Transaction.mk tid
          (Contract.buyerId contract)
          expense
          "purchase"
          (Contract.totalAmount contract)
          (Some ("Purchase of " +:+ Contract.cropType contract +:+ " - Contract " +:+ Contract.id contract))
          (Some (Contract.id contract))
          (Some "contract")
          purchaseDate);
      json 200 true "Contract completed successfully." (Some updatedContract) None
  end.

(** A handler goes on with what its awaited call answered; when the call has
    thrown, the handler is in its [catch] clause. *)
Definition resume {A B} (k : A → M B) (o : Outcome A) : M B :=
  match o with
  | Returned a => k a
  | Threw e => λ w, (Threw e, w)
  end.

(** Two requests, the second of which arrives while the first waits for its
    first awaited call: both handlers run up to their first [await], then
    the first one runs to its answer, then the second. *)
Definition overlapped {A B} (first : M A) (first_then : A → M B)
    (second : M A) (second_then : A → M B)
    : World → (Outcome B * Outcome B) * World :=
  λ w,
    let '(x1, w1) := first w in
    let '(x2, w2) := second w1 in
    let '(r1, w3) := resume first_then x1 w2 in
    let '(r2, w4) := resume second_then x2 w3 in
    ((r1, r2), w4).

(** ** The error handler behind the routes *)

(** The properties of a thrown error that [errorHandler] reads. *)
Module Err.
Record t := mk {
  code : option string;
  name : option string;
  statusCode : option nat;
  status : option nat;
  message : option string;
  meta_target : option (list string);
  stack : option string
}.
End Err.

(** The envelope [errorHandler] sends; its [data] is always [null]. *)
Module ErrorResponse.
Record t := mk {
  status : nat;
  success : bool;
  message : string;
  code : string;
  details : option string;
  timestamp : Z
}.
End ErrorResponse.

(** [a || b] on status codes: [undefined] and [0] are falsy. *)
Definition code_or (a : option nat) (b : nat) : nat :=
  match a with
  | Some 0 | None => b
  | Some n => n
  end.

(** [target.join(', ')] *)
Definition join_comma (l : list string) : string := String.concat ", " l.

(** [errorHandler]; [development] is [process.env.NODE_ENV === 'development']. *)
Definition errorHandler (development : bool) (err : Err.t) : M ErrorResponse.t :=
  if bool_decide (Err.code err = Some "P2002") then
    now ← new_Date;
    mret (ErrorResponse.mk 409 false "Duplicate entry. This record already exists."
            "DUPLICATE_ENTRY"
            (Some match Err.meta_target err with
                  | Some target => "Duplicate value for: " +:+ join_comma target
                  | None => "Unique constraint violation"
                  end)
            now)
  else if bool_decide (Err.code err = Some "P2025") then
    now ← new_Date;
    mret (ErrorResponse.mk 404 false "Record not found." "NOT_FOUND"
            (Some "The requested resource does not exist") now)
  else if bool_decide (Err.name err = Some "ValidationError")
          || bool_decide (Err.name err = Some "CastError") then
    now ← new_Date;
    mret (ErrorResponse.mk 400 false "Validation error." "VALIDATION_ERROR"
            (Err.message err) now)
  else if bool_decide (Err.name err = Some "JsonWebTokenError") then
    now ← new_Date;
    mret (ErrorResponse.mk 401 false "Invalid token." "INVALID_TOKEN"
            (Some "Token verification failed") now)
  else if bool_decide (Err.name err = Some "TokenExpiredError") then
    now ← new_Date;
    mret (ErrorResponse.mk 401 false "Token expired." "TOKEN_EXPIRED"
            (Some "Please login again") now)
  else
    let statusCode := code_or (Err.statusCode err) (code_or (Err.status err) 500) in
    let message := or_else (Err.message err) "Internal server error." in
    now ← new_Date;
    mret (ErrorResponse.mk statusCode false message
            (or_else (Err.code err) "INTERNAL_ERROR")
            (if development then Err.stack err else Some "An unexpected error occurred")
            now).

(** What the client of a lifecycle route is sent: the answer of the handler,
    or the answer of [errorHandler] to the error the handler passed to
    [next].  [thrown] gives the error object behind each failure of the
    model. *)
Inductive Sent :=
  | by_handler (r : Response.t)
  | by_errorHandler (r : ErrorResponse.t).

Definition express (thrown : Error → Err.t) (development : bool)
    (handler : M Response.t) : M Sent :=
  λ w,
    match handler w with
    | (Returned r, w') => (Returned (by_handler r), w')
    | (Threw error, w') =>
        (r ← errorHandler development (thrown error);
         mret (by_errorHandler r)) w'
    end.

(** ** Further worlds and tables for worked instances *)

Module Cases.

(** The first buyer's request has been cancelled by the buyer. *)
Definition cancelled_once : World :=
  serve Scenario.requested_twice (PUT_cancel, Scenario.call Scenario.buyer1 "row-0").


(** The identifier minted next is the one of a stored contract. *)
Definition id_taken : World :=
  mkWorld (mkDb {[ "listing-1" := Scenario.wheat ]}
                {[ "row-0" := Scenario.first_contract requested ]} [])
          no_fault 0 (λ n, 1700000000000 + Z.of_nat n)%Z 0
          (λ n, "row-" +:+ pretty n) 0.

(** The error objects of the Prisma client behind the failures of the
    model. *)
Definition prisma_error (e : Error) : Err.t :=
  match e with
  | StorageFault =>
      Err.mk None (Some "PrismaClientUnknownRequestError") None None
             (Some "Engine is not yet connected.") None None
  | RecordNotFound =>
      Err.mk (Some "P2025") (Some "PrismaClientKnownRequestError") None None
             (Some "Record to update not found.") None None
  | UniqueViolation =>
      Err.mk (Some "P2002") (Some "PrismaClientKnownRequestError") None None
             (Some "Unique constraint failed on the fields: (`id`)")
             (Some ["id"]) None
  end.

(** Two user rows, the second one deactivated. *)
Definition farmer_account : Account.t :=
  Account.mk "farmer-1" "Asha" None (Some "9800000001") "farmer" None true true.

Definition suspended_account : Account.t :=
  Account.mk "buyer-2" "Bikram" None (Some "9800000002") "buyer" None true false.

Definition accounts : gmap string Account.t :=
  {[ "farmer-1" := farmer_account; "buyer-2" := suspended_account ]}.

(** The tokens the server has signed. *)
Definition sessions (token : string) : option TokenPayload :=
  if bool_decide (token = "token-of-farmer-1") then
    Some (mkTokenPayload "farmer-1" "farmer")
  else if bool_decide (token = "token-of-buyer-2") then
    Some (mkTokenPayload "buyer-2" "buyer")
  else None.

Definition message_of (e : Error) : string :=
  or_else (Err.message (prisma_error e)) "".

End Cases.
(** * Properties of the handlers *)

(** ** Symbolic execution *)

Ltac unfold_handler :=
  unfold succeeds, serve, router,
    requestContract, acceptContract, rejectContract, completeContract, cancelContract,
    prisma.contract.findFirst, prisma.contract.update, prisma.contract.update_include,
    prisma.contract.create_include, prisma.contractListing.findUnique,
    prisma.contractListing.update, prisma.transaction.create,
    json, new_Date, mint, storage, mbind, mret, M_bind, M_ret, bind, ret in *.

(** Runs a handler through every branch of its control flow: each storage
    call either faults or not, each lookup finds a row or not. *)
Ltac run_handler :=
  unfold_handler; simpl in *; repeat (case_match; simplify_eq/=).

Ltac prefix_of n :=
  exists n; split_and!; [simpl; lia | reflexivity | intros; by simplify_eq/=].

Lemma party_filter (u : User) (c : Contract.t) :
  bool_decide (Contract.farmerId c = user_id u)
  || bool_decide (Contract.buyerId c = user_id u) = true ↔ party u c.
Proof.
  unfold party. rewrite orb_true_iff, !bool_decide_eq_true. done.
Qed.

Ltac bool_facts :=
  repeat match goal with
    | H : _ && _ = true |- _ => apply andb_true_iff in H as [? ?]
    | H : bool_decide (Contract.farmerId _ = _) || _ = true |- _ =>
        apply party_filter in H
    | H : _ || _ = true |- _ => apply orb_true_iff in H
    | H : negb _ = true |- _ => apply negb_true_iff in H
    | H : negb _ = false |- _ => apply negb_false_iff in H
    | H : bool_decide _ = true |- _ => apply bool_decide_eq_true in H
    | H : bool_decide _ = false |- _ => apply bool_decide_eq_false in H
    end.

(** ** What each handler does to the store *)

Lemma acceptContract_succeeds (req : Request) (w w' : World) (r : Response.t) :
  succeeds (acceptContract req w) r w' →
  ∃ c row l,
    contracts (db w) !! or_else (Body.requestId (body req)) (params_id req) = Some c
    ∧ Contract.farmerId c = user_id (user req)
    ∧ Contract.status c = requested
    ∧ contracts (db w) !! Contract.id c = Some row
    ∧ listings (db w) !! Contract.listingId c = Some l
    ∧ db w' = apply_writes (accept_writes c) (db w)
    ∧ Response.status r = 200
    ∧ ∃ joined, Response.data r = Some (Contract.with_status accepted row, joined).
Proof.
  intros [Hrun Hok]. run_handler. bool_facts.
  eexists _, _, _. split_and!; eauto.
Qed.

Lemma acceptContract_outcomes (req : Request) (w : World) :
  let res := acceptContract req w in
  (db res.2 = db w
   ∧ ∀ r, res.1 = Returned r → Response.success r = false ∧ Response.status r = 404)
  ∨ ∃ c,
      contracts (db w) !! or_else (Body.requestId (body req)) (params_id req) = Some c
      ∧ Contract.farmerId c = user_id (user req)
      ∧ Contract.status c = requested
      ∧ prefix_applied (accept_writes c) (db w) res.
Proof.
  intros res. subst res.
  destruct (acceptContract req w) as [o w'] eqn:Hrun.
  run_handler; bool_facts.
  all: try (left; split; [done | intros; by simplify_eq/=]).
  all: right; eexists; split_and!; try done.
  - prefix_of 2.
  - prefix_of 1.
  - prefix_of 1.
Qed.

Lemma completeContract_succeeds (req : Request) (w w' : World) (r : Response.t) :
  succeeds (completeContract req w) r w' →
  ∃ c row l completedAt sale purchase,
    contracts (db w) !! params_id req = Some c
    ∧ party (user req) c
    ∧ Contract.status c ∈ [accepted; in_progress]
    ∧ contracts (db w) !! Contract.id c = Some row
    ∧ listings (db w) !! Contract.listingId c = Some l
    ∧ (∃ tid date, sale = sale_entry tid date c)
    ∧ (∃ tid date, purchase = purchase_entry tid date c)
    ∧ db w' = apply_writes
                (complete_writes c (Body.deliveryProof (body req)) completedAt sale purchase)
                (db w)
    ∧ Response.status r = 200
    ∧ ∃ joined,
        Response.data r
        = Some (completed_row completedAt (Body.deliveryProof (body req)) c row, joined).
Proof.
  intros [Hrun Hok]. run_handler. bool_facts.
  eexists _, _, _, _, _, _. split_and!; eauto.
  all: eexists _, _; reflexivity.
Qed.

Lemma completeContract_outcomes (req : Request) (w : World) :
  let res := completeContract req w in
  (db res.2 = db w
   ∧ ∀ r, res.1 = Returned r → Response.success r = false ∧ Response.status r = 404)
  ∨ ∃ c completedAt sale purchase,
      contracts (db w) !! params_id req = Some c
      ∧ party (user req) c
      ∧ Contract.status c ∈ [accepted; in_progress]
      ∧ (∃ tid date, sale = sale_entry tid date c)
      ∧ (∃ tid date, purchase = purchase_entry tid date c)
      ∧ prefix_applied
          (complete_writes c (Body.deliveryProof (body req)) completedAt sale purchase)
          (db w) res.
Proof.
  intros res. subst res.
  destruct (completeContract req w) as [o w'] eqn:Hrun.
  run_handler; bool_facts.
  all: try (left; split; [done | intros; by simplify_eq/=]).
  all: right;
    match goal with
    | H : contracts (db ?w) !! params_id _ = Some ?c |- _ =>
        exists c, (clock w (ticks w)),
          (sale_entry (uuid w (minted w)) (clock w (S (ticks w))) c),
          (purchase_entry (uuid w (S (minted w))) (clock w (S (S (ticks w)))) c)
    end; split_and!; try done; try (by eexists _, _).
  all: first [prefix_of 4 | prefix_of 3 | prefix_of 2 | prefix_of 1].
Qed.

Lemma rejectContract_succeeds (req : Request) (w w' : World) (r : Response.t) :
  succeeds (rejectContract req w) r w' →
  ∃ c row,
    contracts (db w) !! params_id req = Some c
    ∧ party (user req) c
    ∧ Contract.status c ∈ [requested; accepted]
    ∧ contracts (db w) !! Contract.id c = Some row
    ∧ (Contract.status c = accepted → is_Some (listings (db w) !! Contract.listingId c))
    ∧ db w' = apply_writes (reject_writes c (Body.reason (body req))) (db w)
    ∧ Response.status r = 200.
Proof.
  intros [Hrun Hok]. run_handler; bool_facts.
  all: eexists _, _; split_and!; eauto.
  all: try (intros; by simplify_eq).
  all: unfold reject_writes; rewrite ?bool_decide_eq_true_2, ?bool_decide_eq_false_2 by done.
  all: done.
Qed.

Lemma rejectContract_outcomes (req : Request) (w : World) :
  let res := rejectContract req w in
  (db res.2 = db w
   ∧ ∀ r, res.1 = Returned r → Response.success r = false ∧ Response.status r = 404)
  ∨ ∃ c,
      contracts (db w) !! params_id req = Some c
      ∧ party (user req) c
      ∧ Contract.status c ∈ [requested; accepted]
      ∧ prefix_applied (reject_writes c (Body.reason (body req))) (db w) res.
Proof.
  intros res. subst res.
  destruct (rejectContract req w) as [o w'] eqn:Hrun.
  run_handler; bool_facts.
  all: try (left; split; [done | intros; by simplify_eq/=]).
  all: right; eexists; split_and!; try done.
  all: unfold reject_writes; rewrite ?bool_decide_eq_true_2, ?bool_decide_eq_false_2 by done.
  all: first [prefix_of 2 | prefix_of 1].
Qed.

Lemma cancelContract_succeeds (req : Request) (w w' : World) (r : Response.t) :
  succeeds (cancelContract req w) r w' →
  ∃ c row,
    contracts (db w) !! params_id req = Some c
    ∧ party (user req) c
    ∧ Contract.status c ≠ completed
    ∧ contracts (db w) !! Contract.id c = Some row
    ∧ db w' = apply_writes (cancel_writes c (Body.reason (body req)) (db w)) (db w)
    ∧ Response.status r = 200.
Proof.
  intros [Hrun Hok]. run_handler; bool_facts.
  all: eexists _, _; split_and!; eauto.
  all: unfold cancel_writes;
    repeat match goal with H : listings _ !! _ = _ |- _ => rewrite H end;
    rewrite ?bool_decide_eq_true_2, ?bool_decide_eq_false_2 by done.
  all: done.
Qed.

Lemma cancelContract_outcomes (req : Request) (w : World) :
  let res := cancelContract req w in
  (db res.2 = db w
   ∧ ∀ r, res.1 = Returned r → Response.success r = false ∧ Response.status r = 404)
  ∨ ∃ c,
      contracts (db w) !! params_id req = Some c
      ∧ party (user req) c
      ∧ Contract.status c ≠ completed
      ∧ prefix_applied (cancel_writes c (Body.reason (body req)) (db w)) (db w) res.
Proof.
  intros res. subst res.
  destruct (cancelContract req w) as [o w'] eqn:Hrun.
  run_handler; bool_facts.
  all: try (left; split; [done | intros; by simplify_eq/=]).
  all: right; eexists; split_and!; try done.
  all: unfold cancel_writes;
    repeat match goal with H : listings _ !! _ = _ |- _ => rewrite H end;
    rewrite ?bool_decide_eq_true_2, ?bool_decide_eq_false_2 by done.
  all: first [prefix_of 2 | prefix_of 1].
Qed.

(** The contract [requestContract] writes for a listing. *)
Lemma requestContract_succeeds (req : Request) (w w' : World) (r : Response.t) :
  succeeds (requestContract req w) r w' →
  ∃ l c joined,
    role (user req) = "buyer"
    ∧ listings (db w) !! params_id req = Some l
    ∧ Listing.status l = active
    ∧ Listing.farmerId l ≠ user_id (user req)
    ∧ c = Contract.mk (uuid w (minted w)) (Listing.id l) (Listing.farmerId l)
            (user_id (user req)) (Listing.cropType l) (Listing.quantity l)
            (Listing.expectedPrice l)
            (PrimFloat.mul (Listing.quantity l) (Listing.expectedPrice l))
            requested
            (js_or (Body.terms (body req)) (Body.message (body req)))
            None
    ∧ contracts (db w) !! Contract.id c = None
    ∧ db w' = set_contracts (insert (Contract.id c) c) (db w)
    ∧ Response.status r = 201
    ∧ Response.data r = Some (c, joined).
Proof.
  intros [Hrun Hok]. run_handler; bool_facts.
  eexists _, _, _. split_and!; eauto.
Qed.

(** Whatever [requestContract] answers without success, and whenever it
    throws, the store is as it was. *)
Lemma requestContract_fails (req : Request) (w : World) :
  let res := requestContract req w in
  (∀ r, res.1 = Returned r → Response.success r = false) →
  db res.2 = db w.
Proof.
  intros res Hfail. subst res.
  destruct (requestContract req w) as [o w'] eqn:Hrun.
  run_handler; try done.
  by specialize (Hfail _ eq_refl).
Qed.

(** Like [requestContract_succeeds], for a request that may also fail. *)
Lemma requestContract_outcomes (req : Request) (w : World) :
  let res := requestContract req w in
  db res.2 = db w
  ∨ ∃ l c,
      listings (db w) !! params_id req = Some l
      ∧ snapshot c = (Listing.cropType l, Listing.quantity l, Listing.expectedPrice l,
                      PrimFloat.mul (Listing.quantity l) (Listing.expectedPrice l))
      ∧ Contract.status c = requested
      ∧ contracts (db w) !! Contract.id c = None
      ∧ db res.2 = set_contracts (insert (Contract.id c) c) (db w).
Proof.
  intros res. subst res.
  destruct (requestContract req w) as [o w'] eqn:Hrun.
  run_handler; try (by left).
  right.
  match goal with |- context [set_contracts (insert _ ?c)] => eexists _, c end.
  split_and!; eauto.
Qed.

(** ** Invariants of the store *)

Lemma apply_writes_take (P : Db → Prop) (ws : list (Db → Db)) (n : nat) (d : Db) :
  Forall (preserves P) ws → P d → P (apply_writes (take n ws) d).
Proof.
  unfold apply_writes. intros Hws. revert n d.
  induction Hws as [|f ws Hf _ IH]; intros [|n] d Hd; simpl; auto.
Qed.

Lemma keyed_alter (f : Contract.t → Contract.t) (k : string) (d : Db) :
  (∀ c, Contract.id (f c) = Contract.id c) →
  keyed d → keyed (set_contracts (alter f k) d).
Proof.
  unfold keyed, set_contracts. simpl. intros Hf Hd j c.
  destruct (decide (k = j)) as [->|Hne].
  - rewrite lookup_alter_eq. destruct (contracts d !! j) as [c0|] eqn:Hj; simpl; [|done].
    intros [= <-]. rewrite Hf. by apply (Hd j).
  - rewrite lookup_alter_ne by done. apply Hd.
Qed.

Lemma keyed_insert (c : Contract.t) (d : Db) :
  keyed d → keyed (set_contracts (insert (Contract.id c) c) d).
Proof.
  unfold keyed, set_contracts. simpl. intros Hd.
  apply map_Forall_insert_2; done.
Qed.

Lemma settled_alter (k k0 : string) (c : Contract.t) (L : list Transaction.t)
    (f : Contract.t → Contract.t) :
  k0 ≠ k →
  (∀ c, Contract.id (f c) = Contract.id c) →
  preserves (settled k c L) (set_contracts (alter f k0)).
Proof.
  intros Hne Hf d (Hkeyed & Hc & HL). split_and!.
  - by apply keyed_alter.
  - simpl. by rewrite lookup_alter_ne.
  - done.
Qed.

Lemma settled_listings (k : string) (c : Contract.t) (L : list Transaction.t)
    (f : gmap string Listing.t → gmap string Listing.t) :
  preserves (settled k c L) (set_listings f).
Proof. by intros d (Hkeyed & Hc & HL). Qed.

Lemma settled_append (k : string) (c : Contract.t) (L : list Transaction.t)
    (t : Transaction.t) :
  Transaction.referenceId t ≠ Some k →
  preserves (settled k c L) (set_transactions (λ ts, (ts ++ [t])%list)).
Proof.
  intros Hne d (Hkeyed & Hc & HL). split_and!; [done..|].
  unfold ledger_of in *. simpl. rewrite filter_app, HL.
  rewrite filter_cons_False, filter_nil by done. apply app_nil_r.
Qed.

Lemma status_among (s : ContractStatus) (l : list ContractStatus) :
  s ∈ l → bool_decide (completed ∈ l) = false → s ≠ completed.
Proof. intros Hs Hl%bool_decide_eq_false ->. done. Qed.

(** The row a handler has found under [k0] is not the settled one when its
    status is not [completed]. *)
Lemma settled_other (k k0 : string) (c c0 : Contract.t) (L : list Transaction.t) (d : Db) :
  settled k c L d →
  Contract.status c = completed →
  contracts d !! k0 = Some c0 →
  Contract.status c0 ≠ completed →
  Contract.id c0 = k0 ∧ k0 ≠ k.
Proof.
  intros (Hkeyed & Hc & _) Hst Hc0 Hst0. split.
  - by apply (Hkeyed k0).
  - intros ->. congruence.
Qed.

Ltac settled_writes :=
  repeat first
    [ apply Forall_nil_2
    | apply Forall_cons_2
    | apply settled_listings
    | apply settled_alter; [congruence | done]
    | apply settled_append; simpl; congruence ].

(** No request changes a completed contract or adds to its ledger entries. *)
Lemma serve_settled (k : string) (c : Contract.t) (L : list Transaction.t)
    (w : World) (call : Route * Request) :
  Contract.status c = completed →
  settled k c L (db w) →
  settled k c L (db (serve w call)).
Proof.
  intros Hst Hw. destruct call as [route req]. unfold serve. simpl.
  destruct route; simpl.
  - destruct (requestContract_outcomes req w) as [->|(l & c0 & _ & _ & _ & Hfresh & ->)];
      [done|].
    destruct Hw as (Hkeyed & Hc & HL). split_and!; [by apply keyed_insert| |done].
    simpl. rewrite lookup_insert_ne; [done|]. intros Heq. rewrite Heq in Hfresh. congruence.
  - destruct (acceptContract_outcomes req w)
      as [[-> _]|(c0 & Hc0 & _ & Hst0 & n & _ & -> & _)]; [done|].
    destruct (settled_other _ _ _ _ _ _ Hw Hst Hc0) as [Hid Hne]; [congruence|].
    apply apply_writes_take; [|done]. unfold accept_writes. settled_writes.
  - destruct (rejectContract_outcomes req w)
      as [[-> _]|(c0 & Hc0 & _ & Hst0 & n & _ & -> & _)]; [done|].
    destruct (settled_other _ _ _ _ _ _ Hw Hst Hc0) as [Hid Hne].
    { by apply (status_among _ _ Hst0). }
    apply apply_writes_take; [|done]. unfold reject_writes.
    case_bool_decide; settled_writes.
  - destruct (completeContract_outcomes req w)
      as [[-> _]|(c0 & t0 & sale & purchase & Hc0 & _ & Hst0
                  & (? & ? & ->) & (? & ? & ->) & n & _ & -> & _)]; [done|].
    destruct (settled_other _ _ _ _ _ _ Hw Hst Hc0) as [Hid Hne].
    { by apply (status_among _ _ Hst0). }
    apply apply_writes_take; [|done]. unfold complete_writes. settled_writes.
  - destruct (cancelContract_outcomes req w)
      as [[-> _]|(c0 & Hc0 & _ & Hst0 & n & _ & -> & _)]; [done|].
    destruct (settled_other _ _ _ _ _ _ Hw Hst Hc0) as [Hid Hne]; [done|].
    apply apply_writes_take; [|done]. unfold cancel_writes.
    repeat case_match; settled_writes.
Qed.

Lemma later_settled (k : string) (c : Contract.t) (L : list Transaction.t)
    (w w' : World) :
  Contract.status c = completed →
  later w w' →
  settled k c L (db w) →
  settled k c L (db w').
Proof.
  intros Hst Hlater. induction Hlater as [w|w call w' _ IH|w f w' _ IH]; intros Hw.
  - done.
  - by apply IH, serve_settled.
  - by apply IH, settled_listings.
Qed.

Lemma deal_alter (k k0 : string) (s : string * float * float * float)
    (f : Contract.t → Contract.t) :
  (∀ c, snapshot (f c) = snapshot c) →
  preserves (holds_deal k s) (set_contracts (alter f k0)).
Proof.
  intros Hf d (c & Hc & Hs). unfold holds_deal. simpl.
  destruct (decide (k0 = k)) as [->|Hne].
  - exists (f c). rewrite lookup_alter_eq, Hc. split; [done|]. by rewrite Hf.
  - exists c. by rewrite lookup_alter_ne.
Qed.

Lemma deal_listings (k : string) (s : string * float * float * float)
    (f : gmap string Listing.t → gmap string Listing.t) :
  preserves (holds_deal k s) (set_listings f).
Proof. by intros d Hd. Qed.

Lemma deal_transactions (k : string) (s : string * float * float * float)
    (f : list Transaction.t → list Transaction.t) :
  preserves (holds_deal k s) (set_transactions f).
Proof. by intros d Hd. Qed.

Ltac deal_writes :=
  repeat first
    [ apply Forall_nil_2
    | apply Forall_cons_2
    | apply deal_listings
    | apply deal_transactions
    | apply deal_alter; done ].

Lemma serve_deal (k : string) (s : string * float * float * float)
    (w : World) (call : Route * Request) :
  holds_deal k s (db w) → holds_deal k s (db (serve w call)).
Proof.
  intros Hw. destruct call as [route req]. unfold serve. simpl.
  destruct route; simpl.
  - destruct (requestContract_outcomes req w) as [->|(l & c0 & _ & _ & _ & Hfresh & ->)];
      [done|].
    destruct Hw as (c & Hc & Hs). exists c. split; [|done].
    simpl. rewrite lookup_insert_ne; [done|]. intros Heq. rewrite Heq in Hfresh. congruence.
  - destruct (acceptContract_outcomes req w)
      as [[-> _]|(c0 & _ & _ & _ & n & _ & -> & _)]; [done|].
    apply apply_writes_take; [|done]. unfold accept_writes. deal_writes.
  - destruct (rejectContract_outcomes req w)
      as [[-> _]|(c0 & _ & _ & _ & n & _ & -> & _)]; [done|].
    apply apply_writes_take; [|done]. unfold reject_writes.
    case_bool_decide; deal_writes.
  - destruct (completeContract_outcomes req w)
      as [[-> _]|(c0 & t0 & sale & purchase & _ & _ & _ & _ & _ & n & _ & -> & _)]; [done|].
    apply apply_writes_take; [|done]. unfold complete_writes. deal_writes.
  - destruct (cancelContract_outcomes req w)
      as [[-> _]|(c0 & _ & _ & _ & n & _ & -> & _)]; [done|].
    apply apply_writes_take; [|done]. unfold cancel_writes.
    repeat case_match; deal_writes.
Qed.

Lemma later_deal (k : string) (s : string * float * float * float) (w w' : World) :
  later w w' → holds_deal k s (db w) → holds_deal k s (db w').
Proof.
  intros Hlater. induction Hlater as [w|w call w' _ IH|w f w' _ IH]; intros Hw.
  - done.
  - by apply IH, serve_deal.
  - by apply IH, deal_listings.
Qed.

(** ** The contract lifecycle *)

Lemma ok_succeeds (res : Outcome Response.t * World) :
  ok res = true → ∃ r, succeeds res r res.2.
Proof.
  unfold ok, succeeds. destruct res as [[r|e] w']; simpl; [|done].
  intros Hok. by exists r.
Qed.

(** C1. For a contract in status accepted or in_progress and a caller who is
    its farmer or its buyer, a successful [completeContract] leaves the
    contract completed with its completion timestamp set and its listing
    completed, and appends to the ledger exactly two entries: an income entry
    of the contract's total amount for the farmer and an expense entry of the
    same amount for the buyer, both referring to the contract's id. *)
Theorem completeContract_completes (req : Request) (w : World) (c : Contract.t) :
  contracts (db w) !! params_id req = Some c →
  Contract.id c = params_id req →
  Contract.status c ∈ [accepted; in_progress] →
  party (user req) c →
  ok (completeContract req w) = true →
  ∃ c' l' sale purchase,
    contracts (store_after (completeContract req w)) !! Contract.id c = Some c'
    ∧ Contract.status c' = completed
    ∧ is_Some (Contract.completedAt c')
    ∧ listings (store_after (completeContract req w)) !! Contract.listingId c = Some l'
    ∧ Listing.status l' = listing_completed
    ∧ transactions (store_after (completeContract req w))
      = (transactions (db w) ++ [sale; purchase])%list
    ∧ Transaction.type sale = income
    ∧ Transaction.amount sale = Contract.totalAmount c
    ∧ Transaction.userId sale = Contract.farmerId c
    ∧ Transaction.referenceId sale = Some (Contract.id c)
    ∧ Transaction.type purchase = expense
    ∧ Transaction.amount purchase = Contract.totalAmount c
    ∧ Transaction.userId purchase = Contract.buyerId c
    ∧ Transaction.referenceId purchase = Some (Contract.id c).
Proof.
  intros Hc Hid Hst Hparty [r Hok]%ok_succeeds.
  apply completeContract_succeeds in Hok
    as (c0 & row & l & t0 & sale & purchase & Hc0 & _ & _ & Hrow & Hl
        & (? & ? & ->) & (? & ? & ->) & Hdb & _).
  assert (c0 = c) as -> by congruence.
  assert (row = c) as -> by (rewrite Hid in Hrow; congruence).
  unfold store_after. rewrite Hdb. simpl.
  eexists _, _, _, _. split_and!.
  - by rewrite lookup_alter_eq, Hrow.
  - done.
  - by eexists.
  - by rewrite lookup_alter_eq, Hl.
  - done.
  - by rewrite <- app_assoc.
  - done.
  - done.
  - done.
  - done.
  - done.
  - done.
  - done.
  - done.
Qed.

Lemma completeContract_completes_witness :
  (contracts (db Scenario.accepted_once) !! "row-0"
     = Some (Scenario.first_contract accepted)
   ∧ party Scenario.buyer1 (Scenario.first_contract accepted)
   ∧ ok (completeContract (Scenario.call Scenario.buyer1 "row-0") Scenario.accepted_once)
     = true)
  ∧ ∃ c' l' sale purchase,
      contracts (store_after (completeContract (Scenario.call Scenario.buyer1 "row-0")
                                Scenario.accepted_once)) !! "row-0" = Some c'
      ∧ Contract.status c' = completed
      ∧ is_Some (Contract.completedAt c')
      ∧ listings (store_after (completeContract (Scenario.call Scenario.buyer1 "row-0")
                                 Scenario.accepted_once)) !! "listing-1" = Some l'
      ∧ Listing.status l' = listing_completed
      ∧ transactions (store_after (completeContract (Scenario.call Scenario.buyer1 "row-0")
                                     Scenario.accepted_once))
        = (transactions (db Scenario.accepted_once) ++ [sale; purchase])%list
      ∧ Transaction.type sale = income
      ∧ Transaction.amount sale = 2000%float
      ∧ Transaction.userId sale = "farmer-1"
      ∧ Transaction.referenceId sale = Some "row-0"
      ∧ Transaction.type purchase = expense
      ∧ Transaction.amount purchase = 2000%float
      ∧ Transaction.userId purchase = "buyer-1"
      ∧ Transaction.referenceId purchase = Some "row-0".
Proof.
  assert (H1 : contracts (db Scenario.accepted_once) !! "row-0"
               = Some (Scenario.first_contract accepted))
    by (vm_compute; reflexivity).
  assert (H4 : party Scenario.buyer1 (Scenario.first_contract accepted))
    by (right; reflexivity).
  assert (H5 : ok (completeContract (Scenario.call Scenario.buyer1 "row-0")
                     Scenario.accepted_once) = true)
    by (vm_compute; reflexivity).
  split; [exact (conj H1 (conj H4 H5))|].
  exact (completeContract_completes (Scenario.call Scenario.buyer1 "row-0")
           Scenario.accepted_once (Scenario.first_contract accepted)
           H1 eq_refl (list_elem_of_here _ _) H4 H5).
Defined.

(** C4. A further [completeContract] on a completed contract does not
    succeed (it answers 404 when the lookup itself does not fail) and leaves
    the store, hence the ledger, as it was; and whatever is served later, the
    contract stays completed with the very ledger entries it had, so it never
    acquires a second pair (in a store whose contract rows are stored under
    their own id). *)
Theorem completeContract_once (req : Request) (w : World) (c : Contract.t) :
  contracts (db w) !! params_id req = Some c →
  Contract.status c = completed →
  ok (completeContract req w) = false
  ∧ store_after (completeContract req w) = db w
  ∧ (fault w (calls w) = false →
     ∃ r, (completeContract req w).1 = Returned r
          ∧ Response.status r = 404
          ∧ error_code r = Some "NOT_FOUND")
  ∧ (keyed (db w) →
     ∀ w', later w w' →
       contracts (db w') !! params_id req = Some c
       ∧ ledger_of (params_id req) (db w') = ledger_of (params_id req) (db w)).
Proof.
  intros Hc Hst. split_and!.
  - destruct (ok _) eqn:Hok; [|done].
    apply ok_succeeds in Hok as [r Hr].
    apply completeContract_succeeds in Hr as (c0 & ? & ? & ? & ? & ? & Hc0 & _ & Hst0 & _).
    assert (c0 = c) as -> by congruence.
    by destruct (status_among _ _ Hst0).
  - unfold store_after.
    destruct (completeContract_outcomes req w)
      as [[Hdb _]|(c0 & ? & ? & ? & Hc0 & _ & Hst0 & _)]; [done|].
    assert (c0 = c) as -> by congruence.
    by destruct (status_among _ _ Hst0).
  - intros Hfault. run_handler; bool_facts.
    all: try match goal with H : _ ∈ _ |- _ => by destruct (status_among _ _ H) end.
    by eexists.
  - intros Hkeyed w' Hlater.
    assert (settled (params_id req) c (ledger_of (params_id req) (db w)) (db w)) as Hw
      by done.
    by destruct (later_settled _ _ _ _ _ Hst Hlater Hw) as (_ & ? & ?).
Qed.

Lemma completeContract_once_witness :
  (keyed (db Scenario.completed_once)
   ∧ contracts (db Scenario.completed_once) !! "row-0"
     = Some (Contract.with_completedAt (Some 1700000000003%Z)
               (Scenario.first_contract completed)))
  ∧ ok (completeContract (Scenario.call Scenario.buyer1 "row-0") Scenario.completed_once)
    = false
  ∧ store_after (completeContract (Scenario.call Scenario.buyer1 "row-0")
                   Scenario.completed_once)
    = db Scenario.completed_once
  ∧ ∀ w', later Scenario.completed_once w' →
      ledger_of "row-0" (db w') = ledger_of "row-0" (db Scenario.completed_once).
Proof.
  assert (H1 : keyed (db Scenario.completed_once)).
  { apply (bool_decide_unpack _). vm_compute. exact I. }
  assert (H2 : contracts (db Scenario.completed_once) !! "row-0"
               = Some (Contract.with_completedAt (Some 1700000000003%Z)
                         (Scenario.first_contract completed)))
    by (vm_compute; reflexivity).
  pose proof (completeContract_once (Scenario.call Scenario.buyer1 "row-0")
                Scenario.completed_once _ H2 eq_refl) as (Hok & Hdb & _ & Hlater).
  split; [exact (conj H1 H2)|].
  split; [exact Hok|]. split; [exact Hdb|].
  intros w' Hw'. exact (proj2 (Hlater H1 w' Hw')).
Defined.

(** C8. A successful [rejectContract] cancels the contract; when the
    contract was accepted its listing row is rewritten with status active
    (and is otherwise the row it was), and when it was only requested the
    listing table is left as it was. *)
Theorem rejectContract_listing (req : Request) (w : World) (c : Contract.t) :
  contracts (db w) !! params_id req = Some c →
  Contract.id c = params_id req →
  ok (rejectContract req w) = true →
  (∃ c', contracts (store_after (rejectContract req w)) !! params_id req = Some c'
         ∧ Contract.status c' = cancelled)
  ∧ (Contract.status c = accepted →
     ∃ l l', listings (db w) !! Contract.listingId c = Some l
             ∧ listings (store_after (rejectContract req w))
               = <[Contract.listingId c := l']> (listings (db w))
             ∧ Listing.status l' = active
             ∧ l' = Listing.with_status active l)
  ∧ (Contract.status c = requested →
     listings (store_after (rejectContract req w)) = listings (db w)).
Proof.
  intros Hc Hid [r Hok]%ok_succeeds.
  apply rejectContract_succeeds in Hok
    as (c0 & row & Hc0 & _ & _ & Hrow & Hl & Hdb & _).
  assert (c0 = c) as -> by congruence.
  unfold store_after. rewrite Hdb. unfold reject_writes. split_and!.
  - rewrite <- Hid. case_bool_decide; simpl.
    all: rewrite lookup_alter_eq, Hrow; by eexists.
  - intros Hst. destruct (Hl Hst) as [l Hlisting].
    exists l, (Listing.with_status active l). split_and!; [done| |done..].
    rewrite bool_decide_eq_true_2 by done. simpl.
    apply map_eq. intros k. destruct (decide (Contract.listingId c = k)) as [<-|Hne].
    + by rewrite lookup_alter_eq, lookup_insert_eq, Hlisting.
    + by rewrite lookup_alter_ne, lookup_insert_ne.
  - intros Hst. rewrite bool_decide_eq_false_2 by congruence. done.
Qed.

Lemma rejectContract_listing_witness :
  (contracts (db Scenario.accepted_once) !! "row-0" = Some (Scenario.first_contract accepted)
   ∧ ok (rejectContract (Scenario.call Scenario.buyer1 "row-0") Scenario.accepted_once)
     = true
   ∧ contracts (db Scenario.requested_twice) !! "row-0"
     = Some (Scenario.first_contract requested)
   ∧ ok (rejectContract (Scenario.call Scenario.buyer1 "row-0") Scenario.requested_twice)
     = true)
  ∧ (∃ l l', listings (db Scenario.accepted_once) !! "listing-1" = Some l
             ∧ Listing.status l = contracted
             ∧ listings (store_after (rejectContract (Scenario.call Scenario.buyer1 "row-0")
                                        Scenario.accepted_once))
               = <["listing-1" := l']> (listings (db Scenario.accepted_once))
             ∧ Listing.status l' = active)
  ∧ listings (store_after (rejectContract (Scenario.call Scenario.buyer1 "row-0")
                             Scenario.requested_twice))
    = listings (db Scenario.requested_twice).
Proof.
  assert (H1 : contracts (db Scenario.accepted_once) !! "row-0"
               = Some (Scenario.first_contract accepted))
    by (vm_compute; reflexivity).
  assert (H2 : ok (rejectContract (Scenario.call Scenario.buyer1 "row-0")
                     Scenario.accepted_once) = true)
    by (vm_compute; reflexivity).
  assert (H3 : contracts (db Scenario.requested_twice) !! "row-0"
               = Some (Scenario.first_contract requested))
    by (vm_compute; reflexivity).
  assert (H4 : ok (rejectContract (Scenario.call Scenario.buyer1 "row-0")
                     Scenario.requested_twice) = true)
    by (vm_compute; reflexivity).
  destruct (rejectContract_listing (Scenario.call Scenario.buyer1 "row-0")
              Scenario.accepted_once _ H1 eq_refl H2) as (_ & Hacc & _).
  destruct (rejectContract_listing (Scenario.call Scenario.buyer1 "row-0")
              Scenario.requested_twice _ H3 eq_refl H4) as (_ & _ & Hreq).
  split; [exact (conj H1 (conj H2 (conj H3 H4)))|].
  split; [|exact (Hreq eq_refl)].
  destruct (Hacc eq_refl) as (l & l' & Hl & Hstore & Hactive & _).
  assert (Hwas : Some (Listing.status l) = Some contracted).
  { change (Some (Listing.status l)) with (Listing.status <$> Some l).
    rewrite <- Hl. vm_compute. reflexivity. }
  injection Hwas as Hwas.
  exact (ex_intro _ l (ex_intro _ l' (conj Hl (conj Hwas (conj Hstore Hactive))))).
Defined.

Lemma append_assoc (a b c : string) : (a +:+ b) +:+ c = a +:+ b +:+ c.
Proof.
  induction a as [|x a IH]; [reflexivity|].
  change (String x ((a +:+ b) +:+ c) = String x (a +:+ b +:+ c)). by rewrite IH.
Qed.

Lemma append_nil_r (a : string) : a +:+ "" = a.
Proof.
  induction a as [|x a IH]; [reflexivity|].
  change (String x (a +:+ "") = String x a). by rewrite IH.
Qed.

(** The terms that reject, complete and cancel store. *)
Lemma note_terms_spec (label : string) (note : option string) (c c' : Contract.t) :
  Contract.terms c' = note_terms label note (Contract.terms c) →
  (note = None → Contract.terms c' = Contract.terms c)
  ∧ (∀ n, note = Some n → ∃ sep, terms_text c' = terms_text c +:+ sep +:+ n)
  ∧ (∀ n, note = Some n → n ≠ "" →
       Contract.terms c' = Some (terms_text c +:+ LF +:+ label +:+ ": " +:+ n)).
Proof.
  intros Hterms. unfold note_terms, truthy in Hterms. split_and!.
  - intros ->. done.
  - intros n ->. case_bool_decide as Hn; simpl in Hterms.
    + exists "". subst n. unfold terms_text. rewrite Hterms.
      by rewrite !append_nil_r.
    + exists (LF +:+ label +:+ ": "). rewrite !append_assoc.
      unfold terms_text. rewrite Hterms. unfold or_else at 1.
      case_bool_decide as Hempty; [by rewrite Hempty | done].
  - intros n -> Hn. by rewrite bool_decide_eq_false_2 in Hterms.
Qed.

(** C10. After a successful reject, complete or cancel, the terms of the
    contract are exactly what they were when the request carries no note
    (no [reason], no [deliveryProof]); when it carries one, the stored text
    is the previous text followed by a separator and the note: the note is
    appended, the previous text is kept.  For a note that is not the empty
    string the separator is a line feed and the label of the handler. *)
Theorem note_appended_to_terms (route : Route) (req : Request) (w : World)
    (c : Contract.t) :
  route ∈ [PUT_reject; PUT_complete; PUT_cancel] →
  contracts (db w) !! params_id req = Some c →
  Contract.id c = params_id req →
  ok (router route req w) = true →
  ∃ c',
    contracts (store_after (router route req w)) !! params_id req = Some c'
    ∧ (note_of route (body req) = None → Contract.terms c' = Contract.terms c)
    ∧ (∀ n, note_of route (body req) = Some n →
         ∃ sep, terms_text c' = terms_text c +:+ sep +:+ n)
    ∧ (∀ n, note_of route (body req) = Some n → n ≠ "" →
         Contract.terms c'
         = Some (terms_text c +:+ LF +:+ note_label route +:+ ": " +:+ n)).
Proof.
  intros Hroute Hc Hid [r Hok]%ok_succeeds. unfold store_after.
  rewrite !elem_of_cons, elem_of_nil in Hroute.
  destruct route; simpl in *.
  - by destruct Hroute as [?|[?|[?|[]]]].
  - by destruct Hroute as [?|[?|[?|[]]]].
  - apply rejectContract_succeeds in Hok
      as (c0 & row & Hc0 & _ & _ & Hrow & _ & Hdb & _).
    assert (c0 = c) as -> by congruence.
    exists (cancelled_row "Rejection reason" (Body.reason (body req)) c row).
    split; [|by apply note_terms_spec].
    rewrite Hdb, <- Hid. unfold reject_writes.
    case_bool_decide; simpl; by rewrite lookup_alter_eq, Hrow.
  - apply completeContract_succeeds in Hok
      as (c0 & row & l & t0 & sale & purchase & Hc0 & _ & _ & Hrow & _ & _ & _ & Hdb & _).
    assert (c0 = c) as -> by congruence.
    exists (completed_row t0 (Body.deliveryProof (body req)) c row).
    split; [|by apply note_terms_spec].
    rewrite Hdb, <- Hid. simpl. by rewrite lookup_alter_eq, Hrow.
  - apply cancelContract_succeeds in Hok
      as (c0 & row & Hc0 & _ & _ & Hrow & Hdb & _).
    assert (c0 = c) as -> by congruence.
    exists (cancelled_row "Cancellation reason" (Body.reason (body req)) c row).
    split; [|by apply note_terms_spec].
    rewrite Hdb, <- Hid. unfold cancel_writes.
    repeat case_match; simpl; by rewrite lookup_alter_eq, Hrow.
Qed.

Lemma note_appended_to_terms_witness :
  (PUT_reject ∈ [PUT_reject; PUT_complete; PUT_cancel]
   ∧ contracts (db Scenario.accepted_once) !! "row-0"
     = Some (Scenario.first_contract accepted)
   ∧ ok (rejectContract Scenario.reject_with_reason Scenario.accepted_once) = true)
  ∧ ∃ c',
      contracts (store_after (rejectContract Scenario.reject_with_reason
                                Scenario.accepted_once)) !! "row-0" = Some c'
      ∧ Contract.terms c'
        = Some (terms_text (Scenario.first_contract accepted)
                +:+ LF +:+ "Rejection reason" +:+ ": " +:+ "price too low").
Proof.
  assert (H0 : PUT_reject ∈ [PUT_reject; PUT_complete; PUT_cancel]) by left.
  assert (H1 : contracts (db Scenario.accepted_once) !! "row-0"
               = Some (Scenario.first_contract accepted))
    by (vm_compute; reflexivity).
  assert (H2 : ok (rejectContract Scenario.reject_with_reason Scenario.accepted_once)
               = true)
    by (vm_compute; reflexivity).
  split; [exact (conj H0 (conj H1 H2))|].
  destruct (note_appended_to_terms PUT_reject Scenario.reject_with_reason
              Scenario.accepted_once _ H0 H1 eq_refl H2) as (c' & Hc' & _ & _ & Hnote).
  exists c'. split; [exact Hc'|].
  apply (Hnote "price too low" eq_refl). discriminate.
Defined.

(** C6. A successful [requestContract] on an active listing creates a
    contract, in status requested, whose crop type, quantity and agreed price
    are those the listing has at the time of the call and whose total amount
    is their product (100 at a price of 20 gives 2000); whatever requests
    are served and however the listing rows are edited afterwards, the
    contract keeps those four values. *)
Theorem requestContract_snapshot (req : Request) (w : World) (l : Listing.t) :
  listings (db w) !! params_id req = Some l →
  Listing.status l = active →
  ok (requestContract req w) = true →
  ∃ c,
    contracts (db w) !! Contract.id c = None
    ∧ contracts (store_after (requestContract req w)) !! Contract.id c = Some c
    ∧ Contract.status c = requested
    ∧ Contract.cropType c = Listing.cropType l
    ∧ Contract.quantity c = Listing.quantity l
    ∧ Contract.agreedPrice c = Listing.expectedPrice l
    ∧ Contract.totalAmount c
      = PrimFloat.mul (Listing.quantity l) (Listing.expectedPrice l)
    ∧ ∀ w', later (requestContract req w).2 w' →
        ∃ c', contracts (db w') !! Contract.id c = Some c'
              ∧ Contract.cropType c' = Listing.cropType l
              ∧ Contract.quantity c' = Listing.quantity l
              ∧ Contract.agreedPrice c' = Listing.expectedPrice l
              ∧ Contract.totalAmount c'
                = PrimFloat.mul (Listing.quantity l) (Listing.expectedPrice l).
Proof.
  intros Hl Hactive [r Hok]%ok_succeeds.
  apply requestContract_succeeds in Hok
    as (l0 & c & joined & _ & Hl0 & _ & _ & Hc & Hfresh & Hdb & _).
  assert (l0 = l) as -> by congruence.
  exists c. unfold store_after. rewrite Hdb.
  split_and!; try (by subst c).
  - simpl. by rewrite lookup_insert_eq.
  - intros w' Hlater.
    assert (holds_deal (Contract.id c) (snapshot c)
              (db (requestContract req w).2)) as Hdeal.
    { exists c. rewrite Hdb. simpl. by rewrite lookup_insert_eq. }
    destruct (later_deal _ _ _ _ Hlater Hdeal) as (c' & Hc' & Hsnap).
    exists c'. split; [done|].
    unfold snapshot in Hsnap. subst c. by simplify_eq/=.
Qed.

Lemma requestContract_snapshot_witness :
  (listings (db Scenario.genesis) !! "listing-1" = Some Scenario.wheat
   ∧ Listing.status Scenario.wheat = active
   ∧ ok (requestContract (Scenario.call Scenario.buyer1 "listing-1") Scenario.genesis)
     = true)
  ∧ ∃ c,
      contracts (store_after (requestContract (Scenario.call Scenario.buyer1 "listing-1")
                                Scenario.genesis)) !! Contract.id c = Some c
      ∧ Contract.cropType c = "wheat"
      ∧ Contract.quantity c = 100%float
      ∧ Contract.agreedPrice c = 20%float
      ∧ Contract.totalAmount c = 2000%float.
Proof.
  assert (H1 : listings (db Scenario.genesis) !! "listing-1" = Some Scenario.wheat)
    by (vm_compute; reflexivity).
  assert (H2 : ok (requestContract (Scenario.call Scenario.buyer1 "listing-1")
                     Scenario.genesis) = true)
    by (vm_compute; reflexivity).
  split; [exact (conj H1 (conj eq_refl H2))|].
  destruct (requestContract_snapshot (Scenario.call Scenario.buyer1 "listing-1")
              Scenario.genesis Scenario.wheat H1 eq_refl H2)
    as (c & _ & Hc & _ & Hcrop & Hq & Hp & Htotal & _).
  exists c. split_and!; [exact Hc | exact Hcrop | exact Hq | exact Hp |].
  rewrite Htotal. vm_compute. reflexivity.
Defined.

(** ** Where the handlers differ from what is asked of them *)

(** Counterexample to C5. The listing is contracted and a buyer requests it:
    the answer is 400 LISTING_UNAVAILABLE, not 409. *)
Lemma requestContract_unavailable_is_400 :
  Listing.status <$> listings (db Scenario.accepted_once) !! "listing-1"
  = Some contracted
  ∧ role Scenario.buyer2 = "buyer"
  ∧ ∃ r, (requestContract (Scenario.call Scenario.buyer2 "listing-1")
            Scenario.accepted_once).1 = Returned r
         ∧ Response.status r = 400
         ∧ Response.status r ≠ 409
         ∧ error_code r = Some "LISTING_UNAVAILABLE".
Proof.
  split_and!; [vm_compute; reflexivity | reflexivity |].
  eexists. split_and!; [vm_compute; reflexivity | reflexivity | done | reflexivity].
Qed.

(** C5, amended. For a listing that is not active, [requestContract] by a
    buyer never succeeds and leaves the store as it was; when the lookup of
    the listing itself does not fail it answers 400 with the error code
    LISTING_UNAVAILABLE. *)
Theorem requestContract_unavailable (req : Request) (w : World) (l : Listing.t) :
  role (user req) = "buyer" →
  listings (db w) !! params_id req = Some l →
  Listing.status l ≠ active →
  ok (requestContract req w) = false
  ∧ store_after (requestContract req w) = db w
  ∧ (fault w (calls w) = false →
     ∃ r, (requestContract req w).1 = Returned r
          ∧ Response.status r = 400
          ∧ Response.success r = false
          ∧ error_code r = Some "LISTING_UNAVAILABLE").
Proof.
  intros Hrole Hl Hst.
  assert (ok (requestContract req w) = false) as Hok.
  { destruct (ok _) eqn:Hok; [|done].
    apply ok_succeeds in Hok as [r Hr].
    apply requestContract_succeeds in Hr as (l0 & ? & ? & _ & Hl0 & Hactive & _).
    congruence. }
  split_and!; [done| |].
  - apply requestContract_fails. intros r Hr.
    unfold ok in Hok. by rewrite Hr in Hok.
  - intros Hfault. run_handler; bool_facts; try done.
    by eexists.
Qed.

Lemma requestContract_unavailable_witness :
  (role Scenario.buyer2 = "buyer"
   ∧ listings (db Scenario.accepted_once) !! "listing-1"
     = Some (Listing.with_status contracted Scenario.wheat)
   ∧ Listing.status (Listing.with_status contracted Scenario.wheat) ≠ active)
  ∧ ok (requestContract (Scenario.call Scenario.buyer2 "listing-1")
          Scenario.accepted_once) = false
  ∧ store_after (requestContract (Scenario.call Scenario.buyer2 "listing-1")
                   Scenario.accepted_once)
    = db Scenario.accepted_once.
Proof.
  assert (H1 : listings (db Scenario.accepted_once) !! "listing-1"
               = Some (Listing.with_status contracted Scenario.wheat))
    by (vm_compute; reflexivity).
  assert (H2 : Listing.status (Listing.with_status contracted Scenario.wheat) ≠ active)
    by (simpl; discriminate).
  split; [exact (conj eq_refl (conj H1 H2))|].
  destruct (requestContract_unavailable (Scenario.call Scenario.buyer2 "listing-1")
              Scenario.accepted_once _ eq_refl H1 H2) as (Hok & Hdb & _).
  exact (conj Hok Hdb).
Defined.

(** Whoever does not hold the buyer role is stopped by the first line of
    [requestContract], before any storage call. *)
Lemma requestContract_not_buyer (req : Request) (w : World) :
  role (user req) ≠ "buyer" →
  store_after (requestContract req w) = db w
  ∧ ∃ r, (requestContract req w).1 = Returned r
         ∧ Response.status r = 403
         ∧ Response.success r = false
         ∧ error_code r = Some "FORBIDDEN".
Proof.
  intros Hrole. unfold store_after. run_handler; bool_facts; try done.
  split; [done|]. by eexists.
Qed.

(** C7. [requestContract] answers 403 FORBIDDEN to every caller whose role
    is not buyer, and to every caller who is the listing's own farmer: the
    account that owns a listing holds the farmer role, so the owner is
    stopped by the role check.  In both cases the store is left as it was
    (no contract is created), whatever the listing and its state. *)
Theorem requestContract_refusals :
  (∀ (req : Request) (w : World),
     role (user req) ≠ "buyer" →
     store_after (requestContract req w) = db w
     ∧ ∃ r, (requestContract req w).1 = Returned r
            ∧ Response.status r = 403
            ∧ Response.success r = false
            ∧ error_code r = Some "FORBIDDEN")
  ∧ (∀ (users : gmap string Account.t) (uid : string) (account : Account.t)
       (id : string) (b : Body.t) (w : World) (l : Listing.t),
       owners_are_farmers users (db w) →
       users !! uid = Some account →
       listings (db w) !! id = Some l →
       Listing.farmerId l = Account.id account →
       store_after
         (requestContract
            (mkRequest (mkUser (Account.id account) (Account.role account)) id b) w)
       = db w
       ∧ ∃ r,
           (requestContract
              (mkRequest (mkUser (Account.id account) (Account.role account)) id b) w).1
           = Returned r
           ∧ Response.status r = 403
           ∧ Response.success r = false
           ∧ error_code r = Some "FORBIDDEN").
Proof.
  split.
  - intros req w Hrole. by apply requestContract_not_buyer.
  - intros users uid account id b w l Howners Haccount Hl Hown.
    apply requestContract_not_buyer. simpl.
    rewrite (Howners id l Hl uid account Haccount (eq_sym Hown)). discriminate.
Qed.

(** The farmer of [listing-1] asks for a contract on it; so does a user who
    holds neither role. *)
Lemma requestContract_refusals_witness :
  (role (mkUser "clerk-1" "admin") ≠ "buyer"
   ∧ owners_are_farmers Cases.accounts (db Scenario.genesis)
   ∧ Cases.accounts !! "farmer-1" = Some Cases.farmer_account
   ∧ listings (db Scenario.genesis) !! "listing-1" = Some Scenario.wheat
   ∧ Listing.farmerId Scenario.wheat = Account.id Cases.farmer_account)
  ∧ (∃ r, (requestContract (Scenario.call (mkUser "clerk-1" "admin") "listing-1")
             Scenario.genesis).1 = Returned r
          ∧ Response.status r = 403
          ∧ Response.success r = false
          ∧ error_code r = Some "FORBIDDEN")
  ∧ store_after
      (requestContract
         (mkRequest (mkUser (Account.id Cases.farmer_account)
                            (Account.role Cases.farmer_account))
                    "listing-1" Body.empty) Scenario.genesis)
    = db Scenario.genesis
  ∧ ∃ r,
      (requestContract
         (mkRequest (mkUser (Account.id Cases.farmer_account)
                            (Account.role Cases.farmer_account))
                    "listing-1" Body.empty) Scenario.genesis).1
      = Returned r
      ∧ Response.status r = 403
      ∧ Response.success r = false
      ∧ error_code r = Some "FORBIDDEN".
Proof.
  assert (H1 : role (mkUser "clerk-1" "admin") ≠ "buyer") by (simpl; discriminate).
  assert (H2 : owners_are_farmers Cases.accounts (db Scenario.genesis)).
  { apply (bool_decide_unpack _). vm_compute. exact I. }
  assert (H3 : Cases.accounts !! "farmer-1" = Some Cases.farmer_account)
    by (vm_compute; reflexivity).
  assert (H4 : listings (db Scenario.genesis) !! "listing-1" = Some Scenario.wheat)
    by (vm_compute; reflexivity).
  split; [exact (conj H1 (conj H2 (conj H3 (conj H4 eq_refl))))|].
  destruct requestContract_refusals as [Hrole Howner].
  split.
  - exact (proj2 (Hrole (Scenario.call (mkUser "clerk-1" "admin") "listing-1")
                    Scenario.genesis H1)).
  - exact (Howner Cases.accounts "farmer-1" Cases.farmer_account "listing-1" Body.empty
             Scenario.genesis Scenario.wheat H2 H3 H4 eq_refl).
Defined.

(** Counterexample to C9. Under the path of the first contract, a body that
    names the second one has the second one accepted and the first one left
    requested; without the body field it is the first one that is accepted. *)
Lemma acceptContract_follows_requestId :
  params_id Scenario.accept_by_alias = "row-0"
  ∧ Contract.status
      <$> contracts (store_after (acceptContract Scenario.accept_by_alias
                                    Scenario.requested_twice)) !! "row-0"
    = Some requested
  ∧ Contract.status
      <$> contracts (store_after (acceptContract Scenario.accept_by_alias
                                    Scenario.requested_twice)) !! "row-1"
    = Some accepted
  ∧ Contract.status
      <$> contracts (store_after (acceptContract (Scenario.call Scenario.farmer "row-0")
                                    Scenario.requested_twice)) !! "row-0"
    = Some accepted.
Proof. split_and!; vm_compute; reflexivity. Qed.

(** The rows of the contract table that a sequence of writes leaves alone. *)
Lemma row_kept_alter (k k0 : string) (v : option Contract.t)
    (f : Contract.t → Contract.t) :
  k0 ≠ k → preserves (λ d, contracts d !! k = v) (set_contracts (alter f k0)).
Proof. intros Hne d Hd. simpl. by rewrite lookup_alter_ne. Qed.

Lemma row_kept_listings (k : string) (v : option Contract.t)
    (f : gmap string Listing.t → gmap string Listing.t) :
  preserves (λ d, contracts d !! k = v) (set_listings f).
Proof. by intros d Hd. Qed.

Lemma row_kept_transactions (k : string) (v : option Contract.t)
    (f : list Transaction.t → list Transaction.t) :
  preserves (λ d, contracts d !! k = v) (set_transactions f).
Proof. by intros d Hd. Qed.

Ltac row_kept_writes :=
  repeat first
    [ apply Forall_nil_2
    | apply Forall_cons_2
    | apply row_kept_listings
    | apply row_kept_transactions
    | apply row_kept_alter; congruence ].

(** C9, amended. The contract that reject, complete and cancel act on is
    the one named in the request path: no other row of the contract table
    changes, and a [requestId] in the body changes nothing.
    [acceptContract] acts on the contract named by the body's [requestId]
    when that is a non-empty string, and on the one named in the path when
    the field is absent or empty. *)
Theorem contract_identifier (req : Request) (w : World) (x : option string) :
  keyed (db w) →
  (∀ k, k ≠ or_else (Body.requestId (body req)) (params_id req) →
        contracts (store_after (acceptContract req w)) !! k = contracts (db w) !! k)
  ∧ (∀ k, k ≠ params_id req →
          contracts (store_after (rejectContract req w)) !! k = contracts (db w) !! k
          ∧ contracts (store_after (completeContract req w)) !! k = contracts (db w) !! k
          ∧ contracts (store_after (cancelContract req w)) !! k = contracts (db w) !! k)
  ∧ rejectContract (with_requestId x req) w = rejectContract req w
  ∧ completeContract (with_requestId x req) w = completeContract req w
  ∧ cancelContract (with_requestId x req) w = cancelContract req w
  ∧ acceptContract (with_requestId x req) w
    = acceptContract
        (with_requestId None (with_params_id (or_else x (params_id req)) req)) w
  ∧ acceptContract (with_requestId (Some "") req) w
    = acceptContract (with_requestId None req) w.
Proof.
  intros Hkeyed. unfold store_after. split_and!; try reflexivity.
  - intros k Hk.
    destruct (acceptContract_outcomes req w)
      as [[-> _]|(c0 & Hc0 & _ & _ & n & _ & -> & _)]; [done|].
    pose proof (Hkeyed _ _ Hc0) as Hid. simpl in Hid.
    apply (apply_writes_take (λ d, contracts d !! k = contracts (db w) !! k)); [|done].
    unfold accept_writes. row_kept_writes.
  - intros k Hk. split_and!.
    + destruct (rejectContract_outcomes req w)
        as [[-> _]|(c0 & Hc0 & _ & _ & n & _ & -> & _)]; [done|].
      pose proof (Hkeyed _ _ Hc0) as Hid. simpl in Hid.
      apply (apply_writes_take (λ d, contracts d !! k = contracts (db w) !! k)); [|done].
      unfold reject_writes. case_bool_decide; row_kept_writes.
    + destruct (completeContract_outcomes req w)
        as [[-> _]|(c0 & ? & ? & ? & Hc0 & _ & _ & _ & _ & n & _ & -> & _)]; [done|].
      pose proof (Hkeyed _ _ Hc0) as Hid. simpl in Hid.
      apply (apply_writes_take (λ d, contracts d !! k = contracts (db w) !! k)); [|done].
      unfold complete_writes. row_kept_writes.
    + destruct (cancelContract_outcomes req w)
        as [[-> _]|(c0 & Hc0 & _ & _ & n & _ & -> & _)]; [done|].
      pose proof (Hkeyed _ _ Hc0) as Hid. simpl in Hid.
      apply (apply_writes_take (λ d, contracts d !! k = contracts (db w) !! k)); [|done].
      unfold cancel_writes. repeat case_match; row_kept_writes.
Qed.

Lemma contract_identifier_witness :
  keyed (db Scenario.requested_twice)
  ∧ contracts (store_after (acceptContract Scenario.accept_by_alias
                              Scenario.requested_twice)) !! "row-0"
    = contracts (db Scenario.requested_twice) !! "row-0"
  ∧ contracts (store_after (rejectContract Scenario.accept_by_alias
                              Scenario.requested_twice)) !! "row-1"
    = contracts (db Scenario.requested_twice) !! "row-1".
Proof.
  assert (H1 : keyed (db Scenario.requested_twice)).
  { apply (bool_decide_unpack _). vm_compute. exact I. }
  destruct (contract_identifier Scenario.accept_by_alias Scenario.requested_twice
              None H1) as (Haccept & Hothers & _).
  split_and!; [exact H1 | |].
  - apply Haccept. vm_compute. discriminate.
  - apply Hothers. simpl. discriminate.
Defined.

(** Counterexample to C2. The update of the listing fails after the update
    of the contract: [acceptContract] throws and leaves the contract accepted
    with its listing still active.  The first ledger insert fails:
    [completeContract] throws and leaves the contract and its listing
    completed with no ledger entry. *)
Lemma partial_writes_stay :
  ((acceptContract (Scenario.call Scenario.farmer "row-0")
      (Scenario.failing 2 Scenario.requested_twice)).1 = Threw StorageFault
   ∧ Contract.status
       <$> contracts (store_after (acceptContract (Scenario.call Scenario.farmer "row-0")
                        (Scenario.failing 2 Scenario.requested_twice))) !! "row-0"
     = Some accepted
   ∧ Listing.status
       <$> listings (store_after (acceptContract (Scenario.call Scenario.farmer "row-0")
                       (Scenario.failing 2 Scenario.requested_twice))) !! "listing-1"
     = Some active)
  ∧ ((completeContract (Scenario.call Scenario.buyer1 "row-0")
        (Scenario.failing 3 Scenario.accepted_once)).1 = Threw StorageFault
     ∧ Contract.status
         <$> contracts (store_after (completeContract (Scenario.call Scenario.buyer1 "row-0")
                          (Scenario.failing 3 Scenario.accepted_once))) !! "row-0"
       = Some completed
     ∧ Listing.status
         <$> listings (store_after (completeContract (Scenario.call Scenario.buyer1 "row-0")
                         (Scenario.failing 3 Scenario.accepted_once))) !! "listing-1"
       = Some listing_completed
     ∧ transactions (store_after (completeContract (Scenario.call Scenario.buyer1 "row-0")
                                    (Scenario.failing 3 Scenario.accepted_once)))
       = []).
Proof. split_and!; vm_compute; reflexivity. Qed.

(** C2, amended. [acceptContract], [completeContract] and [cancelContract]
    issue their writes one after the other, with no transaction around them
    and no rollback.  Either the handler finds no contract to act on, does
    not succeed and leaves the store as it was, or the store it leaves is the
    store it found with a prefix of its writes applied, in the order contract,
    listing, ledger: all of them when the handler answers, and possibly only
    the first ones when a later storage call throws. *)
Theorem lifecycle_writes_in_order (req : Request) (w : World) :
  ((store_after (acceptContract req w) = db w
    ∧ ∀ r, (acceptContract req w).1 = Returned r →
           Response.success r = false ∧ Response.status r = 404)
   ∨ ∃ c,
       contracts (db w) !! or_else (Body.requestId (body req)) (params_id req) = Some c
       ∧ Contract.farmerId c = user_id (user req)
       ∧ Contract.status c = requested
       ∧ prefix_applied (accept_writes c) (db w) (acceptContract req w))
  ∧ ((store_after (completeContract req w) = db w
      ∧ ∀ r, (completeContract req w).1 = Returned r →
             Response.success r = false ∧ Response.status r = 404)
     ∨ ∃ c completedAt sale purchase,
         contracts (db w) !! params_id req = Some c
         ∧ party (user req) c
         ∧ Contract.status c ∈ [accepted; in_progress]
         ∧ (∃ tid date, sale = sale_entry tid date c)
         ∧ (∃ tid date, purchase = purchase_entry tid date c)
         ∧ prefix_applied
             (complete_writes c (Body.deliveryProof (body req)) completedAt sale purchase)
             (db w) (completeContract req w))
  ∧ ((store_after (cancelContract req w) = db w
      ∧ ∀ r, (cancelContract req w).1 = Returned r →
             Response.success r = false ∧ Response.status r = 404)
     ∨ ∃ c,
         contracts (db w) !! params_id req = Some c
         ∧ party (user req) c
         ∧ Contract.status c ≠ completed
         ∧ prefix_applied (cancel_writes c (Body.reason (body req)) (db w)) (db w)
             (cancelContract req w)).
Proof.
  split_and!.
  - apply acceptContract_outcomes.
  - apply completeContract_outcomes.
  - apply cancelContract_outcomes.
Qed.

(** C3. The farmer accepts the two requests made on one listing, one after
    the other: the second [acceptContract] succeeds as well, and the listing
    then has two accepted contracts. *)
Theorem accept_second_contract :
  Listing.status <$> listings (db Scenario.accepted_once) !! "listing-1" = Some contracted
  ∧ Contract.status <$> contracts (db Scenario.accepted_once) !! "row-0" = Some accepted
  ∧ ok (acceptContract (Scenario.call Scenario.farmer "row-1") Scenario.accepted_once)
    = true
  ∧ (λ c, (Contract.listingId c, Contract.status c))
      <$> contracts (db Scenario.accepted_twice) !! "row-0"
    = Some ("listing-1", accepted)
  ∧ (λ c, (Contract.listingId c, Contract.status c))
      <$> contracts (db Scenario.accepted_twice) !! "row-1"
    = Some ("listing-1", accepted).
Proof. split_and!; vm_compute; reflexivity. Qed.

(** * Further properties of the contract lifecycle *)

(** ** Who may act on a contract *)

(** X1. [acceptContract] acts only for the farmer of a requested contract:
    when the contract named by the request is absent, or has another farmer,
    or is not in status requested, the request does not succeed and the store
    is left as it was; the answer is 404 NOT_FOUND when the lookup itself does
    not fail. *)
Theorem acceptContract_refuses (req : Request) (w : World) :
  (∀ c, contracts (db w) !! acted_on PUT_accept req = Some c →
        Contract.farmerId c ≠ user_id (user req) ∨ Contract.status c ≠ requested) →
  ok (acceptContract req w) = false
  ∧ store_after (acceptContract req w) = db w
  ∧ (fault w (calls w) = false →
     ∃ r, (acceptContract req w).1 = Returned r
          ∧ Response.status r = 404
          ∧ error_code r = Some "NOT_FOUND").
Proof.
  intros Hno. simpl in Hno. split_and!.
  - destruct (ok _) eqn:Hok; [|done].
    apply ok_succeeds in Hok as [r Hr].
    apply acceptContract_succeeds in Hr as (c & ? & ? & Hc & Hfarmer & Hst & _).
    destruct (Hno c Hc); done.
  - unfold store_after.
    destruct (acceptContract_outcomes req w) as [[Hdb _]|(c & Hc & Hfarmer & Hst & _)];
      [done|].
    destruct (Hno c Hc); done.
  - intros Hfault. run_handler; bool_facts.
    all: try (by destruct (Hno _ eq_refl)).
    all: by eexists.
Qed.

(** X2. Reject, complete and cancel act only for a party of the contract:
    when the contract named in the path is absent or the caller is neither
    its farmer nor its buyer, the request does not succeed and the store is
    left as it was; the answer is the 404 NOT_FOUND given for a contract that
    does not exist. *)
Theorem party_only (route : Route) (req : Request) (w : World) :
  route ∈ [PUT_reject; PUT_complete; PUT_cancel] →
  (∀ c, contracts (db w) !! params_id req = Some c → ¬ party (user req) c) →
  ok (router route req w) = false
  ∧ store_after (router route req w) = db w
  ∧ (fault w (calls w) = false →
     ∃ r, (router route req w).1 = Returned r
          ∧ Response.status r = 404
          ∧ Response.message r = "Contract not found."
          ∧ error_code r = Some "NOT_FOUND").
Proof.
  intros Hroute Hno. rewrite !elem_of_cons, elem_of_nil in Hroute.
  destruct route; simpl.
  - by destruct Hroute as [?|[?|[?|[]]]].
  - by destruct Hroute as [?|[?|[?|[]]]].
  - split_and!.
    + destruct (ok _) eqn:Hok; [|done].
      apply ok_succeeds in Hok as [r Hr].
      apply rejectContract_succeeds in Hr as (c & ? & Hc & Hparty & _).
      by destruct (Hno c Hc).
    + unfold store_after.
      destruct (rejectContract_outcomes req w) as [[Hdb _]|(c & Hc & Hparty & _)]; [done|].
      by destruct (Hno c Hc).
    + intros Hfault. run_handler; bool_facts.
      all: try (by destruct (Hno _ eq_refl)).
      all: by eexists.
  - split_and!.
    + destruct (ok _) eqn:Hok; [|done].
      apply ok_succeeds in Hok as [r Hr].
      apply completeContract_succeeds in Hr
        as (c & ? & ? & ? & ? & ? & Hc & Hparty & _).
      by destruct (Hno c Hc).
    + unfold store_after.
      destruct (completeContract_outcomes req w)
        as [[Hdb _]|(c & ? & ? & ? & Hc & Hparty & _)]; [done|].
      by destruct (Hno c Hc).
    + intros Hfault. run_handler; bool_facts.
      all: try (by destruct (Hno _ eq_refl)).
      all: by eexists.
  - split_and!.
    + destruct (ok _) eqn:Hok; [|done].
      apply ok_succeeds in Hok as [r Hr].
      apply cancelContract_succeeds in Hr as (c & ? & Hc & Hparty & _).
      by destruct (Hno c Hc).
    + unfold store_after.
      destruct (cancelContract_outcomes req w) as [[Hdb _]|(c & Hc & Hparty & _)]; [done|].
      by destruct (Hno c Hc).
    + intros Hfault. run_handler; bool_facts.
      all: try (by destruct (Hno _ eq_refl)).
      all: by eexists.
Qed.

(** X3. [requestContract] by a buyer on a listing that does not exist does
    not succeed and leaves the store as it was; the answer is 404 NOT_FOUND
    when the lookup itself does not fail. *)
Theorem requestContract_no_listing (req : Request) (w : World) :
  role (user req) = "buyer" →
  listings (db w) !! params_id req = None →
  ok (requestContract req w) = false
  ∧ store_after (requestContract req w) = db w
  ∧ (fault w (calls w) = false →
     ∃ r, (requestContract req w).1 = Returned r
          ∧ Response.status r = 404
          ∧ Response.message r = "Listing not found."
          ∧ error_code r = Some "NOT_FOUND").
Proof.
  intros Hrole Hnone.
  assert (ok (requestContract req w) = false) as Hok.
  { destruct (ok _) eqn:Hok; [|done].
    apply ok_succeeds in Hok as [r Hr].
    apply requestContract_succeeds in Hr as (l & ? & ? & _ & Hl & _).
    congruence. }
  split_and!; [done| |].
  - apply requestContract_fails. intros r Hr.
    unfold ok in Hok. by rewrite Hr in Hok.
  - intros Hfault. run_handler; bool_facts; try done.
    by eexists.
Qed.

(** ** What a successful request leaves behind *)

(** Discards the branch in which a filter that holds has failed. *)
Ltac filter_fails :=
  exfalso;
  match goal with
  | H : _ = false |- _ =>
      rewrite ?(proj2 (party_filter _ _)) in H by done;
      rewrite ?bool_decide_eq_true_2 in H by done;
      rewrite ?bool_decide_eq_false_2 in H by done;
      simpl in H; discriminate H
  end.

(** Discards the branches in which a storage call fails. *)
Ltac no_faults Hff :=
  try match goal with
      | H : fault _ _ = true |- _ => by rewrite Hff in H
      end.

Lemma alter_found {A} (f : A → A) (k : string) (x : A) (m : gmap string A) :
  m !! k = Some x → alter f k m = <[k := f x]> m.
Proof.
  intros Hk. apply map_eq. intros j. destruct (decide (k = j)) as [<-|Hne].
  - by rewrite lookup_alter_eq, lookup_insert_eq, Hk.
  - by rewrite lookup_alter_ne, lookup_insert_ne.
Qed.

(** X4. A successful [acceptContract] rewrites exactly two rows: the
    contract, whose status becomes accepted, and its listing, whose status
    becomes contracted, each otherwise the row it was; every other row and
    the ledger are as they were. *)
Theorem acceptContract_effect (req : Request) (w : World) (c : Contract.t) :
  contracts (db w) !! acted_on PUT_accept req = Some c →
  Contract.id c = acted_on PUT_accept req →
  ok (acceptContract req w) = true →
  ∃ l l' c',
    listings (db w) !! Contract.listingId c = Some l
    ∧ store_after (acceptContract req w)
      = mkDb (<[Contract.listingId c := l']> (listings (db w)))
             (<[Contract.id c := c']> (contracts (db w)))
             (transactions (db w))
    ∧ Contract.status c' = accepted
    ∧ c' = Contract.with_status accepted c
    ∧ Listing.status l' = contracted
    ∧ l' = Listing.with_status contracted l.
Proof.
  intros Hc Hid [r Hok]%ok_succeeds. simpl in Hc, Hid.
  apply acceptContract_succeeds in Hok
    as (c0 & row & l & Hc0 & _ & _ & Hrow & Hl & Hdb & _).
  assert (c0 = c) as -> by congruence.
  assert (row = c) as -> by (rewrite Hid in Hrow; congruence).
  exists l, (Listing.with_status contracted l), (Contract.with_status accepted c).
  split_and!; [done| |done..]. unfold store_after. rewrite Hdb.
  unfold accept_writes, apply_writes, set_listings, set_contracts. simpl.
  by rewrite (alter_found _ _ _ _ Hrow), (alter_found _ _ _ _ Hl).
Qed.

(** X5. Nothing else can stop [acceptContract]: when no storage call fails
    and the request names a requested contract of the calling farmer whose
    listing exists, the request succeeds. *)
Theorem acceptContract_succeeds_when (req : Request) (w : World) (c : Contract.t) :
  fault_free w →
  contracts (db w) !! acted_on PUT_accept req = Some c →
  Contract.id c = acted_on PUT_accept req →
  Contract.farmerId c = user_id (user req) →
  Contract.status c = requested →
  is_Some (listings (db w) !! Contract.listingId c) →
  ok (acceptContract req w) = true
  ∧ ∃ r, (acceptContract req w).1 = Returned r ∧ Response.status r = 200.
Proof.
  intros Hff Hc Hid Hfarmer Hst [l Hl]. simpl in Hc, Hid.
  unfold ok. run_handler; bool_facts; no_faults Hff.
  all: try done.
  all: try congruence.
  - split; [done|]. by eexists.
  - filter_fails.
Qed.


(** ** When a request succeeds *)

Lemma fresh_ledger_id (id : string) (ts : list Transaction.t) :
  id ∉ Transaction.id <$> ts →
  existsb (λ t, bool_decide (Transaction.id t = id)) ts = false.
Proof.
  induction ts as [|t ts IH]; simpl; [done|].
  rewrite not_elem_of_cons. intros [Hne Hts].
  rewrite bool_decide_eq_false_2 by done. simpl. by apply IH.
Qed.

(** X7. When no storage call fails, a buyer who requests an active listing
    of another user is answered 201, provided the identifier minted for the
    new contract is not taken. *)
Theorem requestContract_succeeds_when (req : Request) (w : World) (l : Listing.t) :
  fault_free w →
  role (user req) = "buyer" →
  listings (db w) !! params_id req = Some l →
  Listing.status l = active →
  Listing.farmerId l ≠ user_id (user req) →
  contracts (db w) !! uuid w (minted w) = None →
  ok (requestContract req w) = true
  ∧ ∃ r, (requestContract req w).1 = Returned r ∧ Response.status r = 201.
Proof.
  intros Hff Hrole Hl Hactive Hother Hfresh.
  unfold ok. run_handler; bool_facts; no_faults Hff.
  all: try done.
  all: try congruence.
  split; [done|]. by eexists.
Qed.

(** X8. When no storage call fails, [completeContract] by a party of an
    accepted or in-progress contract whose listing exists succeeds, provided
    the two identifiers minted for its ledger entries are new. *)
Theorem completeContract_succeeds_when (req : Request) (w : World) (c : Contract.t) :
  fault_free w →
  contracts (db w) !! params_id req = Some c →
  Contract.id c = params_id req →
  party (user req) c →
  Contract.status c ∈ [accepted; in_progress] →
  is_Some (listings (db w) !! Contract.listingId c) →
  uuid w (minted w) ∉ ledger_ids (db w) →
  uuid w (S (minted w)) ∉ (uuid w (minted w) :: ledger_ids (db w)) →
  ok (completeContract req w) = true
  ∧ ∃ r, (completeContract req w).1 = Returned r ∧ Response.status r = 200.
Proof.
  intros Hff Hc Hid Hparty Hst [l Hl] Hsale Hpurchase.
  apply fresh_ledger_id in Hsale.
  assert (existsb (λ t, bool_decide (Transaction.id t = uuid w (S (minted w))))
            (transactions (db w)
             ++ [sale_entry (uuid w (minted w)) (clock w (S (ticks w))) c]) = false)
    as Hpurchase'.
  { apply fresh_ledger_id. rewrite fmap_app. simpl.
    apply not_elem_of_cons in Hpurchase as [Hne Hrest].
    rewrite elem_of_app, list_elem_of_singleton. intros [?|?]; done. }
  unfold sale_entry in Hpurchase'.
  unfold ok. run_handler; bool_facts; no_faults Hff.
  all: try done.
  all: try congruence.
  - split; [done|]. by eexists.
  - filter_fails.
Qed.

(** X9. When no storage call fails, [rejectContract] by a party of a
    requested or accepted contract succeeds; for an accepted contract the
    listing row has to exist, for a requested one it is not even read. *)
Theorem rejectContract_succeeds_when (req : Request) (w : World) (c : Contract.t) :
  fault_free w →
  contracts (db w) !! params_id req = Some c →
  Contract.id c = params_id req →
  party (user req) c →
  Contract.status c ∈ [requested; accepted] →
  (Contract.status c = accepted → is_Some (listings (db w) !! Contract.listingId c)) →
  ok (rejectContract req w) = true
  ∧ ∃ r, (rejectContract req w).1 = Returned r ∧ Response.status r = 200.
Proof.
  intros Hff Hc Hid Hparty Hst Hl.
  unfold ok. run_handler; bool_facts; no_faults Hff.
  all: try done.
  all: try congruence.
  all: try (split; [done|]; by eexists).
  all: try filter_fails.
  match goal with H : Contract.status _ = accepted |- _ => destruct (Hl H) end.
  congruence.
Qed.

(** X10. When no storage call fails, [cancelContract] by a party of a
    contract that is not completed succeeds, whether or not the listing row
    exists; in particular it succeeds again on a contract that is already
    cancelled. *)
Theorem cancelContract_succeeds_when (req : Request) (w : World) (c : Contract.t) :
  fault_free w →
  contracts (db w) !! params_id req = Some c →
  Contract.id c = params_id req →
  party (user req) c →
  Contract.status c ≠ completed →
  ok (cancelContract req w) = true
  ∧ ∃ r, (cancelContract req w).1 = Returned r ∧ Response.status r = 200.
Proof.
  intros Hff Hc Hid Hparty Hst.
  unfold ok. run_handler; bool_facts; no_faults Hff.
  all: try done.
  all: try congruence.
  all: try (split; [done|]; by eexists).
  all: filter_fails.
Qed.

(** ** The lifecycle as a state machine *)

Lemma same_deal_refl (c : Contract.t) : same_deal c c.
Proof. by unfold same_deal. Qed.

Lemma same_deal_trans (a b c : Contract.t) :
  same_deal a b → same_deal b c → same_deal a c.
Proof.
  unfold same_deal. intros (?&?&?&?&?) (?&?&?&?&?). split_and!; congruence.
Qed.

Lemma moved_alter (k key : string) (s : ContractStatus) (c : Contract.t)
    (f : Contract.t → Contract.t) :
  (∀ x, same_deal x (f x)) →
  (∀ x, Contract.status (f x) = s) →
  preserves (at_most_moved k key s c) (set_contracts (alter f key)).
Proof.
  intros Hdeal Hst d (c' & Hc' & Hsame & Hmoved). unfold at_most_moved. simpl.
  destruct (decide (key = k)) as [->|Hne].
  - exists (f c'). rewrite lookup_alter_eq, Hc'. split_and!; [done| |by right].
    by eapply same_deal_trans.
  - exists c'. by rewrite lookup_alter_ne.
Qed.

Lemma moved_listings (k key : string) (s : ContractStatus) (c : Contract.t)
    (f : gmap string Listing.t → gmap string Listing.t) :
  preserves (at_most_moved k key s c) (set_listings f).
Proof. by intros d Hd. Qed.

Lemma moved_transactions (k key : string) (s : ContractStatus) (c : Contract.t)
    (f : list Transaction.t → list Transaction.t) :
  preserves (at_most_moved k key s c) (set_transactions f).
Proof. by intros d Hd. Qed.

Ltac moved_writes :=
  repeat first
    [ apply Forall_nil_2
    | apply Forall_cons_2
    | apply moved_listings
    | apply moved_transactions
    | apply moved_alter; [by intros []|done] ].

Lemma moved_start (k key : string) (s : ContractStatus) (c : Contract.t) (d : Db) :
  contracts d !! k = Some c → at_most_moved k key s c d.
Proof. intros Hc. exists c. split_and!; [done|apply same_deal_refl|by left]. Qed.

(** X11. One request moves at most the contract it names, and only along
    the lifecycle: requested to accepted (accept), requested or accepted to
    cancelled (reject), accepted or in progress to completed (complete), any
    status but completed to cancelled (cancel).  No contract row is removed,
    and a row keeps its id, its listing, its parties and the values copied
    from the listing. *)
Theorem lifecycle_step (route : Route) (req : Request) (w : World) (k : string)
    (c : Contract.t) :
  keyed (db w) →
  contracts (db w) !! k = Some c →
  ∃ c',
    contracts (db (serve w (route, req))) !! k = Some c'
    ∧ same_deal c c'
    ∧ (c' = c
       ∨ (k = acted_on route req
          ∧ lifecycle route (Contract.status c) = Some (Contract.status c'))).
Proof.
  intros Hkeyed Hc. unfold serve. simpl.
  destruct route; simpl.
  - exists c. split_and!; [|apply same_deal_refl|by left].
    destruct (requestContract_outcomes req w) as [->|(l & c0 & _ & _ & _ & Hfresh & ->)];
      [done|].
    simpl. rewrite lookup_insert_ne; [done|]. intros Heq. rewrite Heq in Hfresh. congruence.
  - destruct (acceptContract_outcomes req w)
      as [[-> _]|(c0 & Hc0 & _ & Hst0 & n & _ & -> & _)].
    { exists c. split_and!; [done|apply same_deal_refl|by left]. }
    pose proof (Hkeyed _ _ Hc0) as Hid. simpl in Hid.
    pose proof (apply_writes_take
                  (at_most_moved k (Contract.id c0) accepted c) (accept_writes c0) n (db w))
      as (c' & Hc' & Hdeal & Hmoved); [unfold accept_writes; moved_writes
                                      |by apply moved_start|].
    exists c'. split_and!; [done..|].
    destruct Hmoved as [->|[-> Hst']]; [by left|right].
    rewrite Hid in *. split; [done|].
    assert (c0 = c) as -> by congruence. by rewrite Hst0, Hst'.
  - destruct (rejectContract_outcomes req w)
      as [[-> _]|(c0 & Hc0 & _ & Hst0 & n & _ & -> & _)].
    { exists c. split_and!; [done|apply same_deal_refl|by left]. }
    pose proof (Hkeyed _ _ Hc0) as Hid. simpl in Hid.
    pose proof (apply_writes_take
                  (at_most_moved k (Contract.id c0) cancelled c)
                  (reject_writes c0 (Body.reason (body req))) n (db w))
      as (c' & Hc' & Hdeal & Hmoved);
      [unfold reject_writes; case_bool_decide; moved_writes|by apply moved_start|].
    exists c'. split_and!; [done..|].
    destruct Hmoved as [->|[-> Hst']]; [by left|right].
    rewrite Hid in *. split; [done|].
    assert (c0 = c) as -> by congruence. rewrite Hst'.
    rewrite !elem_of_cons, elem_of_nil in Hst0.
    by destruct Hst0 as [->|[->|[]]].
  - destruct (completeContract_outcomes req w)
      as [[-> _]|(c0 & t0 & sale & purchase & Hc0 & _ & Hst0 & _ & _ & n & _ & -> & _)].
    { exists c. split_and!; [done|apply same_deal_refl|by left]. }
    pose proof (Hkeyed _ _ Hc0) as Hid. simpl in Hid.
    pose proof (apply_writes_take
                  (at_most_moved k (Contract.id c0) completed c)
                  (complete_writes c0 (Body.deliveryProof (body req)) t0 sale purchase)
                  n (db w))
      as (c' & Hc' & Hdeal & Hmoved);
      [unfold complete_writes; moved_writes|by apply moved_start|].
    exists c'. split_and!; [done..|].
    destruct Hmoved as [->|[-> Hst']]; [by left|right].
    rewrite Hid in *. split; [done|].
    assert (c0 = c) as -> by congruence. rewrite Hst'.
    rewrite !elem_of_cons, elem_of_nil in Hst0.
    by destruct Hst0 as [->|[->|[]]].
  - destruct (cancelContract_outcomes req w)
      as [[-> _]|(c0 & Hc0 & _ & Hst0 & n & _ & -> & _)].
    { exists c. split_and!; [done|apply same_deal_refl|by left]. }
    pose proof (Hkeyed _ _ Hc0) as Hid. simpl in Hid.
    pose proof (apply_writes_take
                  (at_most_moved k (Contract.id c0) cancelled c)
                  (cancel_writes c0 (Body.reason (body req)) (db w)) n (db w))
      as (c' & Hc' & Hdeal & Hmoved);
      [unfold cancel_writes; repeat case_match; moved_writes|by apply moved_start|].
    exists c'. split_and!; [done..|].
    destruct Hmoved as [->|[-> Hst']]; [by left|right].
    rewrite Hid in *. split; [done|].
    assert (c0 = c) as -> by congruence. rewrite Hst'.
    by destruct (Contract.status c).
Qed.

(** ** Invariants of the store under any sequence of requests *)

Lemma keyed_writes_alter (f : Contract.t → Contract.t) (k : string) :
  (∀ c, Contract.id (f c) = Contract.id c) →
  preserves keyed (set_contracts (alter f k)).
Proof. intros Hf d Hd. by apply keyed_alter. Qed.

Lemma keyed_writes_listings (f : gmap string Listing.t → gmap string Listing.t) :
  preserves keyed (set_listings f).
Proof. by intros d Hd. Qed.

Lemma keyed_writes_transactions (f : list Transaction.t → list Transaction.t) :
  preserves keyed (set_transactions f).
Proof. by intros d Hd. Qed.

Ltac keyed_writes :=
  repeat first
    [ apply Forall_nil_2
    | apply Forall_cons_2
    | apply keyed_writes_listings
    | apply keyed_writes_transactions
    | apply keyed_writes_alter; done ].

Lemma serve_keyed (w : World) (call : Route * Request) :
  keyed (db w) → keyed (db (serve w call)).
Proof.
  intros Hw. destruct call as [route req]. unfold serve. simpl.
  destruct route; simpl.
  - destruct (requestContract_outcomes req w) as [->|(l & c0 & _ & _ & _ & _ & ->)];
      [done|by apply keyed_insert].
  - destruct (acceptContract_outcomes req w)
      as [[-> _]|(c0 & _ & _ & _ & n & _ & -> & _)]; [done|].
    apply apply_writes_take; [|done]. unfold accept_writes. keyed_writes.
  - destruct (rejectContract_outcomes req w)
      as [[-> _]|(c0 & _ & _ & _ & n & _ & -> & _)]; [done|].
    apply apply_writes_take; [|done]. unfold reject_writes.
    case_bool_decide; keyed_writes.
  - destruct (completeContract_outcomes req w)
      as [[-> _]|(c0 & t0 & sale & purchase & _ & _ & _ & _ & _ & n & _ & -> & _)]; [done|].
    apply apply_writes_take; [|done]. unfold complete_writes. keyed_writes.
  - destruct (cancelContract_outcomes req w)
      as [[-> _]|(c0 & _ & _ & _ & n & _ & -> & _)]; [done|].
    apply apply_writes_take; [|done]. unfold cancel_writes.
    repeat case_match; keyed_writes.
Qed.

(** X12. The contract table stays keyed by contract id: when every row is
    stored under its own [id], so it is after any sequence of lifecycle
    requests and listing edits, and the identifiers that are taken are never
    released. *)
Theorem keyed_invariant (w w' : World) :
  keyed (db w) →
  later w w' →
  keyed (db w')
  ∧ ∀ k, is_Some (contracts (db w) !! k) → is_Some (contracts (db w') !! k).
Proof.
  intros Hkeyed Hlater.
  induction Hlater as [w|w call w' _ IH|w f w' _ IH].
  - done.
  - destruct (IH (serve_keyed _ _ Hkeyed)) as [Hk' Hdom]. split; [done|].
    intros k [c Hc]. apply Hdom.
    destruct (serve_deal k (snapshot c) w call) as (c' & Hc' & _); [by exists c|].
    by eexists.
  - destruct (IH Hkeyed) as [Hk' Hdom]. split; [done|]. intros k Hk. by apply Hdom.
Qed.

Lemma ledger_kept_contracts (ts : list Transaction.t)
    (f : gmap string Contract.t → gmap string Contract.t) :
  preserves (λ d, transactions d = ts) (set_contracts f).
Proof. by intros d Hd. Qed.

Lemma ledger_kept_listings (ts : list Transaction.t)
    (f : gmap string Listing.t → gmap string Listing.t) :
  preserves (λ d, transactions d = ts) (set_listings f).
Proof. by intros d Hd. Qed.

Ltac ledger_kept_writes :=
  repeat first
    [ apply Forall_nil_2
    | apply Forall_cons_2
    | apply ledger_kept_listings
    | apply ledger_kept_contracts ].

(** What one request adds to the ledger. *)
Lemma serve_ledger (w : World) (route : Route) (req : Request) :
  ∃ new,
    transactions (db (serve w (route, req))) = (transactions (db w) ++ new)%list
    ∧ (route ≠ PUT_complete → new = [])
    ∧ (new = []
       ∨ ∃ c tid date,
           contracts (db w) !! params_id req = Some c
           ∧ Contract.status c ∈ [accepted; in_progress]
           ∧ party (user req) c
           ∧ (∃ t0, contracts (db (serve w (route, req)))
                    = alter (completed_row t0 (Body.deliveryProof (body req)) c)
                        (Contract.id c) (contracts (db w)))
           ∧ (new = [sale_entry tid date c]
              ∨ ∃ tid' date',
                  new = [sale_entry tid date c; purchase_entry tid' date' c])).
Proof.
  unfold serve. simpl. destruct route; simpl.
  - exists []. rewrite app_nil_r. split_and!; [|done|by left].
    by destruct (requestContract_outcomes req w) as [->|(l & c0 & _ & _ & _ & _ & ->)].
  - exists []. rewrite app_nil_r. split_and!; [|done|by left].
    destruct (acceptContract_outcomes req w)
      as [[-> _]|(c0 & _ & _ & _ & n & _ & -> & _)]; [done|].
    apply (apply_writes_take (λ d, transactions d = transactions (db w))); [|done].
    unfold accept_writes. ledger_kept_writes.
  - exists []. rewrite app_nil_r. split_and!; [|done|by left].
    destruct (rejectContract_outcomes req w)
      as [[-> _]|(c0 & _ & _ & _ & n & _ & -> & _)]; [done|].
    apply (apply_writes_take (λ d, transactions d = transactions (db w))); [|done].
    unfold reject_writes. case_bool_decide; ledger_kept_writes.
  - destruct (completeContract_outcomes req w)
      as [[-> _]|(c0 & t0 & sale & purchase & Hc0 & Hparty & Hst0
                  & (tid & date & ->) & (tid' & date' & ->) & n & _ & -> & _)].
    { exists []. rewrite app_nil_r. split_and!; [done..|by left]. }
    destruct n as [|[|[|[|n]]]]; unfold apply_writes; simpl.
    + exists []. rewrite app_nil_r. split_and!; [done..|by left].
    + exists []. rewrite app_nil_r. split_and!; [done..|by left].
    + exists []. rewrite app_nil_r. split_and!; [done..|by left].
    + exists [sale_entry tid date c0]. split_and!; [done..|].
      right. eexists _, _, _. split_and!; [done..|by eexists|]. by left.
    + exists [sale_entry tid date c0; purchase_entry tid' date' c0].
      rewrite take_nil. simpl. split_and!; [by rewrite <- app_assoc|done|].
      right. eexists _, _, _. split_and!; [done..|by eexists|]. right. by eexists _, _.
  - exists []. rewrite app_nil_r. split_and!; [|done|by left].
    destruct (cancelContract_outcomes req w)
      as [[-> _]|(c0 & _ & _ & _ & n & _ & -> & _)]; [done|].
    apply (apply_writes_take (λ d, transactions d = transactions (db w))); [|done].
    unfold cancel_writes. repeat case_match; ledger_kept_writes.
Qed.

(** X13. The ledger only grows, and only by [completeContract]: a request
    leaves the ledger it found as a prefix; what it appends is nothing, or
    the income entry of the accepted or in-progress contract named in the
    path, or that entry followed by the contract's expense entry.  No
    sequence of requests and listing edits removes or rewrites an entry. *)
Theorem ledger_append_only (w : World) (route : Route) (req : Request) :
  (∃ new,
     transactions (db (serve w (route, req))) = (transactions (db w) ++ new)%list
     ∧ (route ≠ PUT_complete → new = [])
     ∧ (new = []
        ∨ ∃ c tid date,
            contracts (db w) !! params_id req = Some c
            ∧ Contract.status c ∈ [accepted; in_progress]
            ∧ party (user req) c
            ∧ (new = [sale_entry tid date c]
               ∨ ∃ tid' date',
                   new = [sale_entry tid date c; purchase_entry tid' date' c])))
  ∧ ∀ w', later w w' → transactions (db w) `prefix_of` transactions (db w').
Proof.
  split.
  { destruct (serve_ledger w route req) as (new & Hnew & Hroute & Hwhat).
    exists new. split_and!; [done..|].
    destruct Hwhat as [->|(c & tid & date & ? & ? & ? & _ & ?)]; [by left|right].
    by eexists _, _, _. }
  intros w' Hlater. induction Hlater as [w0|w0 [route0 req0] w' _ IH|w0 f w' _ IH].
  - done.
  - destruct (serve_ledger w0 route0 req0) as (new & Hnew & _).
    etrans; [|exact IH]. rewrite Hnew. by apply prefix_app_r.
  - exact IH.
Qed.

Lemma ledger_of_app (k : string) (d : Db) (new : list Transaction.t) :
  filter (λ t, Transaction.referenceId t = Some k) (transactions d ++ new)
  = (ledger_of k d ++ filter (λ t, Transaction.referenceId t = Some k) new)%list.
Proof. unfold ledger_of. by rewrite filter_app. Qed.

Lemma serve_ledger_sound (w : World) (call : Route * Request) :
  keyed (db w) → ledger_sound (db w) → ledger_sound (db (serve w call)).
Proof.
  intros Hkeyed Hsound k.
  destruct (Hsound k) as [Hempty|(c & Hc & Hst & Hpair)].
  - destruct call as [route req].
    destruct (serve_ledger w route req) as (new & Hnew & _ & Hwhat).
    assert (ledger_of k (db (serve w (route, req)))
            = filter (λ t, Transaction.referenceId t = Some k) new) as ->.
    { unfold ledger_of at 1. by rewrite Hnew, ledger_of_app, Hempty. }
    destruct Hwhat as [->|(c0 & tid & date & Hc0 & Hst0 & _ & [t0 Hrows] & Hentries)];
      [by left|].
    pose proof (Hkeyed _ _ Hc0) as Hid. simpl in Hid.
    destruct (decide (Contract.id c0 = k)) as [<-|Hne].
    + right. exists (completed_row t0 (Body.deliveryProof (body req)) c0 c0).
      split_and!.
      * rewrite Hrows, lookup_alter_eq, Hid, Hc0. done.
      * done.
      * destruct Hentries as [->|(tid' & date' & ->)].
        -- rewrite filter_cons_True, filter_nil by done.
           eexists _, _. split_and!; [done..|]. by left.
        -- rewrite !filter_cons_True, filter_nil by done.
           eexists _, _. split_and!; [done..|]. right. by eexists.
    + left. destruct Hentries as [->|(tid' & date' & ->)].
      * rewrite filter_cons_False, filter_nil; [done|]. simpl. congruence.
      * rewrite !filter_cons_False, filter_nil; [done|simpl; congruence..].
  - right. exists c.
    assert (settled k c (ledger_of k (db w)) (db w)) as Hsettled by done.
    destruct (serve_settled _ _ _ _ call Hst Hsettled) as (_ & Hc' & HL).
    by rewrite HL.
Qed.

(** X14. As long as requests are served one at a time, each to its answer
    before the next one starts, a contract never has more than one ledger
    pair.  In a store keyed by contract id where every contract either has
    no ledger entry or is completed with its income entry (and at most its
    expense entry after it), the same holds after any sequence of lifecycle
    requests served one after the other and of listing edits.  Two
    completions that overlap at an [await] are not covered. *)
Theorem ledger_pairs_invariant (w w' : World) :
  keyed (db w) →
  ledger_sound (db w) →
  later w w' →
  ledger_sound (db w')
  ∧ ∀ k, length (ledger_of k (db w')) ≤ 2.
Proof.
  intros Hkeyed Hsound Hlater.
  assert (ledger_sound (db w')) as Hsound'.
  { induction Hlater as [w|w call w' _ IH|w f w' _ IH].
    - done.
    - apply IH; [by apply serve_keyed|by apply serve_ledger_sound].
    - by apply IH. }
  split; [done|]. intros k.
  destruct (Hsound' k) as [->|(c & _ & _ & sale & rest & -> & _ & _ & _ & Hrest)];
    [simpl; lia|].
  destruct Hrest as [->|(purchase & -> & _)]; simpl; lia.
Qed.

Lemma no_self_dealing_alter (f : Contract.t → Contract.t) (k : string) :
  (∀ c, Contract.farmerId (f c) = Contract.farmerId c
        ∧ Contract.buyerId (f c) = Contract.buyerId c) →
  preserves no_self_dealing (set_contracts (alter f k)).
Proof.
  unfold no_self_dealing. intros Hf d Hd j c. simpl.
  destruct (decide (k = j)) as [->|Hne].
  - rewrite lookup_alter_eq. destruct (contracts d !! j) as [c0|] eqn:Hj; simpl; [|done].
    intros [= <-]. destruct (Hf c0) as [-> ->]. by apply (Hd j).
  - rewrite lookup_alter_ne by done. apply Hd.
Qed.

Lemma no_self_dealing_listings (f : gmap string Listing.t → gmap string Listing.t) :
  preserves no_self_dealing (set_listings f).
Proof. by intros d Hd. Qed.

Lemma no_self_dealing_transactions (f : list Transaction.t → list Transaction.t) :
  preserves no_self_dealing (set_transactions f).
Proof. by intros d Hd. Qed.

Ltac no_self_dealing_writes :=
  repeat first
    [ apply Forall_nil_2
    | apply Forall_cons_2
    | apply no_self_dealing_listings
    | apply no_self_dealing_transactions
    | apply no_self_dealing_alter; done ].

Lemma serve_no_self_dealing (w : World) (call : Route * Request) :
  no_self_dealing (db w) → no_self_dealing (db (serve w call)).
Proof.
  intros Hw. destruct call as [route req]. unfold serve. simpl.
  destruct route; simpl.
  - destruct (ok (requestContract req w)) eqn:Hok.
    + apply ok_succeeds in Hok as [r Hr].
      apply requestContract_succeeds in Hr
        as (l & c & ? & _ & _ & _ & Hother & -> & _ & -> & _).
      unfold no_self_dealing. simpl. by apply map_Forall_insert_2.
    + rewrite (requestContract_fails req w); [done|].
      intros r Hr. unfold ok in Hok. by rewrite Hr in Hok.
  - destruct (acceptContract_outcomes req w)
      as [[-> _]|(c0 & _ & _ & _ & n & _ & -> & _)]; [done|].
    apply apply_writes_take; [|done]. unfold accept_writes. no_self_dealing_writes.
  - destruct (rejectContract_outcomes req w)
      as [[-> _]|(c0 & _ & _ & _ & n & _ & -> & _)]; [done|].
    apply apply_writes_take; [|done]. unfold reject_writes.
    case_bool_decide; no_self_dealing_writes.
  - destruct (completeContract_outcomes req w)
      as [[-> _]|(c0 & t0 & sale & purchase & _ & _ & _ & _ & _ & n & _ & -> & _)]; [done|].
    apply apply_writes_take; [|done]. unfold complete_writes. no_self_dealing_writes.
  - destruct (cancelContract_outcomes req w)
      as [[-> _]|(c0 & _ & _ & _ & n & _ & -> & _)]; [done|].
    apply apply_writes_take; [|done]. unfold cancel_writes.
    repeat case_match; no_self_dealing_writes.
Qed.

(** X15. No contract is ever made between a user and themselves: when no
    contract of the store has the same user as farmer and as buyer, none has
    after any sequence of lifecycle requests and listing edits (a request on
    one's own listing is refused, and no handler rewrites the parties). *)
Theorem no_self_dealing_invariant (w w' : World) :
  no_self_dealing (db w) →
  later w w' →
  ∀ k c, contracts (db w') !! k = Some c → Contract.farmerId c ≠ Contract.buyerId c.
Proof.
  intros Hw Hlater. assert (no_self_dealing (db w')) as Hw'; [|exact Hw'].
  induction Hlater as [w|w call w' _ IH|w f w' _ IH].
  - done.
  - by apply IH, serve_no_self_dealing.
  - by apply IH.
Qed.

Lemma only_status_alter (k k0 : string) (l : Listing.t) (s : ListingStatus) :
  preserves (only_status_changed k l) (set_listings (alter (Listing.with_status s) k0)).
Proof.
  intros d [s0 Hl]. unfold only_status_changed. simpl.
  destruct (decide (k0 = k)) as [->|Hne].
  - exists s. by rewrite lookup_alter_eq, Hl.
  - exists s0. by rewrite lookup_alter_ne.
Qed.

Lemma only_status_contracts (k : string) (l : Listing.t)
    (f : gmap string Contract.t → gmap string Contract.t) :
  preserves (only_status_changed k l) (set_contracts f).
Proof. by intros d Hd. Qed.

Lemma only_status_transactions (k : string) (l : Listing.t)
    (f : list Transaction.t → list Transaction.t) :
  preserves (only_status_changed k l) (set_transactions f).
Proof. by intros d Hd. Qed.

Ltac only_status_writes :=
  repeat first
    [ apply Forall_nil_2
    | apply Forall_cons_2
    | apply only_status_alter
    | apply only_status_contracts
    | apply only_status_transactions ].

Lemma serve_only_status (k : string) (l : Listing.t) (w : World)
    (call : Route * Request) :
  only_status_changed k l (db w) → only_status_changed k l (db (serve w call)).
Proof.
  intros Hw. destruct call as [route req]. unfold serve. simpl.
  destruct route; simpl.
  - by destruct (requestContract_outcomes req w) as [->|(l0 & c0 & _ & _ & _ & _ & ->)].
  - destruct (acceptContract_outcomes req w)
      as [[-> _]|(c0 & _ & _ & _ & n & _ & -> & _)]; [done|].
    apply apply_writes_take; [|done]. unfold accept_writes. only_status_writes.
  - destruct (rejectContract_outcomes req w)
      as [[-> _]|(c0 & _ & _ & _ & n & _ & -> & _)]; [done|].
    apply apply_writes_take; [|done]. unfold reject_writes.
    case_bool_decide; only_status_writes.
  - destruct (completeContract_outcomes req w)
      as [[-> _]|(c0 & t0 & sale & purchase & _ & _ & _ & _ & _ & n & _ & -> & _)]; [done|].
    apply apply_writes_take; [|done]. unfold complete_writes. only_status_writes.
  - destruct (cancelContract_outcomes req w)
      as [[-> _]|(c0 & _ & _ & _ & n & _ & -> & _)]; [done|].
    apply apply_writes_take; [|done]. unfold cancel_writes.
    repeat case_match; only_status_writes.
Qed.

Lemma serve_no_new_listing (k : string) (w : World) (call : Route * Request) :
  listings (db w) !! k = None → listings (db (serve w call)) !! k = None.
Proof.
  intros Hw. destruct call as [route req]. unfold serve. simpl.
  assert (∀ s k0, preserves (λ d, listings d !! k = None)
                    (set_listings (alter (Listing.with_status s) k0))) as Halter.
  { intros s k0 d Hd. simpl. destruct (decide (k0 = k)) as [->|Hne].
    - by rewrite lookup_alter_eq, Hd.
    - by rewrite lookup_alter_ne. }
  assert (∀ f, preserves (λ d, listings d !! k = None) (set_contracts f)) as Hc
    by (by intros f d Hd).
  assert (∀ f, preserves (λ d, listings d !! k = None) (set_transactions f)) as Ht
    by (by intros f d Hd).
  destruct route; simpl.
  - by destruct (requestContract_outcomes req w) as [->|(l0 & c0 & _ & _ & _ & _ & ->)].
  - destruct (acceptContract_outcomes req w)
      as [[-> _]|(c0 & _ & _ & _ & n & _ & -> & _)]; [done|].
    apply (apply_writes_take (λ d, listings d !! k = None)); [|done].
    unfold accept_writes. repeat first [apply Forall_nil_2 | apply Forall_cons_2 | done].
  - destruct (rejectContract_outcomes req w)
      as [[-> _]|(c0 & _ & _ & _ & n & _ & -> & _)]; [done|].
    apply (apply_writes_take (λ d, listings d !! k = None)); [|done].
    unfold reject_writes.
    case_bool_decide; repeat first [apply Forall_nil_2 | apply Forall_cons_2 | done].
  - destruct (completeContract_outcomes req w)
      as [[-> _]|(c0 & t0 & sale & purchase & _ & _ & _ & _ & _ & n & _ & -> & _)]; [done|].
    apply (apply_writes_take (λ d, listings d !! k = None)); [|done].
    unfold complete_writes. repeat first [apply Forall_nil_2 | apply Forall_cons_2 | done].
  - destruct (cancelContract_outcomes req w)
      as [[-> _]|(c0 & _ & _ & _ & n & _ & -> & _)]; [done|].
    apply (apply_writes_take (λ d, listings d !! k = None)); [|done].
    unfold cancel_writes.
    repeat case_match; repeat first [apply Forall_nil_2 | apply Forall_cons_2 | done].
Qed.

(** X16. The lifecycle handlers never create or remove a listing and never
    touch a listing column other than [status]: after any sequence of
    requests a listing key is taken exactly when it was, and a listing is the
    one it was, up to its status. *)
Theorem listings_only_change_status (calls : list (Route * Request)) (w : World)
    (k : string) :
  match listings (db w) !! k with
  | Some l => ∃ s, listings (db (serve_all calls w)) !! k = Some (Listing.with_status s l)
  | None => listings (db (serve_all calls w)) !! k = None
  end.
Proof.
  unfold serve_all. revert w. induction calls as [|call calls IH]; intros w; simpl.
  - destruct (listings (db w) !! k) as [l|] eqn:Hl; [|done].
    exists (Listing.status l). by destruct l.
  - specialize (IH (serve w call)).
    destruct (listings (db w) !! k) as [l|] eqn:Hl.
    + destruct (serve_only_status k l w call) as [s0 Hs0].
      { exists (Listing.status l). by destruct l. }
      rewrite Hs0 in IH. destruct IH as [s Hs]. by exists s.
    + by rewrite (serve_no_new_listing k w call Hl) in IH.
Qed.

(** No lifecycle request changes who owns a listing: the accounts that own
    one keep holding the farmer role. *)
Lemma serve_owners_are_farmers (users : gmap string Account.t) (w : World)
    (call : Route * Request) :
  owners_are_farmers users (db w) → owners_are_farmers users (db (serve w call)).
Proof.
  intros Howners k l' Hl'.
  destruct (listings (db w) !! k) as [l|] eqn:Hl.
  - assert (only_status_changed k l (db w)) as Hstart.
    { exists (Listing.status l). rewrite Hl. by destruct l. }
    destruct (serve_only_status k l w call Hstart) as [s Hs].
    assert (l' = Listing.with_status s l) as -> by congruence.
    exact (Howners k l Hl).
  - by rewrite (serve_no_new_listing k w call Hl) in Hl'.
Qed.

(** ** What the replies carry *)

(** X17. The reply to a successful [acceptContract] carries the accepted
    contract joined with its listing as it was read before the listing is
    marked contracted: the listing in the reply still has its previous
    status, while the stored one is contracted. *)
Theorem acceptContract_reply (req : Request) (w : World) (c : Contract.t) :
  contracts (db w) !! acted_on PUT_accept req = Some c →
  Contract.id c = acted_on PUT_accept req →
  ok (acceptContract req w) = true →
  ∃ r l c' l',
    (acceptContract req w).1 = Returned r
    ∧ Response.status r = 200
    ∧ listings (db w) !! Contract.listingId c = Some l
    ∧ Response.data r = Some (c', Some l)
    ∧ Contract.status c' = accepted
    ∧ c' = Contract.with_status accepted c
    ∧ listings (store_after (acceptContract req w)) !! Contract.listingId c = Some l'
    ∧ Listing.status l' = contracted
    ∧ l' = Listing.with_status contracted l.
Proof.
  intros Hc Hid Hok. simpl in Hc, Hid. unfold ok, store_after in *.
  run_handler; bool_facts.
  match goal with
  | H1 : contracts _ !! Contract.id ?t = Some ?t1,
    H2 : contracts _ !! or_else _ _ = Some ?t |- _ =>
      rewrite Hid in H1; assert (t1 = t) as -> by congruence
  end.
  match goal with
  | H : listings _ !! _ = Some ?l |- _ =>
      eexists _, l, (Contract.with_status accepted t),
        (Listing.with_status contracted l);
      split_and!;
        [done..|simpl; by rewrite H|done|done|by rewrite lookup_alter_eq, H|done|done]
  end.
Qed.

(** X18. [getContractById] shows a contract to its two parties only and
    changes nothing.  When the lookup does not fail it always answers: 200
    with the contract and its listing when the caller is the farmer or the
    buyer of the contract named in the path, and 404 NOT_FOUND without data
    when there is no such contract or the caller is not a party to it.  When
    the lookup fails the error is passed on. *)
Theorem getContractById_parties_only (req : Request) (w : World) :
  db (getContractById req w).2 = db w
  ∧ (fault w (calls w) = true → (getContractById req w).1 = Threw StorageFault)
  ∧ (fault w (calls w) = false →
     (∀ c, contracts (db w) !! params_id req = Some c →
           party (user req) c →
           ∃ r, (getContractById req w).1 = Returned r
                ∧ Response.status r = 200
                ∧ Response.success r = true
                ∧ Response.data r = Some (c, listings (db w) !! Contract.listingId c))
     ∧ ((∀ c, contracts (db w) !! params_id req = Some c → ¬ party (user req) c) →
        ∃ r, (getContractById req w).1 = Returned r
             ∧ Response.status r = 404
             ∧ Response.success r = false
             ∧ error_code r = Some "NOT_FOUND"
             ∧ Response.data r = None)).
Proof.
  unfold getContractById, contract_findFirst_include.
  run_handler; split_and!; try done.
  all: intros _; split.
  all: try (intros c [= <-] Hparty).
  all: try (intros c [=]).
  all: try (intros Hnone).
  all: try (by eexists).
  - exfalso. apply (Hnone _ eq_refl). by apply party_filter.
  - filter_fails.
Qed.

(** ** Reading the ledger *)

(** X19. [getTransactionById] shows a ledger entry to its owner only and
    changes nothing.  When the lookup does not fail it always answers: 200
    with an entry of the ledger that has the requested id and belongs to the
    caller when there is one, and 404 NOT_FOUND without data when there is
    none, the entry of another user under that id included.  When the lookup
    fails the error is passed on. *)
Theorem getTransactionById_owner_only (req : Request) (w : World) :
  db (getTransactionById req w).2 = db w
  ∧ (fault w (calls w) = true → (getTransactionById req w).1 = Threw StorageFault)
  ∧ (fault w (calls w) = false →
     (∀ t, t ∈ transactions (db w) →
           Transaction.id t = params_id req →
           Transaction.userId t = user_id (user req) →
           ∃ r t', (getTransactionById req w).1 = Returned r
                   ∧ TransactionResponse.status r = 200
                   ∧ TransactionResponse.success r = true
                   ∧ TransactionResponse.data r = Some t'
                   ∧ t' ∈ transactions (db w)
                   ∧ Transaction.id t' = params_id req
                   ∧ Transaction.userId t' = user_id (user req))
     ∧ ((∀ t, t ∈ transactions (db w) →
              Transaction.id t = params_id req →
              Transaction.userId t ≠ user_id (user req)) →
        ∃ r, (getTransactionById req w).1 = Returned r
             ∧ TransactionResponse.status r = 404
             ∧ TransactionResponse.success r = false
             ∧ (fst <$> TransactionResponse.error r) = Some "NOT_FOUND"
             ∧ TransactionResponse.data r = None)).
Proof.
  unfold getTransactionById, transaction_findFirst.
  run_handler; split_and!; try done.
  all: intros _; split.
  - intros _ _ _ _.
    match goal with H : find _ _ = Some ?t |- _ =>
      apply find_some in H as [Hin Hmatch]; eexists _, t
    end.
    bool_facts. split_and!; [done..| |done|done]. by apply list_elem_of_In.
  - intros Hnone. exfalso.
    match goal with H : find _ _ = Some ?t |- _ =>
      apply find_some in H as [Hin Hmatch]; bool_facts;
      apply (Hnone t); [by apply list_elem_of_In|done..]
    end.
  - intros t Hin Hid Huser. exfalso. apply list_elem_of_In in Hin.
    match goal with H : find _ _ = None |- _ =>
      pose proof (find_none _ _ H t Hin) as Hmatch
    end.
    simpl in Hmatch. by rewrite !bool_decide_eq_true_2 in Hmatch.
  - intros _. by eexists.
Qed.

Lemma find_fresh_id (x : string) (g : Transaction.t → bool) (ts : list Transaction.t) :
  existsb (λ t, bool_decide (Transaction.id t = x)) ts = false →
  find (λ t, bool_decide (Transaction.id t = x) && g t) ts = None.
Proof.
  induction ts as [|t ts IH]; simpl; [done|].
  intros [Ht Hts]%orb_false_iff. rewrite Ht. simpl. by apply IH.
Qed.

Lemma find_app_none {A} (f : A → bool) (l1 l2 : list A) :
  find f l1 = None → find f (l1 ++ l2) = find f l2.
Proof.
  induction l1 as [|x l1 IH]; simpl; [done|].
  destruct (f x); [done|]. apply IH.
Qed.

(** X20. The ledger pair written by [completeContract] can be read back,
    each entry by its owner only.  After a successful completion of a
    contract between two different users, with no storage call failing, the
    farmer is shown the income entry under the first identifier minted, of
    the contract's total amount and referring to the contract, and the buyer
    is answered 404 for it; for the expense entry under the second identifier
    it is the other way round. *)
Theorem ledger_pair_readable (req : Request) (w : World) (c : Contract.t)
    (role : string) (b : Body.t) :
  fault_free w →
  contracts (db w) !! params_id req = Some c →
  Contract.id c = params_id req →
  Contract.farmerId c ≠ Contract.buyerId c →
  ok (completeContract req w) = true →
  (∃ r t,
     (getTransactionById
        (mkRequest (mkUser (Contract.farmerId c) role) (uuid w (minted w)) b)
        (completeContract req w).2).1 = Returned r
     ∧ TransactionResponse.status r = 200
     ∧ TransactionResponse.data r = Some t
     ∧ Transaction.type t = income
     ∧ Transaction.amount t = Contract.totalAmount c
     ∧ Transaction.referenceId t = Some (Contract.id c))
  ∧ (∃ r,
       (getTransactionById
          (mkRequest (mkUser (Contract.buyerId c) role) (uuid w (minted w)) b)
          (completeContract req w).2).1 = Returned r
       ∧ TransactionResponse.status r = 404)
  ∧ (∃ r t,
       (getTransactionById
          (mkRequest (mkUser (Contract.buyerId c) role) (uuid w (S (minted w))) b)
          (completeContract req w).2).1 = Returned r
       ∧ TransactionResponse.status r = 200
       ∧ TransactionResponse.data r = Some t
       ∧ Transaction.type t = expense
       ∧ Transaction.amount t = Contract.totalAmount c
       ∧ Transaction.referenceId t = Some (Contract.id c))
  ∧ (∃ r,
       (getTransactionById
          (mkRequest (mkUser (Contract.farmerId c) role) (uuid w (S (minted w))) b)
          (completeContract req w).2).1 = Returned r
       ∧ TransactionResponse.status r = 404).
Proof.
  intros Hff Hc Hid Hparties Hok. unfold ok in Hok.
  destruct (completeContract req w) as [o w'] eqn:Hrun. simpl in *.
  run_handler; bool_facts.
  match goal with
  | H : contracts _ !! params_id _ = Some ?t |- _ => rename t into c
  end.
  match goal with
  | H1 : existsb _ (_ ++ _) = false, H2 : existsb _ (transactions _) = false |- _ =>
      rewrite existsb_app in H1; apply orb_false_iff in H1 as [Hnew Hsale];
      simpl in Hsale; rewrite orb_false_r in Hsale;
      apply bool_decide_eq_false in Hsale;
      pose proof (find_fresh_id _ (λ t, bool_decide
                                         (Transaction.userId t = Contract.farmerId c))
                    _ H2) as Hf1;
      pose proof (find_fresh_id _ (λ t, bool_decide
                                         (Transaction.userId t = Contract.buyerId c))
                    _ H2) as Hb1;
      pose proof (find_fresh_id _ (λ t, bool_decide
                                         (Transaction.userId t = Contract.farmerId c))
                    _ Hnew) as Hf2;
      pose proof (find_fresh_id _ (λ t, bool_decide
                                         (Transaction.userId t = Contract.buyerId c))
                    _ Hnew) as Hb2
  end.
  unfold getTransactionById, transaction_findFirst.
  unfold_handler. simpl. rewrite !Hff. simpl.
  rewrite <- !app_assoc. simpl.
  rewrite !(find_app_none _ _ _ Hf1), !(find_app_none _ _ _ Hb1),
    !(find_app_none _ _ _ Hf2), !(find_app_none _ _ _ Hb2).
  simpl.
  rewrite !(bool_decide_eq_true_2 (uuid w (minted w) = uuid w (minted w))) by done.
  rewrite !(bool_decide_eq_true_2 (uuid w (S (minted w)) = uuid w (S (minted w)))) by done.
  rewrite !(bool_decide_eq_true_2 (Contract.farmerId c = Contract.farmerId c)) by done.
  rewrite !(bool_decide_eq_true_2 (Contract.buyerId c = Contract.buyerId c)) by done.
  rewrite !(bool_decide_eq_false_2 (Contract.farmerId c = Contract.buyerId c)) by done.
  rewrite !(bool_decide_eq_false_2 (Contract.buyerId c = Contract.farmerId c)) by done.
  rewrite ?(bool_decide_eq_false_2 (uuid w (minted w) = uuid w (S (minted w)))) by done.
  rewrite ?(bool_decide_eq_false_2 (uuid w (S (minted w)) = uuid w (minted w))) by done.
  simpl.
  split_and!.
  - eexists _, _. by split_and!.
  - eexists. by split_and!.
  - eexists _, _. by split_and!.
  - eexists. by split_and!.
Qed.

(** ** In front of the routes: authentication *)

Ltac unfold_auth :=
  unfold protected, authenticate in *; unfold_handler.

(** X21. Without an [Authorization] header that starts with "Bearer ", a
    protected route answers 401 UNAUTHORIZED: the handler is not run, no
    storage call is made and the store is left as it was. *)
Theorem protected_requires_bearer (verifyToken : string → option TokenPayload)
    (users : gmap string Account.t) (message_of : Error → string)
    (handler : Request → M Response.t) (authorization : option string)
    (id : string) (b : Body.t) (w : World) :
  (∀ h, authorization = Some h → String.prefix "Bearer " h = false) →
  ∃ r,
    (protected verifyToken users message_of handler authorization id b w).1 = Returned r
    ∧ Response.status r = 401
    ∧ error_code r = Some "UNAUTHORIZED"
    ∧ db (protected verifyToken users message_of handler authorization id b w).2 = db w
    ∧ calls (protected verifyToken users message_of handler authorization id b w).2
      = calls w.
Proof.
  intros Hno. unfold_auth. destruct authorization as [h|]; simpl.
  - rewrite (Hno h eq_refl). simpl. by eexists.
  - by eexists.
Qed.

(** X22. A protected route runs its handler only for the active account
    that the user table holds for the subject of a verified token, and with
    the id and the role of that row (the role inside the token is not used).
    In every other case the request is answered 401, 403 or 500 by the
    middleware and the store is left as it was. *)
Theorem protected_runs_as_stored_account (verifyToken : string → option TokenPayload)
    (users : gmap string Account.t) (message_of : Error → string)
    (handler : Request → M Response.t) (authorization : option string)
    (id : string) (b : Body.t) (w : World) :
  (∃ r,
     (protected verifyToken users message_of handler authorization id b w).1 = Returned r
     ∧ Response.status r ∈ [401; 403; 500]
     ∧ Response.success r = false
     ∧ db (protected verifyToken users message_of handler authorization id b w).2 = db w)
  ∨ (∃ h decoded account w1,
       authorization = Some h
       ∧ String.prefix "Bearer " h = true
       ∧ verifyToken (substring_from_7 h) = Some decoded
       ∧ users !! token_userId decoded = Some account
       ∧ Account.isActive account = true
       ∧ db w1 = db w
       ∧ protected verifyToken users message_of handler authorization id b w
         = handler (mkRequest (mkUser (Account.id account) (Account.role account)) id b)
                   w1).
Proof.
  unfold_auth. destruct authorization as [h|]; simpl.
  2: { left. eexists. split_and!; [done| |done..]. simpl. set_solver. }
  destruct (String.prefix "Bearer " h) eqn:Hprefix; simpl.
  2: { left. eexists. split_and!; [done| |done..]. simpl. set_solver. }
  destruct (verifyToken (substring_from_7 h)) as [decoded|] eqn:Hverify; simpl.
  2: { left. eexists. split_and!; [done| |done..]. simpl. set_solver. }
  destruct (fault w (calls w)) eqn:Hfault; simpl.
  { left. eexists. split_and!; [done| |done..]. simpl. set_solver. }
  destruct (users !! token_userId decoded) as [account|] eqn:Haccount; simpl.
  2: { left. eexists. split_and!; [done| |done..]. simpl. set_solver. }
  destruct (Account.isActive account) eqn:Hactive; simpl.
  2: { left. eexists. split_and!; [done| |done..]. simpl. set_solver. }
  right. eexists h, decoded, account, _. split_and!; [done..| |reflexivity]. done.
Qed.

(** X23. A deactivated account cannot use a protected route: with a
    verified token whose subject is a user row that is not active, the
    answer is 403 FORBIDDEN when the lookup of the user does not fail, the
    handler is not run and the store is left as it was. *)
Theorem protected_refuses_deactivated (verifyToken : string → option TokenPayload)
    (users : gmap string Account.t) (message_of : Error → string)
    (handler : Request → M Response.t) (h : string) (decoded : TokenPayload)
    (account : Account.t) (id : string) (b : Body.t) (w : World) :
  String.prefix "Bearer " h = true →
  verifyToken (substring_from_7 h) = Some decoded →
  users !! token_userId decoded = Some account →
  Account.isActive account = false →
  fault w (calls w) = false →
  ∃ r,
    (protected verifyToken users message_of handler (Some h) id b w).1 = Returned r
    ∧ Response.status r = 403
    ∧ error_code r = Some "FORBIDDEN"
    ∧ Response.message r = "Account is deactivated."
    ∧ db (protected verifyToken users message_of handler (Some h) id b w).2 = db w.
Proof.
  intros Hprefix Hverify Haccount Hactive Hfault. unfold_auth. simpl.
  rewrite Hprefix, Hverify. simpl. rewrite Hfault. simpl.
  rewrite Haccount, Hactive. simpl. by eexists.
Qed.

(** ** Behind the routes: the error handler *)


Lemma requestContract_id_taken (req : Request) (w : World) (l : Listing.t) :
  fault_free w →
  role (user req) = "buyer" →
  listings (db w) !! params_id req = Some l →
  Listing.status l = active →
  Listing.farmerId l ≠ user_id (user req) →
  is_Some (contracts (db w) !! uuid w (minted w)) →
  requestContract req w
  = (Threw UniqueViolation,
     mkWorld (db w) (fault w) (S (S (calls w))) (clock w) (ticks w) (uuid w)
             (S (minted w))).
Proof.
  intros Hff Hrole Hl Hactive Hother [c0 Hc0].
  run_handler; bool_facts; no_faults Hff.
  all: try congruence.
  all: done.
Qed.


(** X25. When the identifier minted for a new contract is already taken,
    what the client of [requestContract] is sent is the 409 DUPLICATE_ENTRY
    of the error handler (the failed insert is a Prisma P2002), and the store
    is left as it was: the contract stored under that identifier is not
    overwritten. *)
Theorem request_with_taken_id (thrown : Error → Err.t) (development : bool)
    (req : Request) (w : World) (l : Listing.t) :
  Err.code (thrown UniqueViolation) = Some "P2002" →
  fault_free w →
  role (user req) = "buyer" →
  listings (db w) !! params_id req = Some l →
  Listing.status l = active →
  Listing.farmerId l ≠ user_id (user req) →
  is_Some (contracts (db w) !! uuid w (minted w)) →
  ∃ r,
    (express thrown development (requestContract req) w).1
    = Returned (by_errorHandler r)
    ∧ ErrorResponse.status r = 409
    ∧ ErrorResponse.code r = "DUPLICATE_ENTRY"
    ∧ db (express thrown development (requestContract req) w).2 = db w.
Proof.
  intros Hcode Hff Hrole Hl Hactive Hother Htaken.
  unfold express.
  rewrite (requestContract_id_taken req w l Hff Hrole Hl Hactive Hother Htaken).
  unfold errorHandler. rewrite Hcode. simpl.
  eexists. by split_and!.
Qed.

(** ** A whole lifecycle *)

Lemma requestContract_run (req : Request) (w : World) (l : Listing.t) :
  fault_free w →
  role (user req) = "buyer" →
  listings (db w) !! params_id req = Some l →
  Listing.status l = active →
  Listing.farmerId l ≠ user_id (user req) →
  contracts (db w) !! uuid w (minted w) = None →
  ∃ r,
    requestContract req w
    = (Returned r,
       mkWorld (set_contracts
                  (insert (uuid w (minted w))
                     (Contract.mk (uuid w (minted w)) (Listing.id l) (Listing.farmerId l)
                        (user_id (user req)) (Listing.cropType l) (Listing.quantity l)
                        (Listing.expectedPrice l)
                        (PrimFloat.mul (Listing.quantity l) (Listing.expectedPrice l))
                        requested
                        (js_or (Body.terms (body req)) (Body.message (body req)))
                        None))
                  (db w))
               (fault w) (S (S (calls w))) (clock w) (S (ticks w)) (uuid w)
               (S (minted w))).
Proof.
  intros Hff Hrole Hl Hactive Hother Hfresh.
  run_handler; bool_facts; no_faults Hff.
  all: try congruence.
  all: try done.
  by eexists.
Qed.

Lemma acceptContract_run (req : Request) (w : World) (c : Contract.t) (l : Listing.t) :
  fault_free w →
  contracts (db w) !! or_else (Body.requestId (body req)) (params_id req) = Some c →
  Contract.id c = or_else (Body.requestId (body req)) (params_id req) →
  Contract.farmerId c = user_id (user req) →
  Contract.status c = requested →
  listings (db w) !! Contract.listingId c = Some l →
  ∃ r,
    acceptContract req w
    = (Returned r,
       mkWorld (set_listings
                  (alter (Listing.with_status contracted) (Contract.listingId c))
                  (set_contracts
                     (alter (Contract.with_status accepted) (Contract.id c)) (db w)))
               (fault w) (S (S (S (calls w)))) (clock w) (S (ticks w)) (uuid w)
               (minted w)).
Proof.
  intros Hff Hc Hid Hfarmer Hst Hl.
  run_handler; bool_facts; no_faults Hff.
  all: try congruence.
  all: try done.
  all: try filter_fails.
  by eexists.
Qed.

Lemma completeContract_run (req : Request) (w : World) (c : Contract.t) (l : Listing.t) :
  fault_free w →
  contracts (db w) !! params_id req = Some c →
  Contract.id c = params_id req →
  party (user req) c →
  Contract.status c ∈ [accepted; in_progress] →
  listings (db w) !! Contract.listingId c = Some l →
  uuid w (minted w) ∉ ledger_ids (db w) →
  uuid w (S (minted w)) ∉ (uuid w (minted w) :: ledger_ids (db w)) →
  ∃ r,
    completeContract req w
    = (Returned r,
       mkWorld (apply_writes
                  (complete_writes c (Body.deliveryProof (body req)) (clock w (ticks w))
                     (sale_entry (uuid w (minted w)) (clock w (S (ticks w))) c)
                     (purchase_entry (uuid w (S (minted w))) (clock w (S (S (ticks w)))) c))
                  (db w))
               (fault w) (S (S (S (S (S (calls w)))))) (clock w)
               (S (S (S (S (ticks w))))) (uuid w) (S (S (minted w)))).
Proof.
  intros Hff Hc Hid Hparty Hst Hl Hsale Hpurchase.
  apply fresh_ledger_id in Hsale.
  assert (existsb (λ t, bool_decide (Transaction.id t = uuid w (S (minted w))))
            (transactions (db w)
             ++ [sale_entry (uuid w (minted w)) (clock w (S (ticks w))) c]) = false)
    as Hpurchase'.
  { apply fresh_ledger_id. rewrite fmap_app. simpl.
    apply not_elem_of_cons in Hpurchase as [Hne Hrest].
    rewrite elem_of_app, list_elem_of_singleton. intros [?|?]; done. }
  unfold sale_entry in Hpurchase'.
  run_handler; bool_facts; no_faults Hff.
  all: try congruence.
  all: try done.
  all: try filter_fails.
  by eexists.
Qed.

(** X26. Request, accept, complete: when no storage call fails and the
    identifiers minted are new, a buyer's request for an active listing of
    another user, its acceptance by the farmer and its completion by the
    buyer all go through, and they leave the contract completed between the
    farmer and the buyer for quantity times price, the listing completed, and
    the ledger extended by exactly the farmer's income entry and the buyer's
    expense entry of that amount. *)
Theorem whole_lifecycle (w : World) (lid : string) (l : Listing.t) (buyer : User)
    (farmer_role : string) (b1 b3 : Body.t) :
  fault_free w →
  role buyer = "buyer" →
  listings (db w) !! lid = Some l →
  Listing.id l = lid →
  Listing.status l = active →
  Listing.farmerId l ≠ user_id buyer →
  contracts (db w) !! uuid w (minted w) = None →
  uuid w (S (minted w)) ∉ ledger_ids (db w) →
  uuid w (S (S (minted w))) ∉ (uuid w (S (minted w)) :: ledger_ids (db w)) →
  ∃ c l' sale purchase,
    contracts (db (serve_all
                     [ (POST_request, mkRequest buyer lid b1);
                       (PUT_accept,
                        mkRequest (mkUser (Listing.farmerId l) farmer_role)
                                  (uuid w (minted w)) Body.empty);
                       (PUT_complete, mkRequest buyer (uuid w (minted w)) b3) ] w))
      !! uuid w (minted w) = Some c
    ∧ Contract.status c = completed
    ∧ Contract.farmerId c = Listing.farmerId l
    ∧ Contract.buyerId c = user_id buyer
    ∧ Contract.totalAmount c
      = PrimFloat.mul (Listing.quantity l) (Listing.expectedPrice l)
    ∧ listings (db (serve_all
                      [ (POST_request, mkRequest buyer lid b1);
                        (PUT_accept,
                         mkRequest (mkUser (Listing.farmerId l) farmer_role)
                                   (uuid w (minted w)) Body.empty);
                        (PUT_complete, mkRequest buyer (uuid w (minted w)) b3) ] w))
        !! lid = Some l'
    ∧ Listing.status l' = listing_completed
    ∧ l' = Listing.with_status listing_completed l
    ∧ transactions (db (serve_all
                          [ (POST_request, mkRequest buyer lid b1);
                            (PUT_accept,
                             mkRequest (mkUser (Listing.farmerId l) farmer_role)
                                       (uuid w (minted w)) Body.empty);
                            (PUT_complete, mkRequest buyer (uuid w (minted w)) b3) ] w))
      = (transactions (db w) ++ [sale; purchase])%list
    ∧ Transaction.type sale = income
    ∧ Transaction.userId sale = Listing.farmerId l
    ∧ Transaction.type purchase = expense
    ∧ Transaction.userId purchase = user_id buyer
    ∧ Transaction.amount sale = Contract.totalAmount c
    ∧ Transaction.amount purchase = Contract.totalAmount c.
Proof.
  intros Hff Hrole Hl Hlid Hactive Hother Hfresh Hsale Hpurchase.
  remember (serve_all _ w) as final eqn:Hfinal.
  unfold serve_all in Hfinal. simpl in Hfinal. unfold serve at 3 in Hfinal.
  simpl in Hfinal.
  destruct (requestContract_run (mkRequest buyer lid b1) w l) as [r1 Hrun1]; try done.
  rewrite Hrun1 in Hfinal. simpl in Hfinal. clear Hrun1.
  set (c1 := Contract.mk (uuid w (minted w)) (Listing.id l) (Listing.farmerId l)
               (user_id buyer) (Listing.cropType l) (Listing.quantity l)
               (Listing.expectedPrice l)
               (PrimFloat.mul (Listing.quantity l) (Listing.expectedPrice l))
               requested (js_or (Body.terms b1) (Body.message b1)) None) in Hfinal.
  set (w1 := mkWorld _ _ _ _ _ _ _) in Hfinal.
  unfold serve at 2 in Hfinal. simpl in Hfinal.
  destruct (acceptContract_run
              (mkRequest (mkUser (Listing.farmerId l) farmer_role)
                         (uuid w (minted w)) Body.empty) w1 c1 l) as [r2 Hrun2];
    try done.
  { unfold w1, c1. simpl. by rewrite lookup_insert_eq. }
  { unfold w1, c1. simpl. by rewrite Hlid. }
  rewrite Hrun2 in Hfinal. simpl in Hfinal. clear Hrun2.
  set (w2 := mkWorld _ _ _ _ _ _ _) in Hfinal.
  unfold serve in Hfinal. simpl in Hfinal.
  destruct (completeContract_run (mkRequest buyer (uuid w (minted w)) b3) w2
              (Contract.with_status accepted c1) (Listing.with_status contracted l))
    as [r3 Hrun3]; try done.
  { unfold w2, w1, c1. simpl. by rewrite lookup_alter_eq, lookup_insert_eq. }
  { by right. }
  { simpl. left. }
  { unfold w2, w1, c1. simpl. by rewrite Hlid, lookup_alter_eq, Hl. }
  rewrite Hrun3 in Hfinal. unfold w2, w1, c1 in Hfinal. simpl in Hfinal.
  clear Hrun3. subst final. simpl.
  eexists _, (Listing.with_status listing_completed l), _, _. split_and!.
  - rewrite lookup_alter_eq, lookup_alter_eq, lookup_insert_eq. done.
  - done.
  - done.
  - done.
  - done.
  - rewrite Hlid, !lookup_alter_eq, Hl. done.
  - done.
  - done.
  - by rewrite <- app_assoc.
  - done.
  - done.
  - done.
  - done.
  - done.
  - done.
Qed.

(** ** Two completions that overlap *)

(** [completeContract] is its lookup followed by the rest of the handler. *)
Lemma completeContract_split (req : Request) :
  completeContract req
  = (contract ← completeContract_lookup req; completeContract_resume req contract).
Proof. reflexivity. Qed.

Lemma completeContract_lookup_run (req : Request) (w : World) (c : Contract.t) :
  fault_free w →
  contracts (db w) !! params_id req = Some c →
  party (user req) c →
  Contract.status c ∈ [accepted; in_progress] →
  completeContract_lookup req w
  = (Returned (Some c),
     mkWorld (db w) (fault w) (S (calls w)) (clock w) (ticks w) (uuid w) (minted w)).
Proof.
  intros Hff Hc Hparty Hst. unfold completeContract_lookup.
  run_handler; bool_facts; no_faults Hff.
  all: try done.
  all: filter_fails.
Qed.

(** The rest of the handler does not look at the status of the row again. *)
Lemma completeContract_resume_run (req : Request) (w : World) (c row : Contract.t)
    (l : Listing.t) :
  fault_free w →
  contracts (db w) !! Contract.id c = Some row →
  listings (db w) !! Contract.listingId c = Some l →
  uuid w (minted w) ∉ ledger_ids (db w) →
  uuid w (S (minted w)) ∉ (uuid w (minted w) :: ledger_ids (db w)) →
  ∃ r,
    completeContract_resume req (Some c) w
    = (Returned r,
       mkWorld (apply_writes
                  (complete_writes c (Body.deliveryProof (body req)) (clock w (ticks w))
                     (sale_entry (uuid w (minted w)) (clock w (S (ticks w))) c)
                     (purchase_entry (uuid w (S (minted w))) (clock w (S (S (ticks w)))) c))
                  (db w))
               (fault w) (S (S (S (S (calls w))))) (clock w)
               (S (S (S (S (ticks w))))) (uuid w) (S (S (minted w))))
    ∧ Response.status r = 200
    ∧ Response.success r = true.
Proof.
  intros Hff Hrow Hl Hsale Hpurchase.
  apply fresh_ledger_id in Hsale.
  assert (existsb (λ t, bool_decide (Transaction.id t = uuid w (S (minted w))))
            (transactions (db w)
             ++ [sale_entry (uuid w (minted w)) (clock w (S (ticks w))) c]) = false)
    as Hpurchase'.
  { apply fresh_ledger_id. rewrite fmap_app. simpl.
    apply not_elem_of_cons in Hpurchase as [Hne Hrest].
    rewrite elem_of_app, list_elem_of_singleton. intros [?|?]; done. }
  unfold sale_entry in Hpurchase'.
  unfold completeContract_resume.
  run_handler; bool_facts; no_faults Hff.
  all: try congruence.
  all: try done.
  by eexists.
Qed.

(** X27. Two completions of one contract that overlap are both carried
    out.  When a second [completeContract] request for an accepted or
    in-progress contract arrives while the first one waits for its
    [findFirst], both lookups see the contract before it is completed, both
    requests are answered 200, and the ledger receives two income entries
    for the farmer and two expense entries for the buyer, each of the
    contract's total amount (no storage call failing, the four identifiers
    minted being new). *)
Theorem overlapping_completions (req1 req2 : Request) (w : World) (c : Contract.t) :
  fault_free w →
  params_id req2 = params_id req1 →
  contracts (db w) !! params_id req1 = Some c →
  Contract.id c = params_id req1 →
  party (user req1) c →
  party (user req2) c →
  Contract.status c ∈ [accepted; in_progress] →
  is_Some (listings (db w) !! Contract.listingId c) →
  NoDup (uuid w <$> [minted w; S (minted w); S (S (minted w)); S (S (S (minted w)))]) →
  Forall (λ n, uuid w n ∉ ledger_ids (db w))
         [minted w; S (minted w); S (S (minted w)); S (S (S (minted w)))] →
  ∃ r1 r2 w' s1 p1 s2 p2,
    overlapped (completeContract_lookup req1) (completeContract_resume req1)
               (completeContract_lookup req2) (completeContract_resume req2) w
    = ((Returned r1, Returned r2), w')
    ∧ (Response.status r1 = 200 ∧ Response.success r1 = true)
    ∧ (Response.status r2 = 200 ∧ Response.success r2 = true)
    ∧ transactions (db w') = (transactions (db w) ++ [s1; p1; s2; p2])%list
    ∧ Transaction.type <$> [s1; p1; s2; p2] = [income; expense; income; expense]
    ∧ Transaction.userId <$> [s1; p1; s2; p2]
      = [Contract.farmerId c; Contract.buyerId c; Contract.farmerId c; Contract.buyerId c]
    ∧ Transaction.amount <$> [s1; p1; s2; p2]
      = [Contract.totalAmount c; Contract.totalAmount c;
         Contract.totalAmount c; Contract.totalAmount c]
    ∧ Transaction.referenceId <$> [s1; p1; s2; p2]
      = [Some (Contract.id c); Some (Contract.id c);
         Some (Contract.id c); Some (Contract.id c)].
Proof.
  intros Hff Hsame Hc Hid Hparty1 Hparty2 Hst [l Hl] Hdistinct Hfresh.
  simpl in Hdistinct.
  apply NoDup_cons in Hdistinct as [Hn0 Hdistinct].
  apply NoDup_cons in Hdistinct as [Hn1 Hdistinct].
  apply NoDup_cons in Hdistinct as [Hn2 _].
  repeat rewrite not_elem_of_cons in Hn0.
  repeat rewrite not_elem_of_cons in Hn1.
  repeat rewrite not_elem_of_cons in Hn2.
  destruct Hn0 as (Hn01 & Hn02 & Hn03 & _).
  destruct Hn1 as (Hn12 & Hn13 & _). destruct Hn2 as (Hn23 & _).
  rewrite !Forall_cons in Hfresh. destruct Hfresh as (Hf0 & Hf1 & Hf2 & Hf3 & _).
  set (wa := mkWorld (db w) (fault w) (S (calls w)) (clock w) (ticks w) (uuid w)
               (minted w)).
  assert (completeContract_lookup req1 w = (Returned (Some c), wa)) as Hrun1
    by exact (completeContract_lookup_run req1 w c Hff Hc Hparty1 Hst).
  set (wb := mkWorld (db wa) (fault wa) (S (calls wa)) (clock wa) (ticks wa) (uuid wa)
               (minted wa)).
  assert (completeContract_lookup req2 wa = (Returned (Some c), wb)) as Hrun2.
  { apply completeContract_lookup_run; [done|by rewrite Hsame|done..]. }
  destruct (completeContract_resume_run req1 wb c c l) as (r1 & Hrun3 & Hr1);
    [done|by rewrite Hid|done|done| |].
  { rewrite not_elem_of_cons. split; [by apply not_eq_sym|done]. }
  set (wc := mkWorld _ _ _ _ _ _ _) in Hrun3.
  destruct (completeContract_resume_run req2 wc c
              (completed_row (clock w (ticks w)) (Body.deliveryProof (body req1)) c c)
              (Listing.with_status listing_completed l))
    as (r2 & Hrun4 & Hr2).
  { done. }
  { unfold wc. simpl. by rewrite lookup_alter_eq, Hid, Hc. }
  { unfold wc. simpl. by rewrite lookup_alter_eq, Hl. }
  { unfold wc, ledger_ids. simpl. rewrite !fmap_app. simpl.
    rewrite !elem_of_app, !list_elem_of_singleton.
    intros [[?|?]|?]; [by apply Hf2|by apply Hn02|by apply Hn12]. }
  { unfold wc, ledger_ids. simpl. rewrite !fmap_app. simpl.
    rewrite not_elem_of_cons, !elem_of_app, !list_elem_of_singleton.
    split; [by apply not_eq_sym|].
    intros [[?|?]|?]; [by apply Hf3|by apply Hn03|by apply Hn13]. }
  set (wd := mkWorld _ _ _ _ _ _ _) in Hrun4.
  unfold overlapped. rewrite Hrun1. cbv beta iota. rewrite Hrun2. cbv beta iota.
  unfold resume. rewrite Hrun3, Hrun4.
  destruct Hr1 as [? ?], Hr2 as [? ?].
  exists r1, r2, wd. unfold wd, wc. simpl.
  eexists _, _, _, _.
  split_and!; [done|done|done|done|done|by rewrite <- !app_assoc|done..].
Qed.

(** ** Worked instances *)

(** The second buyer is not the farmer of the first buyer's contract. *)
Lemma acceptContract_refuses_witness :
  (∀ c, contracts (db Scenario.requested_twice)
          !! acted_on PUT_accept (Scenario.call Scenario.buyer2 "row-0") = Some c →
        Contract.farmerId c ≠ user_id (user (Scenario.call Scenario.buyer2 "row-0"))
        ∨ Contract.status c ≠ requested)
  ∧ ok (acceptContract (Scenario.call Scenario.buyer2 "row-0") Scenario.requested_twice)
    = false
  ∧ store_after (acceptContract (Scenario.call Scenario.buyer2 "row-0")
                   Scenario.requested_twice)
    = db Scenario.requested_twice.
Proof.
  assert (H1 : ∀ c, contracts (db Scenario.requested_twice)
                      !! acted_on PUT_accept (Scenario.call Scenario.buyer2 "row-0")
                    = Some c →
                    Contract.farmerId c
                    ≠ user_id (user (Scenario.call Scenario.buyer2 "row-0"))
                    ∨ Contract.status c ≠ requested).
  { intros c Hc. vm_compute in Hc. injection Hc as <-. left. discriminate. }
  split; [exact H1|].
  destruct (acceptContract_refuses (Scenario.call Scenario.buyer2 "row-0")
              Scenario.requested_twice H1) as (Hok & Hdb & _).
  exact (conj Hok Hdb).
Defined.

(** The second buyer is no party to the first buyer's contract. *)
Lemma party_only_witness :
  (PUT_cancel ∈ [PUT_reject; PUT_complete; PUT_cancel]
   ∧ ∀ c, contracts (db Scenario.requested_twice)
            !! params_id (Scenario.call Scenario.buyer2 "row-0") = Some c →
          ¬ party (user (Scenario.call Scenario.buyer2 "row-0")) c)
  ∧ ok (router PUT_cancel (Scenario.call Scenario.buyer2 "row-0")
          Scenario.requested_twice) = false
  ∧ store_after (router PUT_cancel (Scenario.call Scenario.buyer2 "row-0")
                   Scenario.requested_twice)
    = db Scenario.requested_twice.
Proof.
  assert (H0 : PUT_cancel ∈ [PUT_reject; PUT_complete; PUT_cancel])
    by (right; right; left).
  assert (H1 : ∀ c, contracts (db Scenario.requested_twice)
                      !! params_id (Scenario.call Scenario.buyer2 "row-0") = Some c →
                    ¬ party (user (Scenario.call Scenario.buyer2 "row-0")) c).
  { intros c Hc. vm_compute in Hc. injection Hc as <-. intros [H | H]; discriminate H. }
  split; [exact (conj H0 H1)|].
  destruct (party_only PUT_cancel (Scenario.call Scenario.buyer2 "row-0")
              Scenario.requested_twice H0 H1) as (Hok & Hdb & _).
  exact (conj Hok Hdb).
Defined.

(** There is no listing [listing-9]. *)
Lemma requestContract_no_listing_witness :
  (role (user (Scenario.call Scenario.buyer1 "listing-9")) = "buyer"
   ∧ listings (db Scenario.genesis)
       !! params_id (Scenario.call Scenario.buyer1 "listing-9") = None)
  ∧ ok (requestContract (Scenario.call Scenario.buyer1 "listing-9") Scenario.genesis)
    = false
  ∧ store_after (requestContract (Scenario.call Scenario.buyer1 "listing-9")
                   Scenario.genesis)
    = db Scenario.genesis.
Proof.
  assert (H1 : listings (db Scenario.genesis)
                 !! params_id (Scenario.call Scenario.buyer1 "listing-9") = None)
    by (vm_compute; reflexivity).
  split; [exact (conj eq_refl H1)|].
  destruct (requestContract_no_listing (Scenario.call Scenario.buyer1 "listing-9")
              Scenario.genesis eq_refl H1) as (Hok & Hdb & _).
  exact (conj Hok Hdb).
Defined.

(** The farmer accepts the first request. *)
Lemma acceptContract_effect_witness :
  (contracts (db Scenario.requested_twice)
     !! acted_on PUT_accept (Scenario.call Scenario.farmer "row-0")
   = Some (Scenario.first_contract requested)
   ∧ ok (acceptContract (Scenario.call Scenario.farmer "row-0")
           Scenario.requested_twice) = true)
  ∧ ∃ l l' c',
      listings (db Scenario.requested_twice)
        !! Contract.listingId (Scenario.first_contract requested) = Some l
      ∧ store_after (acceptContract (Scenario.call Scenario.farmer "row-0")
                       Scenario.requested_twice)
        = mkDb (<[Contract.listingId (Scenario.first_contract requested) := l']>
                  (listings (db Scenario.requested_twice)))
               (<[Contract.id (Scenario.first_contract requested) := c']>
                  (contracts (db Scenario.requested_twice)))
               (transactions (db Scenario.requested_twice))
      ∧ Contract.status c' = accepted
      ∧ c' = Contract.with_status accepted (Scenario.first_contract requested)
      ∧ Listing.status l' = contracted
      ∧ l' = Listing.with_status contracted l.
Proof.
  assert (H1 : contracts (db Scenario.requested_twice)
                 !! acted_on PUT_accept (Scenario.call Scenario.farmer "row-0")
               = Some (Scenario.first_contract requested))
    by (vm_compute; reflexivity).
  assert (H2 : ok (acceptContract (Scenario.call Scenario.farmer "row-0")
                     Scenario.requested_twice) = true)
    by (vm_compute; reflexivity).
  split; [exact (conj H1 H2)|].
  exact (acceptContract_effect (Scenario.call Scenario.farmer "row-0")
           Scenario.requested_twice (Scenario.first_contract requested)
           H1 eq_refl H2).
Defined.

Lemma acceptContract_succeeds_when_witness :
  (fault_free Scenario.requested_twice
   ∧ contracts (db Scenario.requested_twice)
       !! acted_on PUT_accept (Scenario.call Scenario.farmer "row-1")
     = Some (Contract.mk "row-1" "listing-1" "farmer-1" "buyer-2" "wheat" 100%float
                         20%float 2000%float requested None None))
  ∧ ok (acceptContract (Scenario.call Scenario.farmer "row-1")
          Scenario.requested_twice) = true
  ∧ ∃ r, (acceptContract (Scenario.call Scenario.farmer "row-1")
            Scenario.requested_twice).1 = Returned r
         ∧ Response.status r = 200.
Proof.
  assert (H0 : fault_free Scenario.requested_twice) by (intros n; reflexivity).
  assert (H1 : contracts (db Scenario.requested_twice)
                 !! acted_on PUT_accept (Scenario.call Scenario.farmer "row-1")
               = Some (Contract.mk "row-1" "listing-1" "farmer-1" "buyer-2" "wheat"
                                   100%float 20%float 2000%float requested None None))
    by (vm_compute; reflexivity).
  assert (H2 : is_Some (listings (db Scenario.requested_twice) !! "listing-1")).
  { exists (Scenario.wheat). vm_compute. reflexivity. }
  split; [exact (conj H0 H1)|].
  exact (acceptContract_succeeds_when (Scenario.call Scenario.farmer "row-1")
           Scenario.requested_twice _ H0 H1 eq_refl eq_refl eq_refl H2).
Defined.


Lemma requestContract_succeeds_when_witness :
  (fault_free Scenario.genesis
   ∧ role (user (Scenario.call Scenario.buyer1 "listing-1")) = "buyer"
   ∧ listings (db Scenario.genesis)
       !! params_id (Scenario.call Scenario.buyer1 "listing-1") = Some Scenario.wheat
   ∧ Listing.status Scenario.wheat = active
   ∧ Listing.farmerId Scenario.wheat
     ≠ user_id (user (Scenario.call Scenario.buyer1 "listing-1"))
   ∧ contracts (db Scenario.genesis) !! uuid Scenario.genesis (minted Scenario.genesis)
     = None)
  ∧ ok (requestContract (Scenario.call Scenario.buyer1 "listing-1") Scenario.genesis)
    = true
  ∧ ∃ r, (requestContract (Scenario.call Scenario.buyer1 "listing-1")
            Scenario.genesis).1 = Returned r
         ∧ Response.status r = 201.
Proof.
  assert (H0 : fault_free Scenario.genesis) by (intros n; reflexivity).
  assert (H1 : listings (db Scenario.genesis)
                 !! params_id (Scenario.call Scenario.buyer1 "listing-1")
               = Some Scenario.wheat)
    by (vm_compute; reflexivity).
  assert (H2 : Listing.farmerId Scenario.wheat
               ≠ user_id (user (Scenario.call Scenario.buyer1 "listing-1")))
    by discriminate.
  assert (H3 : contracts (db Scenario.genesis)
                 !! uuid Scenario.genesis (minted Scenario.genesis) = None)
    by (vm_compute; reflexivity).
  split; [exact (conj H0 (conj eq_refl (conj H1 (conj eq_refl (conj H2 H3)))))|].
  exact (requestContract_succeeds_when (Scenario.call Scenario.buyer1 "listing-1")
           Scenario.genesis Scenario.wheat H0 eq_refl H1 eq_refl H2 H3).
Defined.

Lemma completeContract_succeeds_when_witness :
  (fault_free Scenario.accepted_once
   ∧ contracts (db Scenario.accepted_once)
       !! params_id (Scenario.call Scenario.buyer1 "row-0")
     = Some (Scenario.first_contract accepted)
   ∧ party (user (Scenario.call Scenario.buyer1 "row-0"))
           (Scenario.first_contract accepted)
   ∧ (uuid Scenario.accepted_once (minted Scenario.accepted_once)
      ∉ ledger_ids (db Scenario.accepted_once))
   ∧ (uuid Scenario.accepted_once (S (minted Scenario.accepted_once))
      ∉ (uuid Scenario.accepted_once (minted Scenario.accepted_once)
         :: ledger_ids (db Scenario.accepted_once))))
  ∧ ok (completeContract (Scenario.call Scenario.buyer1 "row-0") Scenario.accepted_once)
    = true
  ∧ ∃ r, (completeContract (Scenario.call Scenario.buyer1 "row-0")
            Scenario.accepted_once).1 = Returned r
         ∧ Response.status r = 200.
Proof.
  assert (H0 : fault_free Scenario.accepted_once) by (intros n; reflexivity).
  assert (H1 : contracts (db Scenario.accepted_once)
                 !! params_id (Scenario.call Scenario.buyer1 "row-0")
               = Some (Scenario.first_contract accepted))
    by (vm_compute; reflexivity).
  assert (H2 : party (user (Scenario.call Scenario.buyer1 "row-0"))
                     (Scenario.first_contract accepted))
    by (right; reflexivity).
  assert (H3 : is_Some (listings (db Scenario.accepted_once)
                          !! Contract.listingId (Scenario.first_contract accepted))).
  { exists (Listing.with_status contracted Scenario.wheat). vm_compute. reflexivity. }
  assert (H4 : uuid Scenario.accepted_once (minted Scenario.accepted_once)
               ∉ ledger_ids (db Scenario.accepted_once)).
  { apply (bool_decide_unpack _). vm_compute. exact I. }
  assert (H5 : uuid Scenario.accepted_once (S (minted Scenario.accepted_once))
               ∉ (uuid Scenario.accepted_once (minted Scenario.accepted_once)
                  :: ledger_ids (db Scenario.accepted_once))).
  { apply (bool_decide_unpack _). vm_compute. exact I. }
  split; [exact (conj H0 (conj H1 (conj H2 (conj H4 H5))))|].
  exact (completeContract_succeeds_when (Scenario.call Scenario.buyer1 "row-0")
           Scenario.accepted_once (Scenario.first_contract accepted)
           H0 H1 eq_refl H2 (list_elem_of_here _ _) H3 H4 H5).
Defined.

(** The farmer withdraws an acceptance. *)
Lemma rejectContract_succeeds_when_witness :
  (fault_free Scenario.accepted_once
   ∧ contracts (db Scenario.accepted_once)
       !! params_id (Scenario.call Scenario.farmer "row-0")
     = Some (Scenario.first_contract accepted)
   ∧ party (user (Scenario.call Scenario.farmer "row-0"))
           (Scenario.first_contract accepted))
  ∧ ok (rejectContract (Scenario.call Scenario.farmer "row-0") Scenario.accepted_once)
    = true
  ∧ ∃ r, (rejectContract (Scenario.call Scenario.farmer "row-0")
            Scenario.accepted_once).1 = Returned r
         ∧ Response.status r = 200.
Proof.
  assert (H0 : fault_free Scenario.accepted_once) by (intros n; reflexivity).
  assert (H1 : contracts (db Scenario.accepted_once)
                 !! params_id (Scenario.call Scenario.farmer "row-0")
               = Some (Scenario.first_contract accepted))
    by (vm_compute; reflexivity).
  assert (H2 : party (user (Scenario.call Scenario.farmer "row-0"))
                     (Scenario.first_contract accepted))
    by (left; reflexivity).
  assert (H3 : Contract.status (Scenario.first_contract accepted) = accepted →
               is_Some (listings (db Scenario.accepted_once)
                          !! Contract.listingId (Scenario.first_contract accepted))).
  { intros _. exists (Listing.with_status contracted Scenario.wheat).
    vm_compute. reflexivity. }
  split; [exact (conj H0 (conj H1 H2))|].
  exact (rejectContract_succeeds_when (Scenario.call Scenario.farmer "row-0")
           Scenario.accepted_once (Scenario.first_contract accepted)
           H0 H1 eq_refl H2 (list_elem_of_further _ _ _ (list_elem_of_here _ _)) H3).
Defined.

(** Cancelling a contract that is already cancelled succeeds again. *)
Lemma cancelContract_succeeds_when_witness :
  (fault_free Cases.cancelled_once
   ∧ contracts (db Cases.cancelled_once)
       !! params_id (Scenario.call Scenario.buyer1 "row-0")
     = Some (Scenario.first_contract cancelled)
   ∧ party (user (Scenario.call Scenario.buyer1 "row-0"))
           (Scenario.first_contract cancelled)
   ∧ Contract.status (Scenario.first_contract cancelled) ≠ completed)
  ∧ ok (cancelContract (Scenario.call Scenario.buyer1 "row-0") Cases.cancelled_once)
    = true
  ∧ ∃ r, (cancelContract (Scenario.call Scenario.buyer1 "row-0")
            Cases.cancelled_once).1 = Returned r
         ∧ Response.status r = 200.
Proof.
  assert (H0 : fault_free Cases.cancelled_once) by (intros n; reflexivity).
  assert (H1 : contracts (db Cases.cancelled_once)
                 !! params_id (Scenario.call Scenario.buyer1 "row-0")
               = Some (Scenario.first_contract cancelled))
    by (vm_compute; reflexivity).
  assert (H2 : party (user (Scenario.call Scenario.buyer1 "row-0"))
                     (Scenario.first_contract cancelled))
    by (right; reflexivity).
  assert (H3 : Contract.status (Scenario.first_contract cancelled) ≠ completed)
    by discriminate.
  split; [exact (conj H0 (conj H1 (conj H2 H3)))|].
  exact (cancelContract_succeeds_when (Scenario.call Scenario.buyer1 "row-0")
           Cases.cancelled_once (Scenario.first_contract cancelled)
           H0 H1 eq_refl H2 H3).
Defined.

(** Accepting the first request moves it from requested to accepted. *)
Lemma lifecycle_step_witness :
  (keyed (db Scenario.requested_twice)
   ∧ contracts (db Scenario.requested_twice) !! "row-0"
     = Some (Scenario.first_contract requested))
  ∧ ∃ c',
      contracts (db (serve Scenario.requested_twice
                       (PUT_accept, Scenario.call Scenario.farmer "row-0")))
        !! "row-0" = Some c'
      ∧ same_deal (Scenario.first_contract requested) c'
      ∧ (c' = Scenario.first_contract requested
         ∨ ("row-0" = acted_on PUT_accept (Scenario.call Scenario.farmer "row-0")
            ∧ lifecycle PUT_accept (Contract.status (Scenario.first_contract requested))
              = Some (Contract.status c'))).
Proof.
  assert (H0 : keyed (db Scenario.requested_twice)).
  { apply (bool_decide_unpack _). vm_compute. exact I. }
  assert (H1 : contracts (db Scenario.requested_twice) !! "row-0"
               = Some (Scenario.first_contract requested))
    by (vm_compute; reflexivity).
  split; [exact (conj H0 H1)|].
  exact (lifecycle_step PUT_accept (Scenario.call Scenario.farmer "row-0")
           Scenario.requested_twice "row-0" (Scenario.first_contract requested) H0 H1).
Defined.

Lemma keyed_invariant_witness :
  (keyed (db Scenario.requested_twice)
   ∧ later Scenario.requested_twice Scenario.completed_once)
  ∧ keyed (db Scenario.completed_once)
  ∧ ∀ k, is_Some (contracts (db Scenario.requested_twice) !! k) →
         is_Some (contracts (db Scenario.completed_once) !! k).
Proof.
  assert (H0 : keyed (db Scenario.requested_twice)).
  { apply (bool_decide_unpack _). vm_compute. exact I. }
  assert (H1 : later Scenario.requested_twice Scenario.completed_once).
  { apply (later_served _ (PUT_accept, Scenario.call Scenario.farmer "row-0")).
    apply (later_served _ (PUT_complete, Scenario.call Scenario.buyer1 "row-0")).
    apply later_now. }
  split; [exact (conj H0 H1)|].
  exact (keyed_invariant Scenario.requested_twice Scenario.completed_once H0 H1).
Defined.

(** From an empty ledger to the first completed contract. *)
Lemma ledger_pairs_invariant_witness :
  (keyed (db Scenario.genesis)
   ∧ ledger_sound (db Scenario.genesis)
   ∧ later Scenario.genesis Scenario.completed_once)
  ∧ ledger_sound (db Scenario.completed_once)
  ∧ ∀ k, length (ledger_of k (db Scenario.completed_once)) ≤ 2.
Proof.
  assert (H0 : keyed (db Scenario.genesis)).
  { apply (bool_decide_unpack _). vm_compute. exact I. }
  assert (H1 : ledger_sound (db Scenario.genesis)).
  { intros k. left. reflexivity. }
  assert (H2 : later Scenario.genesis Scenario.completed_once).
  { apply (later_served _ (POST_request, Scenario.call Scenario.buyer1 "listing-1")).
    apply (later_served _ (POST_request, Scenario.call Scenario.buyer2 "listing-1")).
    apply (later_served _ (PUT_accept, Scenario.call Scenario.farmer "row-0")).
    apply (later_served _ (PUT_complete, Scenario.call Scenario.buyer1 "row-0")).
    apply later_now. }
  split; [exact (conj H0 (conj H1 H2))|].
  exact (ledger_pairs_invariant Scenario.genesis Scenario.completed_once H0 H1 H2).
Defined.

Lemma no_self_dealing_invariant_witness :
  (no_self_dealing (db Scenario.genesis)
   ∧ later Scenario.genesis Scenario.requested_twice)
  ∧ ∀ k c, contracts (db Scenario.requested_twice) !! k = Some c →
           Contract.farmerId c ≠ Contract.buyerId c.
Proof.
  assert (H0 : no_self_dealing (db Scenario.genesis)).
  { apply (map_Forall_empty (M:=gmap string)). }
  assert (H1 : later Scenario.genesis Scenario.requested_twice).
  { apply (later_served _ (POST_request, Scenario.call Scenario.buyer1 "listing-1")).
    apply (later_served _ (POST_request, Scenario.call Scenario.buyer2 "listing-1")).
    apply later_now. }
  split; [exact (conj H0 H1)|].
  exact (no_self_dealing_invariant Scenario.genesis Scenario.requested_twice H0 H1).
Defined.

(** The reply to the first acceptance still shows the listing as active. *)
Lemma acceptContract_reply_witness :
  (contracts (db Scenario.requested_twice)
     !! acted_on PUT_accept (Scenario.call Scenario.farmer "row-0")
   = Some (Scenario.first_contract requested)
   ∧ ok (acceptContract (Scenario.call Scenario.farmer "row-0")
           Scenario.requested_twice) = true)
  ∧ ∃ r l c' l',
      (acceptContract (Scenario.call Scenario.farmer "row-0")
         Scenario.requested_twice).1 = Returned r
      ∧ Response.status r = 200
      ∧ listings (db Scenario.requested_twice)
          !! Contract.listingId (Scenario.first_contract requested) = Some l
      ∧ Response.data r = Some (c', Some l)
      ∧ Contract.status c' = accepted
      ∧ c' = Contract.with_status accepted (Scenario.first_contract requested)
      ∧ listings (store_after (acceptContract (Scenario.call Scenario.farmer "row-0")
                                 Scenario.requested_twice))
          !! Contract.listingId (Scenario.first_contract requested) = Some l'
      ∧ Listing.status l' = contracted
      ∧ l' = Listing.with_status contracted l.
Proof.
  assert (H1 : contracts (db Scenario.requested_twice)
                 !! acted_on PUT_accept (Scenario.call Scenario.farmer "row-0")
               = Some (Scenario.first_contract requested))
    by (vm_compute; reflexivity).
  assert (H2 : ok (acceptContract (Scenario.call Scenario.farmer "row-0")
                     Scenario.requested_twice) = true)
    by (vm_compute; reflexivity).
  split; [exact (conj H1 H2)|].
  exact (acceptContract_reply (Scenario.call Scenario.farmer "row-0")
           Scenario.requested_twice (Scenario.first_contract requested)
           H1 eq_refl H2).
Defined.

(** After the first completion the farmer reads the income entry [row-2],
    which the buyer is refused. *)
Lemma ledger_pair_readable_witness :
  (fault_free Scenario.accepted_once
   ∧ contracts (db Scenario.accepted_once)
       !! params_id (Scenario.call Scenario.buyer1 "row-0")
     = Some (Scenario.first_contract accepted)
   ∧ Contract.farmerId (Scenario.first_contract accepted)
     ≠ Contract.buyerId (Scenario.first_contract accepted)
   ∧ ok (completeContract (Scenario.call Scenario.buyer1 "row-0")
           Scenario.accepted_once) = true)
  ∧ (∃ r t,
       (getTransactionById
          (mkRequest (mkUser (Contract.farmerId (Scenario.first_contract accepted))
                             "farmer")
                     (uuid Scenario.accepted_once (minted Scenario.accepted_once))
                     Body.empty)
          (completeContract (Scenario.call Scenario.buyer1 "row-0")
             Scenario.accepted_once).2).1 = Returned r
       ∧ TransactionResponse.status r = 200
       ∧ TransactionResponse.data r = Some t
       ∧ Transaction.type t = income
       ∧ Transaction.amount t = Contract.totalAmount (Scenario.first_contract accepted)
       ∧ Transaction.referenceId t
         = Some (Contract.id (Scenario.first_contract accepted)))
  ∧ (∃ r,
       (getTransactionById
          (mkRequest (mkUser (Contract.buyerId (Scenario.first_contract accepted))
                             "farmer")
                     (uuid Scenario.accepted_once (minted Scenario.accepted_once))
                     Body.empty)
          (completeContract (Scenario.call Scenario.buyer1 "row-0")
             Scenario.accepted_once).2).1 = Returned r
       ∧ TransactionResponse.status r = 404).
Proof.
  assert (H0 : fault_free Scenario.accepted_once) by (intros n; reflexivity).
  assert (H1 : contracts (db Scenario.accepted_once)
                 !! params_id (Scenario.call Scenario.buyer1 "row-0")
               = Some (Scenario.first_contract accepted))
    by (vm_compute; reflexivity).
  assert (H2 : Contract.farmerId (Scenario.first_contract accepted)
               ≠ Contract.buyerId (Scenario.first_contract accepted))
    by discriminate.
  assert (H3 : ok (completeContract (Scenario.call Scenario.buyer1 "row-0")
                     Scenario.accepted_once) = true)
    by (vm_compute; reflexivity).
  split; [exact (conj H0 (conj H1 (conj H2 H3)))|].
  destruct (ledger_pair_readable (Scenario.call Scenario.buyer1 "row-0")
              Scenario.accepted_once (Scenario.first_contract accepted)
              "farmer" Body.empty H0 H1 eq_refl H2 H3) as (Hsale & Hrefused & _).
  exact (conj Hsale Hrefused).
Defined.

(** Basic credentials are not a bearer token. *)
Lemma protected_requires_bearer_witness :
  (∀ h, Some "Basic ZmFybWVyLTE6c2VjcmV0" = Some h → String.prefix "Bearer " h = false)
  ∧ ∃ r,
      (protected Cases.sessions Cases.accounts Cases.message_of acceptContract
         (Some "Basic ZmFybWVyLTE6c2VjcmV0") "row-0" Body.empty
         Scenario.requested_twice).1 = Returned r
      ∧ Response.status r = 401
      ∧ error_code r = Some "UNAUTHORIZED"
      ∧ db (protected Cases.sessions Cases.accounts Cases.message_of acceptContract
              (Some "Basic ZmFybWVyLTE6c2VjcmV0") "row-0" Body.empty
              Scenario.requested_twice).2 = db Scenario.requested_twice
      ∧ calls (protected Cases.sessions Cases.accounts Cases.message_of acceptContract
                 (Some "Basic ZmFybWVyLTE6c2VjcmV0") "row-0" Body.empty
                 Scenario.requested_twice).2 = calls Scenario.requested_twice.
Proof.
  assert (H0 : ∀ h, Some "Basic ZmFybWVyLTE6c2VjcmV0" = Some h →
                    String.prefix "Bearer " h = false).
  { intros h Hh. injection Hh as <-. reflexivity. }
  split; [exact H0|].
  exact (protected_requires_bearer Cases.sessions Cases.accounts Cases.message_of
           acceptContract (Some "Basic ZmFybWVyLTE6c2VjcmV0") "row-0" Body.empty
           Scenario.requested_twice H0).
Defined.

(** The second buyer's account has been deactivated. *)
Lemma protected_refuses_deactivated_witness :
  (String.prefix "Bearer " "Bearer token-of-buyer-2" = true
   ∧ Cases.sessions (substring_from_7 "Bearer token-of-buyer-2")
     = Some (mkTokenPayload "buyer-2" "buyer")
   ∧ Cases.accounts !! token_userId (mkTokenPayload "buyer-2" "buyer")
     = Some Cases.suspended_account
   ∧ Account.isActive Cases.suspended_account = false
   ∧ fault Scenario.requested_twice (calls Scenario.requested_twice) = false)
  ∧ ∃ r,
      (protected Cases.sessions Cases.accounts Cases.message_of cancelContract
         (Some "Bearer token-of-buyer-2") "row-1" Body.empty
         Scenario.requested_twice).1 = Returned r
      ∧ Response.status r = 403
      ∧ error_code r = Some "FORBIDDEN"
      ∧ Response.message r = "Account is deactivated."
      ∧ db (protected Cases.sessions Cases.accounts Cases.message_of cancelContract
              (Some "Bearer token-of-buyer-2") "row-1" Body.empty
              Scenario.requested_twice).2 = db Scenario.requested_twice.
Proof.
  assert (H1 : Cases.sessions (substring_from_7 "Bearer token-of-buyer-2")
               = Some (mkTokenPayload "buyer-2" "buyer"))
    by (vm_compute; reflexivity).
  assert (H2 : Cases.accounts !! token_userId (mkTokenPayload "buyer-2" "buyer")
               = Some Cases.suspended_account)
    by (vm_compute; reflexivity).
  split; [exact (conj eq_refl (conj H1 (conj H2 (conj eq_refl eq_refl))))|].
  exact (protected_refuses_deactivated Cases.sessions Cases.accounts Cases.message_of
           cancelContract "Bearer token-of-buyer-2" _ _ "row-1" Body.empty
           Scenario.requested_twice eq_refl H1 H2 eq_refl eq_refl).
Defined.


(** The identifier [row-0] is minted for a second time. *)
Lemma request_with_taken_id_witness :
  (Err.code (Cases.prisma_error UniqueViolation) = Some "P2002"
   ∧ fault_free Cases.id_taken
   ∧ listings (db Cases.id_taken)
       !! params_id (Scenario.call Scenario.buyer2 "listing-1") = Some Scenario.wheat
   ∧ is_Some (contracts (db Cases.id_taken)
                !! uuid Cases.id_taken (minted Cases.id_taken)))
  ∧ ∃ r,
      (express Cases.prisma_error false
         (requestContract (Scenario.call Scenario.buyer2 "listing-1")) Cases.id_taken).1
      = Returned (by_errorHandler r)
      ∧ ErrorResponse.status r = 409
      ∧ ErrorResponse.code r = "DUPLICATE_ENTRY"
      ∧ db (express Cases.prisma_error false
              (requestContract (Scenario.call Scenario.buyer2 "listing-1"))
              Cases.id_taken).2 = db Cases.id_taken.
Proof.
  assert (H0 : fault_free Cases.id_taken) by (intros n; reflexivity).
  assert (H1 : listings (db Cases.id_taken)
                 !! params_id (Scenario.call Scenario.buyer2 "listing-1")
               = Some Scenario.wheat)
    by (vm_compute; reflexivity).
  assert (H2 : Listing.farmerId Scenario.wheat
               ≠ user_id (user (Scenario.call Scenario.buyer2 "listing-1")))
    by discriminate.
  assert (H3 : is_Some (contracts (db Cases.id_taken)
                          !! uuid Cases.id_taken (minted Cases.id_taken))).
  { exists (Scenario.first_contract requested). vm_compute. reflexivity. }
  split; [exact (conj eq_refl (conj H0 (conj H1 H3)))|].
  exact (request_with_taken_id Cases.prisma_error false
           (Scenario.call Scenario.buyer2 "listing-1") Cases.id_taken Scenario.wheat
           eq_refl H0 eq_refl H1 eq_refl H2 H3).
Defined.

(** The first buyer's deal, from the request to the ledger. *)
Lemma whole_lifecycle_witness :
  (fault_free Scenario.genesis
   ∧ listings (db Scenario.genesis) !! "listing-1" = Some Scenario.wheat
   ∧ contracts (db Scenario.genesis) !! uuid Scenario.genesis (minted Scenario.genesis)
     = None)
  ∧ ∃ c l' sale purchase,
      contracts (db (serve_all
                       [ (POST_request, mkRequest Scenario.buyer1 "listing-1" Body.empty);
                         (PUT_accept,
                          mkRequest (mkUser (Listing.farmerId Scenario.wheat) "farmer")
                                    (uuid Scenario.genesis (minted Scenario.genesis))
                                    Body.empty);
                         (PUT_complete,
                          mkRequest Scenario.buyer1
                                    (uuid Scenario.genesis (minted Scenario.genesis))
                                    Body.empty) ] Scenario.genesis))
        !! uuid Scenario.genesis (minted Scenario.genesis) = Some c
      ∧ Contract.status c = completed
      ∧ Contract.totalAmount c = 2000%float
      ∧ listings (db (serve_all
                        [ (POST_request,
                           mkRequest Scenario.buyer1 "listing-1" Body.empty);
                          (PUT_accept,
                           mkRequest (mkUser (Listing.farmerId Scenario.wheat) "farmer")
                                     (uuid Scenario.genesis (minted Scenario.genesis))
                                     Body.empty);
                          (PUT_complete,
                           mkRequest Scenario.buyer1
                                     (uuid Scenario.genesis (minted Scenario.genesis))
                                     Body.empty) ] Scenario.genesis))
          !! "listing-1" = Some l'
      ∧ Listing.status l' = listing_completed
      ∧ transactions (db (serve_all
                            [ (POST_request,
                               mkRequest Scenario.buyer1 "listing-1" Body.empty);
                              (PUT_accept,
                               mkRequest (mkUser (Listing.farmerId Scenario.wheat) "farmer")
                                         (uuid Scenario.genesis (minted Scenario.genesis))
                                         Body.empty);
                              (PUT_complete,
                               mkRequest Scenario.buyer1
                                         (uuid Scenario.genesis (minted Scenario.genesis))
                                         Body.empty) ] Scenario.genesis))
        = (transactions (db Scenario.genesis) ++ [sale; purchase])%list
      ∧ Transaction.amount sale = Contract.totalAmount c
      ∧ Transaction.amount purchase = Contract.totalAmount c.
Proof.
  assert (H0 : fault_free Scenario.genesis) by (intros n; reflexivity).
  assert (H1 : listings (db Scenario.genesis) !! "listing-1" = Some Scenario.wheat)
    by (vm_compute; reflexivity).
  assert (H2 : Listing.farmerId Scenario.wheat ≠ user_id Scenario.buyer1)
    by discriminate.
  assert (H3 : contracts (db Scenario.genesis)
                 !! uuid Scenario.genesis (minted Scenario.genesis) = None)
    by (vm_compute; reflexivity).
  assert (H4 : uuid Scenario.genesis (S (minted Scenario.genesis))
               ∉ ledger_ids (db Scenario.genesis)).
  { apply (bool_decide_unpack _). vm_compute. exact I. }
  assert (H5 : uuid Scenario.genesis (S (S (minted Scenario.genesis)))
               ∉ (uuid Scenario.genesis (S (minted Scenario.genesis))
                  :: ledger_ids (db Scenario.genesis))).
  { apply (bool_decide_unpack _). vm_compute. exact I. }
  split; [exact (conj H0 (conj H1 H3))|].
  destruct (whole_lifecycle Scenario.genesis "listing-1" Scenario.wheat Scenario.buyer1
              "farmer" Body.empty Body.empty H0 eq_refl H1 eq_refl eq_refl H2 H3 H4 H5)
    as (c & l' & sale & purchase & Hc & Hstatus & _ & _ & Htotal & Hlisting & Hdone
        & _ & Hledger & _ & _ & _ & _ & Hsale & Hpurchase).
  exists c, l', sale, purchase.
  split; [exact Hc|]. split; [exact Hstatus|].
  split; [rewrite Htotal; vm_compute; reflexivity|].
  exact (conj Hlisting (conj Hdone (conj Hledger (conj Hsale Hpurchase)))).
Defined.

(** The first buyer reads the contract [row-0]; the second buyer, who is no
    party to it, is answered 404. *)
Lemma getContractById_parties_only_witness :
  (fault Scenario.requested_twice (calls Scenario.requested_twice) = false
   ∧ contracts (db Scenario.requested_twice)
       !! params_id (Scenario.call Scenario.buyer1 "row-0")
     = Some (Scenario.first_contract requested)
   ∧ party (user (Scenario.call Scenario.buyer1 "row-0"))
           (Scenario.first_contract requested)
   ∧ ¬ party (user (Scenario.call Scenario.buyer2 "row-0"))
             (Scenario.first_contract requested))
  ∧ (∃ r, (getContractById (Scenario.call Scenario.buyer1 "row-0")
             Scenario.requested_twice).1 = Returned r
          ∧ Response.status r = 200
          ∧ Response.success r = true
          ∧ Response.data r
            = Some (Scenario.first_contract requested,
                    listings (db Scenario.requested_twice)
                      !! Contract.listingId (Scenario.first_contract requested)))
  ∧ (∃ r, (getContractById (Scenario.call Scenario.buyer2 "row-0")
             Scenario.requested_twice).1 = Returned r
          ∧ Response.status r = 404
          ∧ Response.success r = false
          ∧ error_code r = Some "NOT_FOUND"
          ∧ Response.data r = None).
Proof.
  assert (H0 : fault Scenario.requested_twice (calls Scenario.requested_twice) = false)
    by reflexivity.
  assert (H1 : contracts (db Scenario.requested_twice)
                 !! params_id (Scenario.call Scenario.buyer1 "row-0")
               = Some (Scenario.first_contract requested))
    by (vm_compute; reflexivity).
  assert (H2 : party (user (Scenario.call Scenario.buyer1 "row-0"))
                     (Scenario.first_contract requested))
    by (right; reflexivity).
  assert (H3 : ¬ party (user (Scenario.call Scenario.buyer2 "row-0"))
                       (Scenario.first_contract requested))
    by (intros [H | H]; discriminate H).
  assert (H4 : ∀ c, contracts (db Scenario.requested_twice)
                      !! params_id (Scenario.call Scenario.buyer2 "row-0") = Some c →
                    ¬ party (user (Scenario.call Scenario.buyer2 "row-0")) c).
  { intros c Hc. vm_compute in Hc. injection Hc as <-. exact H3. }
  split; [exact (conj H0 (conj H1 (conj H2 H3)))|].
  destruct (getContractById_parties_only (Scenario.call Scenario.buyer1 "row-0")
              Scenario.requested_twice) as (_ & _ & Hparty).
  destruct (getContractById_parties_only (Scenario.call Scenario.buyer2 "row-0")
              Scenario.requested_twice) as (_ & _ & Hother).
  split.
  - exact (proj1 (Hparty H0) _ H1 H2).
  - exact (proj2 (Hother H0) H4).
Defined.

(** The farmer reads the income entry [row-2] of the completed contract; the
    buyer is answered 404 under the same id. *)
Lemma getTransactionById_owner_only_witness :
  (fault Scenario.completed_once (calls Scenario.completed_once) = false
   ∧ sale_entry "row-2" 1700000000004 (Scenario.first_contract accepted)
     ∈ transactions (db Scenario.completed_once))
  ∧ (∃ r t',
       (getTransactionById (Scenario.call Scenario.farmer "row-2")
          Scenario.completed_once).1 = Returned r
       ∧ TransactionResponse.status r = 200
       ∧ TransactionResponse.success r = true
       ∧ TransactionResponse.data r = Some t'
       ∧ t' ∈ transactions (db Scenario.completed_once)
       ∧ Transaction.id t' = params_id (Scenario.call Scenario.farmer "row-2")
       ∧ Transaction.userId t' = user_id (user (Scenario.call Scenario.farmer "row-2")))
  ∧ (∃ r, (getTransactionById (Scenario.call Scenario.buyer1 "row-2")
             Scenario.completed_once).1 = Returned r
          ∧ TransactionResponse.status r = 404
          ∧ TransactionResponse.success r = false
          ∧ (fst <$> TransactionResponse.error r) = Some "NOT_FOUND"
          ∧ TransactionResponse.data r = None).
Proof.
  assert (H0 : fault Scenario.completed_once (calls Scenario.completed_once) = false)
    by reflexivity.
  assert (Hledger : transactions (db Scenario.completed_once)
                    = [ sale_entry "row-2" 1700000000004
                          (Scenario.first_contract accepted);
                        purchase_entry "row-3" 1700000000005
                          (Scenario.first_contract accepted) ])
    by (vm_compute; reflexivity).
  assert (H1 : sale_entry "row-2" 1700000000004 (Scenario.first_contract accepted)
               ∈ transactions (db Scenario.completed_once)).
  { rewrite Hledger. apply list_elem_of_here. }
  assert (H2 : ∀ t, t ∈ transactions (db Scenario.completed_once) →
                    Transaction.id t
                    = params_id (Scenario.call Scenario.buyer1 "row-2") →
                    Transaction.userId t
                    ≠ user_id (user (Scenario.call Scenario.buyer1 "row-2"))).
  { intros t Hin Hid. rewrite Hledger in Hin.
    apply elem_of_cons in Hin as [->|Hin]; [discriminate|].
    apply list_elem_of_singleton in Hin as ->. discriminate Hid. }
  split; [exact (conj H0 H1)|].
  destruct (getTransactionById_owner_only (Scenario.call Scenario.farmer "row-2")
              Scenario.completed_once) as (_ & _ & Howner).
  destruct (getTransactionById_owner_only (Scenario.call Scenario.buyer1 "row-2")
              Scenario.completed_once) as (_ & _ & Hother).
  split.
  - exact (proj1 (Howner H0) _ H1 eq_refl eq_refl).
  - exact (proj2 (Hother H0) H2).
Defined.

(** The buyer and the farmer complete the accepted contract [row-0] at the
    same time: the empty ledger ends with four entries. *)
Lemma overlapping_completions_witness :
  (fault_free Scenario.accepted_once
   ∧ contracts (db Scenario.accepted_once)
       !! params_id (Scenario.call Scenario.buyer1 "row-0")
     = Some (Scenario.first_contract accepted)
   ∧ party (user (Scenario.call Scenario.buyer1 "row-0"))
           (Scenario.first_contract accepted)
   ∧ party (user (Scenario.call Scenario.farmer "row-0"))
           (Scenario.first_contract accepted)
   ∧ transactions (db Scenario.accepted_once) = [])
  ∧ ∃ r1 r2 w',
      overlapped (completeContract_lookup (Scenario.call Scenario.buyer1 "row-0"))
                 (completeContract_resume (Scenario.call Scenario.buyer1 "row-0"))
                 (completeContract_lookup (Scenario.call Scenario.farmer "row-0"))
                 (completeContract_resume (Scenario.call Scenario.farmer "row-0"))
                 Scenario.accepted_once
      = ((Returned r1, Returned r2), w')
      ∧ Response.status r1 = 200
      ∧ Response.status r2 = 200
      ∧ length (transactions (db w')) = 4.
Proof.
  assert (H0 : fault_free Scenario.accepted_once) by (intros n; reflexivity).
  assert (H1 : contracts (db Scenario.accepted_once)
                 !! params_id (Scenario.call Scenario.buyer1 "row-0")
               = Some (Scenario.first_contract accepted))
    by (vm_compute; reflexivity).
  assert (H2 : party (user (Scenario.call Scenario.buyer1 "row-0"))
                     (Scenario.first_contract accepted))
    by (right; reflexivity).
  assert (H3 : party (user (Scenario.call Scenario.farmer "row-0"))
                     (Scenario.first_contract accepted))
    by (left; reflexivity).
  assert (H4 : is_Some (listings (db Scenario.accepted_once)
                          !! Contract.listingId (Scenario.first_contract accepted))).
  { exists (Listing.with_status contracted Scenario.wheat). vm_compute. reflexivity. }
  assert (H5 : NoDup (uuid Scenario.accepted_once
                        <$> [ minted Scenario.accepted_once;
                              S (minted Scenario.accepted_once);
                              S (S (minted Scenario.accepted_once));
                              S (S (S (minted Scenario.accepted_once))) ])).
  { apply (bool_decide_unpack _). vm_compute. exact I. }
  assert (H6 : Forall (λ n, uuid Scenario.accepted_once n
                            ∉ ledger_ids (db Scenario.accepted_once))
                      [ minted Scenario.accepted_once;
                        S (minted Scenario.accepted_once);
                        S (S (minted Scenario.accepted_once));
                        S (S (S (minted Scenario.accepted_once))) ]).
  { apply (bool_decide_unpack _). vm_compute. exact I. }
  assert (H7 : transactions (db Scenario.accepted_once) = [])
    by (vm_compute; reflexivity).
  split; [exact (conj H0 (conj H1 (conj H2 (conj H3 H7))))|].
  destruct (overlapping_completions (Scenario.call Scenario.buyer1 "row-0")
              (Scenario.call Scenario.farmer "row-0") Scenario.accepted_once
              (Scenario.first_contract accepted)
              H0 eq_refl H1 eq_refl H2 H3 (list_elem_of_here _ _) H4 H5 H6)
    as (r1 & r2 & w' & s1 & p1 & s2 & p2 & Hrun & [Hr1 _] & [Hr2 _] & Hledger & _).
  exists r1, r2, w'.
  split; [exact Hrun|]. split; [exact Hr1|]. split; [exact Hr2|].
  rewrite Hledger, H7. reflexivity.
Defined.
